(** * The wallet linker service (logic/linker_service.py)

    A shallow embedding of the pairing / session / mailbox logic of the
    bridge server.

    - The four SQL tables are lists of rows in insertion order, each with
      its own id sequence; a query without ORDER BY reads a table in that
      order, and [.first()] is the first matching row.
    - A service function takes the committed database and returns the
      database committed when it returns or raises, together with its
      Python result.  An exception ends the request and what the request
      had not committed is discarded.
    - The clock, the uuid generator and the random generator are explicit
      inputs of the calls that read them; every [utcnow()] of one call
      reads the same time [now].
    - Arguments that the service tests for [None] or the empty string are
      optional strings; the wallet token, the code and the tokens that the
      request layer requires are strings.
    - A string is the list of its UTF-8 bytes, which is what [_hash_id]
      hashes; [len] and indexing count characters. *)

From Stdlib Require Import ZArith List String Ascii Bool Lia.
From Stdlib Require Import DecimalString Sorted.
Import ListNotations.

Local Open Scope string_scope.
Local Open Scope list_scope.
Local Open Scope Z_scope.

#[local] Set Warnings "-register-all".

(** ** Python values *)

(** JSON-shaped Python values: what the JSON columns hold and what the
    request layer hands over ([JNull] is Python's [None]). *)
Inductive json : Type :=
| JNull
| JBool (b : bool)
| JNum (n : Z)
| JStr (s : string)
| JList (l : list json)
| JDict (kv : list (string * json)).

(** A Python dict with string keys, in insertion order. *)
Definition dict := list (string * json).

(** The exceptions the service can raise. *)
Inductive exn : Type :=
| AttributeError
| TypeError
| KeyError
| IndexError
| Exception_ (msg : string).

Inductive result (A : Type) : Type :=
| Ok (a : A)
| Raise (e : exn).
Arguments Ok {A} a.
Arguments Raise {A} e.

Definition bind {A B} (r : result A) (k : A -> result B) : result B :=
  match r with
  | Ok a => k a
  | Raise e => Raise e
  end.

Notation "x <- c ;; k" := (bind c (fun x => k))
  (at level 61, c at next level, right associativity).

Fixpoint mapM {A B} (f : A -> result B) (l : list A) : result (list B) :=
  match l with
  | [] => Ok []
  | a :: l' => b <- f a ;; bs <- mapM f l' ;; Ok (b :: bs)
  end.

Definition raises {A} (r : result A) : Prop := exists e, r = Raise e.

(** [bool(v)] *)
Definition truthy (v : json) : bool :=
  match v with
  | JNull => false
  | JBool b => b
  | JNum n => negb (n =? 0)
  | JStr s => negb (s =? EmptyString)%string
  | JList l => match l with [] => false | _ => true end
  | JDict kv => match kv with [] => false | _ => true end
  end.

(** [bool(s)] for an optional string argument: [None] and [''] are false. *)
Definition truthy_str (s : option string) : bool :=
  match s with
  | None => false
  | Some s => negb (s =? EmptyString)%string
  end.

Definition truthy_dict (d : option dict) : bool :=
  match d with
  | None | Some [] => false
  | Some _ => true
  end.

(** [d.get(k)] as an option; [dict_get_json] is [d.get(k)] as a value. *)
Fixpoint dict_get (k : string) (d : dict) : option json :=
  match d with
  | [] => None
  | (k', v) :: d' => if (k' =? k)%string then Some v else dict_get k d'
  end.

Definition dict_get_json (k : string) (d : dict) : json :=
  match dict_get k d with Some v => v | None => JNull end.

(** [k in d] *)
Definition dict_has (k : string) (d : dict) : bool :=
  match dict_get k d with Some _ => true | None => false end.

(** [d[k] = v]: replaces the value of an existing key in place, appends a
    new key. *)
Fixpoint dict_set (k : string) (v : json) (d : dict) : dict :=
  match d with
  | [] => [(k, v)]
  | (k', v') :: d' =>
      if (k' =? k)%string then (k', v) :: d' else (k', v') :: dict_set k v d'
  end.

(** [v[k]] for a string key. *)
Definition subscript (v : json) (k : string) : result json :=
  match v with
  | JDict d => match dict_get k d with Some x => Ok x | None => Raise KeyError end
  | _ => Raise TypeError
  end.

(** A Python string is held as its UTF-8 bytes.  A byte [10xxxxxx]
    continues the character that the last other byte began. *)
Definition continuation (c : ascii) : bool :=
  let n := nat_of_ascii c in ((128 <=? n) && (n <? 192))%nat.

(** The bytes that continue a character cut off at the front of the string,
    and the characters that follow. *)
Fixpoint utf8_split (s : string) : string * list string :=
  match s with
  | EmptyString => (EmptyString, [])
  | String c s' =>
      let '(more, chars) := utf8_split s' in
      if continuation c then (String c more, chars)
      else (EmptyString, String c more :: chars)
  end.

(** The characters of a string, each as a string of its own. *)
Definition characters (s : string) : list string := snd (utf8_split s).

(** [len(v)] *)
Definition len (v : json) : result Z :=
  match v with
  | JStr s => Ok (Z.of_nat (List.length (characters s)))
  | JList l => Ok (Z.of_nat (List.length l))
  | JDict d => Ok (Z.of_nat (List.length d))
  | _ => Raise TypeError
  end.

(** [v[i]] for a natural index. *)
Definition index (v : json) (i : nat) : result json :=
  match v with
  | JList l => match nth_error l i with Some x => Ok x | None => Raise IndexError end
  | JStr s => match nth_error (characters s) i with
              | Some c => Ok (JStr c)
              | None => Raise IndexError
              end
  | JDict _ => Raise KeyError
  | _ => Raise TypeError
  end.

(** [v.get(k)]: only a dict has the method. *)
Definition method_get (v : json) (k : string) : result json :=
  match v with
  | JDict d => Ok (dict_get_json k d)
  | _ => Raise AttributeError
  end.

Definition json_of_str (s : option string) : json :=
  match s with Some s => JStr s | None => JNull end.

(** ** The tables (database.db_models) *)

(** Modelled from the spec: the enum [MessageTypes] of database.db_models,
    with the members the service uses (NETWORK, ACCOUNTS and CALL_RESPONSE
    for client messages, CALL for wallet messages). *)
Inductive MessageTypes : Type := NETWORK | ACCOUNTS | CALL | CALL_RESPONSE.

Definition MessageTypes_name (t : MessageTypes) : string :=
  match t with
  | NETWORK => "NETWORK"
  | ACCOUNTS => "ACCOUNTS"
  | CALL => "CALL"
  | CALL_RESPONSE => "CALL_RESPONSE"
  end.

(** Times are microseconds since the epoch, as a Python [datetime]. *)
Definition time := Z.

(** Modelled from the spec: the row type [LinkedTokens] of
    database.db_models (the PairingRecord), with the columns the service
    reads and writes. *)
Module LinkedTokens.
Record t : Type := mk {
  id : Z;
  client_token : string;
  code : option string;
  code_expires : option time;
  linked : bool;
  wallet_token : option string;
  current_rpc : json;
  current_accounts : json;
  pending_call : option dict;
  app_info : option dict;
  linked_at : option time;
  current_return_url : option string
}.

Definition set_code (v : option string) (r : t) : t :=
  mk (id r) (client_token r) v (code_expires r) (linked r) (wallet_token r)
     (current_rpc r) (current_accounts r) (pending_call r) (app_info r)
     (linked_at r) (current_return_url r).
Definition set_code_expires (v : option time) (r : t) : t :=
  mk (id r) (client_token r) (code r) v (linked r) (wallet_token r)
     (current_rpc r) (current_accounts r) (pending_call r) (app_info r)
     (linked_at r) (current_return_url r).
Definition set_linked (v : bool) (r : t) : t :=
  mk (id r) (client_token r) (code r) (code_expires r) v (wallet_token r)
     (current_rpc r) (current_accounts r) (pending_call r) (app_info r)
     (linked_at r) (current_return_url r).
Definition set_wallet_token (v : option string) (r : t) : t :=
  mk (id r) (client_token r) (code r) (code_expires r) (linked r) v
     (current_rpc r) (current_accounts r) (pending_call r) (app_info r)
     (linked_at r) (current_return_url r).
Definition set_current_rpc (v : json) (r : t) : t :=
  mk (id r) (client_token r) (code r) (code_expires r) (linked r)
     (wallet_token r) v (current_accounts r) (pending_call r) (app_info r)
     (linked_at r) (current_return_url r).
Definition set_current_accounts (v : json) (r : t) : t :=
  mk (id r) (client_token r) (code r) (code_expires r) (linked r)
     (wallet_token r) (current_rpc r) v (pending_call r) (app_info r)
     (linked_at r) (current_return_url r).
Definition set_pending_call (v : option dict) (r : t) : t :=
  mk (id r) (client_token r) (code r) (code_expires r) (linked r)
     (wallet_token r) (current_rpc r) (current_accounts r) v (app_info r)
     (linked_at r) (current_return_url r).
Definition set_app_info (v : option dict) (r : t) : t :=
  mk (id r) (client_token r) (code r) (code_expires r) (linked r)
     (wallet_token r) (current_rpc r) (current_accounts r) (pending_call r) v
     (linked_at r) (current_return_url r).
Definition set_linked_at (v : option time) (r : t) : t :=
  mk (id r) (client_token r) (code r) (code_expires r) (linked r)
     (wallet_token r) (current_rpc r) (current_accounts r) (pending_call r)
     (app_info r) v (current_return_url r).
Definition set_current_return_url (v : option string) (r : t) : t :=
  mk (id r) (client_token r) (code r) (code_expires r) (linked r)
     (wallet_token r) (current_rpc r) (current_accounts r) (pending_call r)
     (app_info r) (linked_at r) v.
End LinkedTokens.

(** Modelled from the spec: the row type [LinkedSession] of
    database.db_models (the SessionRecord). *)
Module LinkedSession.
Record t : Type := mk {
  id : Z;
  session_token : string;
  linked_id : Z
}.
End LinkedSession.

(** Modelled from the spec: the row type [LinkedMessage] of
    database.db_models (the ClientMessage). *)
Module LinkedMessage.
Record t : Type := mk {
  id : Z;
  session_id : Z;
  type : MessageTypes;
  data : json
}.
End LinkedMessage.

(** Modelled from the spec: the row type [WalletMessage] of
    database.db_models. *)
Module WalletMessage.
Record t : Type := mk {
  id : Z;
  wallet_token : option string;
  current_accounts : json;
  type : MessageTypes;
  data : json
}.
End WalletMessage.

(** The committed database: the rows of each table in insertion order and
    the next value of each table's id sequence (ids start at 1 and are never
    handed out twice). *)
Record db : Type := mkdb {
  tokens : list LinkedTokens.t;
  sessions : list LinkedSession.t;
  messages : list LinkedMessage.t;
  wallet_msgs : list WalletMessage.t;
  next_token_id : Z;
  next_session_id : Z;
  next_message_id : Z;
  next_wallet_msg_id : Z
}.

Definition empty_db : db := mkdb [] [] [] [] 1 1 1 1.

Definition with_tokens (l : list LinkedTokens.t) (s : db) : db :=
  mkdb l (sessions s) (messages s) (wallet_msgs s)
       (next_token_id s) (next_session_id s) (next_message_id s)
       (next_wallet_msg_id s).

Definition with_messages (l : list LinkedMessage.t) (s : db) : db :=
  mkdb (tokens s) (sessions s) l (wallet_msgs s)
       (next_token_id s) (next_session_id s) (next_message_id s)
       (next_wallet_msg_id s).

Definition with_wallet_msgs (l : list WalletMessage.t) (s : db) : db :=
  mkdb (tokens s) (sessions s) (messages s) l
       (next_token_id s) (next_session_id s) (next_message_id s)
       (next_wallet_msg_id s).

(** INSERT of a new pairing record: it takes the next id of the sequence. *)
Definition insert_token (r : LinkedTokens.t) (s : db) : db :=
  mkdb (tokens s ++ [r]) (sessions s) (messages s) (wallet_msgs s)
       (next_token_id s + 1) (next_session_id s) (next_message_id s)
       (next_wallet_msg_id s).

(** UPDATE of a loaded pairing record, by primary key. *)
Definition update_token (r : LinkedTokens.t) (s : db) : db :=
  with_tokens
    (map (fun x => if LinkedTokens.id x =? LinkedTokens.id r then r else x)
         (tokens s)) s.

Definition insert_session (tok : string) (lid : Z) (s : db) : db :=
  mkdb (tokens s)
       (sessions s ++ [LinkedSession.mk (next_session_id s) tok lid])
       (messages s) (wallet_msgs s)
       (next_token_id s) (next_session_id s + 1) (next_message_id s)
       (next_wallet_msg_id s).

Definition insert_message (sid : Z) (ty : MessageTypes) (d : json) (s : db) : db :=
  mkdb (tokens s) (sessions s)
       (messages s ++ [LinkedMessage.mk (next_message_id s) sid ty d])
       (wallet_msgs s)
       (next_token_id s) (next_session_id s) (next_message_id s + 1)
       (next_wallet_msg_id s).

Definition insert_wallet_msg (wt : option string) (acc : json)
    (ty : MessageTypes) (d : json) (s : db) : db :=
  mkdb (tokens s) (sessions s) (messages s)
       (wallet_msgs s ++ [WalletMessage.mk (next_wallet_msg_id s) wt acc ty d])
       (next_token_id s) (next_session_id s) (next_message_id s)
       (next_wallet_msg_id s + 1).

(** ** Queries *)

Definition opt_str_eqb (a : option string) (b : string) : bool :=
  match a with Some a => (a =? b)%string | None => false end.

Definition expires_after (e : option time) (now : time) : bool :=
  match e with Some e => now <? e | None => false end.

(** [filter_by(code = code).filter(LinkedTokens.code_expires > utcnow())] *)
Definition active_code (code : string) (now : time) (r : LinkedTokens.t) : bool :=
  opt_str_eqb (LinkedTokens.code r) code
  && expires_after (LinkedTokens.code_expires r) now.

(** [LinkedTokens.query.filter_by(client_token = client_token).first()] *)
Definition token_by_client (ct : string) (s : db) : option LinkedTokens.t :=
  find (fun r => (LinkedTokens.client_token r =? ct)%string) (tokens s).

(** [LinkedTokens.query.filter_by(client_token = client_token, linked = True).first()] *)
Definition linked_by_client (ct : string) (s : db) : option LinkedTokens.t :=
  find (fun r => (LinkedTokens.client_token r =? ct)%string && LinkedTokens.linked r)
       (tokens s).

(** [LinkedTokens.query.get(id)] *)
Definition token_by_id (i : Z) (s : db) : option LinkedTokens.t :=
  find (fun r => LinkedTokens.id r =? i) (tokens s).

(** [LinkedSession.query.filter_by(session_token = .., linked_id = ..).first()] *)
Definition session_of (st : string) (lid : Z) (s : db) : option LinkedSession.t :=
  find (fun x => (LinkedSession.session_token x =? st)%string
                 && (LinkedSession.linked_id x =? lid)) (sessions s).

(** [LinkedSession.query.filter_by(session_token = ..).first()] *)
Definition session_by_token (st : string) (s : db) : option LinkedSession.t :=
  find (fun x => (LinkedSession.session_token x =? st)%string) (sessions s).

(** [LinkedSession.query.filter_by(linked_id = ..)] *)
Definition sessions_of (lid : Z) (s : db) : list LinkedSession.t :=
  filter (fun x => LinkedSession.linked_id x =? lid) (sessions s).

(** ** The service *)

Section LinkerService.

#[local] Set Default Proof Using "Type".

(** *** Collaborators outside the module *)

(** [hashlib.sha3_224(data).hexdigest()], on the UTF-8 bytes of a string
    (a Python [str] is represented by its UTF-8 encoding). *)
Variable sha3_224_hexdigest : string -> string.

(** [util.transaction_dissector.dissect_transaction(rpc, txn_object)] *)
Variable dissect_transaction : json -> json -> result dict.

(** The attributes of [werkzeug.useragents.UserAgent(ua)]. *)
Variables agent_platform agent_browser agent_language agent_version : json -> json.

(** [util.time_.to_js_timestamp]: a datetime as milliseconds since the epoch. *)
Variable to_js_timestamp : time -> Z.

(** The SQL operator behind [WalletMessage.current_accounts.contains(x)]. *)
Variable contains : json -> json -> bool.

(** [Web3.toChecksumAddress], the lookup of the wallet's notification
    endpoint and [notifier_service.send_single_notification]. *)
Inductive Notification : Type := INFO_TRANSACTION_PENDING | TRANSACTION_PENDING.
Variable toChecksumAddress : json -> result string.
Variable notification_endpoint : string -> option string -> json.
Variable send_single_notification : json -> Notification -> json -> result unit.

Definition CODE_EXPIRATION_TIME_MINUTES : Z := 60.

(** [datetime.timedelta(minutes = m)] in microseconds. *)
Definition timedelta_minutes (m : Z) : Z := m * 60 * 1000000.

(** [string.ascii_letters + string.digits] *)
Definition ascii_letters_digits : string :=
  "abcdefghijklmnopqrstuvwxyzABCDEFGHIJKLMNOPQRSTUVWXYZ0123456789".

(** [''.join(random.choices(population, k = k))]: the j-th character is
    [population[floor(random() * len(population))]]; [rnd j] is the random
    draw, reduced to an index of the population. *)
Definition choices (population : string) (k : nat) (rnd : nat -> nat) : string :=
  string_of_list_ascii
    (map (fun j => nth (rnd j mod String.length population)%nat
                       (list_ascii_of_string population) Ascii.zero)
         (seq 0 k)).

(** The query of [_generate_code]:
    [LinkedTokens.query.filter_by(code = code).filter(code_expires > utcnow()).count()] *)
Definition count_active (code : string) (now : time) (s : db) : nat :=
  List.length (filter (active_code code now) (tokens s)).

(** The loop of [_generate_code] with [n] attempts left, at attempt [i]. *)
Fixpoint _generate_code_from (n i : nat) (rnd : nat -> nat -> nat)
    (now : time) (s : db) : result string :=
  match n with
  | O => Raise (Exception_ "We hit max retries without finding a none repreated code!")
  | S n' =>
      let code := choices ascii_letters_digits 9 (rnd i) in
      if (count_active code now s =? 0)%nat then Ok code
      else _generate_code_from n' (S i) rnd now s
  end.

Definition _generate_code (rnd : nat -> nat -> nat) (now : time) (s : db)
  : result string :=
  _generate_code_from 10 0 rnd now s.

(** ["%d" % n] *)
Definition format_d (n : Z) : string := NilZero.string_of_int (Z.to_int n).

Definition _hash_id (exposed_id : Z) (key : string) : string :=
  substring 0 16 (sha3_224_hexdigest (format_d exposed_id ++ key)%string).

Definition _get_meta (rpc call : json) : result dict :=
  if truthy call then
    n <- len call ;;
    if 1 <? n then
      arg <- index call 1 ;;
      txn <- method_get arg "txn_object" ;;
      if truthy txn then
        txn_object <- subscript arg "txn_object" ;;
        dissect_transaction rpc txn_object
      else Ok []
    else Ok []
  else Ok [].

Definition send_init_messages (db_linked_session : LinkedSession.t)
    (linked_obj : LinkedTokens.t) (s : db) : db :=
  let sid := LinkedSession.id db_linked_session in
  insert_message sid ACCOUNTS (LinkedTokens.current_accounts linked_obj)
    (insert_message sid NETWORK (LinkedTokens.current_rpc linked_obj) s).

(** [uuid] is the value of [str(uuid.uuid1())]. *)
Definition generate_init_session (uuid : string) (linked_obj : LinkedTokens.t)
    (s : db) : db * string :=
  let session_token := uuid in
  let db_linked_session :=
    LinkedSession.mk (next_session_id s) session_token (LinkedTokens.id linked_obj) in
  let s1 := insert_session session_token (LinkedTokens.id linked_obj) s in
  let s2 := if LinkedTokens.linked linked_obj
            then send_init_messages db_linked_session linked_obj s1
            else s1 in
  (s2, session_token).

Definition str_or_empty (o : option string) : string :=
  match o with Some x => x | None => EmptyString end.

Definition is_some {A} (o : option A) : bool :=
  match o with Some _ => true | None => false end.

(** [generate_code]; [uuid_client] and [uuid_session] are the values the two
    calls of [uuid.uuid1()] would return, [rnd i] is the random source of the
    i-th attempt of [_generate_code].  Nothing is committed before line 61,
    so an exception before it leaves the database as it was; one raised
    while the pending call is attached leaves what was committed by then. *)
Definition generate_code (now : time) (uuid_client uuid_session : string)
    (rnd : nat -> nat -> nat)
    (client_token session_token return_url : option string)
    (pending_call : option dict) (user_agent : option string)
    (force_relink : bool) (s : db)
  : db * result (string * string * option string * bool) :=
  let fresh := negb (truthy_str client_token) in
  let client_token := if fresh then uuid_client else str_or_empty client_token in
  let found :=
    if fresh
    then Some (LinkedTokens.mk (next_token_id s) client_token None None false
                 None JNull JNull None None None None)
    else token_by_client client_token s in
  match found with
  | None => (s, Raise AttributeError)
  | Some linked_obj =>
      let linked_obj :=
        if force_relink
        then LinkedTokens.set_wallet_token None (LinkedTokens.set_linked false linked_obj)
        else linked_obj in
      let issued :=
        if negb (LinkedTokens.linked linked_obj) then
          let linked_obj :=
            if truthy_str user_agent
            then LinkedTokens.set_app_info
                   (Some [("user-agent", JStr (str_or_empty user_agent))]) linked_obj
            else linked_obj in
          code <- _generate_code rnd now s ;;
          Ok (LinkedTokens.set_current_return_url return_url
                (LinkedTokens.set_code_expires
                   (Some (now + timedelta_minutes CODE_EXPIRATION_TIME_MINUTES))
                   (LinkedTokens.set_code (Some code) linked_obj)))
        else Ok linked_obj in
      match issued with
      | Raise e => (s, Raise e)
      | Ok linked_obj =>
          let s1 := if fresh then insert_token linked_obj s
                    else update_token linked_obj s in
          let '(s2, session_token) :=
            if truthy_str session_token
               && is_some (session_of (str_or_empty session_token)
                             (LinkedTokens.id linked_obj) s1)
            then (s1, str_or_empty session_token)
            else generate_init_session uuid_session linked_obj s1 in
          let ret linked_obj :=
            if negb (LinkedTokens.linked linked_obj)
            then (client_token, session_token, LinkedTokens.code linked_obj, false)
            else (client_token, session_token, Some EmptyString, true) in
          if truthy_dict pending_call && negb (LinkedTokens.linked linked_obj) then
            let pending_call :=
              dict_set "session_token" (JStr session_token)
                (match pending_call with Some d => d | None => [] end) in
            match _get_meta JNull (dict_get_json "call" pending_call) with
            | Raise e => (s2, Raise e)
            | Ok meta =>
                let pending_call := dict_set "meta" (JDict meta) pending_call in
                let linked_obj :=
                  LinkedTokens.set_pending_call (Some pending_call) linked_obj in
                (update_token linked_obj s2, Ok (ret linked_obj))
            end
          else (s2, Ok (ret linked_obj))
      end
  end.

(** The body of the loop of [get_linked_messages]: one row re-shaped. *)
Definition shape_linked_message (db_message : LinkedMessage.t) : result json :=
  let message_type := LinkedMessage.type db_message in
  let message := [("type", JStr (MessageTypes_name message_type));
                  ("id", JNum (LinkedMessage.id db_message))] in
  match message_type with
  | NETWORK =>
      Ok (JDict (dict_set "network_rpc" (LinkedMessage.data db_message) message))
  | ACCOUNTS =>
      Ok (JDict (dict_set "accounts" (LinkedMessage.data db_message) message))
  | _ =>
      r <- subscript (LinkedMessage.data db_message) "result" ;;
      c <- subscript (LinkedMessage.data db_message) "call_id" ;;
      Ok (JDict (dict_set "call_id" c (dict_set "result" r message)))
  end.

Definition owned_by (db_linked_session : LinkedSession.t) (m : LinkedMessage.t) : bool :=
  LinkedMessage.session_id m =? LinkedSession.id db_linked_session.

(** The rows the purge of [get_linked_messages] deletes. *)
Definition purged (db_linked_session : LinkedSession.t) (last : Z)
    (m : LinkedMessage.t) : bool :=
  owned_by db_linked_session m && (LinkedMessage.id m <=? last).

(** The rows the final query of [get_linked_messages] selects. *)
Definition selected (db_linked_session : LinkedSession.t)
    (last_message_id : option Z) (m : LinkedMessage.t) : bool :=
  owned_by db_linked_session m
  && match last_message_id with
     | Some last => last <? LinkedMessage.id m
     | None => true
     end.

Definition get_linked_messages (db_linked_session : LinkedSession.t)
    (last_message_id : option Z) (purge : bool) (s : db)
  : db * result (list json) :=
  let s1 :=
    match last_message_id with
    | Some last =>
        if purge
        then with_messages
               (filter (fun m => negb (purged db_linked_session last m)) (messages s)) s
        else s
    | None => s
    end in
  (s1, mapM shape_linked_message
         (filter (selected db_linked_session last_message_id) (messages s1))).

Definition link_messages (uuid : string)
    (client_token session_token : option string) (last_message_id : option Z)
    (s : db)
  : db * result (option string * option string * list json * bool) :=
  if negb (truthy_str client_token) then (s, Ok (client_token, None, [], false))
  else
    match token_by_client (str_or_empty client_token) s with
    | None => (s, Ok (Some EmptyString, None, [], false))
    | Some linked_obj =>
        if negb (LinkedTokens.linked linked_obj)
        then (s, Ok (client_token, session_token, [], false))
        else
          let generated := negb (truthy_str session_token) in
          let '(s1, session_token) :=
            if generated then generate_init_session uuid linked_obj s
            else (s, str_or_empty session_token) in
          let poll session_token db_linked_session s :=
            let '(s', r) :=
              get_linked_messages db_linked_session last_message_id true s in
            (s', msgs <- r ;; Ok (client_token, Some session_token, msgs, true)) in
          match session_of session_token (LinkedTokens.id linked_obj) s1 with
          | Some db_linked_session => poll session_token db_linked_session s1
          | None =>
              if generated
              then (s1, Raise (Exception_ "Problem generating the session."))
              else
                let '(s2, session_token) :=
                  generate_init_session uuid linked_obj s1 in
                match session_of session_token (LinkedTokens.id linked_obj) s2 with
                | Some db_linked_session => poll session_token db_linked_session s2
                | None => (s2, Raise AttributeError)
                end
          end
    end.

(** The body of the loop of [wallet_messages]. *)
Definition shape_wallet_message (db_message : WalletMessage.t) : result json :=
  let message_type := WalletMessage.type db_message in
  let message := [("type", JStr (MessageTypes_name message_type));
                  ("id", JNum (WalletMessage.id db_message))] in
  match message_type with
  | CALL =>
      let data := WalletMessage.data db_message in
      call <- subscript data "call" ;;
      meta <- subscript data "meta" ;;
      call_id <- subscript data "call_id" ;;
      let message :=
        dict_set "call_id" call_id (dict_set "meta" meta (dict_set "call" call message)) in
      match data with
      | JDict d =>
          let message :=
            if dict_has "session_token" d
            then dict_set "session_token" (dict_get_json "session_token" d) message
            else message in
          let message :=
            if truthy (dict_get_json "return_url" d)
            then dict_set "return_url" (dict_get_json "return_url" d) message
            else message in
          Ok (JDict message)
      | _ => Raise TypeError
      end
  | _ => Ok (JDict message)
  end.

Definition wallet_messages (wallet_token : string) (accounts : json)
    (last_message_id : option Z) (s : db) : db * result (list json) :=
  if (wallet_token =? EmptyString)%string then (s, Ok [])
  else
    match index accounts 0 with
    | Raise e => (s, Raise e)
    | Ok account =>
        let mine m :=
          opt_str_eqb (WalletMessage.wallet_token m) wallet_token
          && contains (WalletMessage.current_accounts m) account in
        let s1 :=
          match last_message_id with
          | Some last =>
              with_wallet_msgs
                (filter (fun m => negb (mine m && (WalletMessage.id m <=? last)))
                        (wallet_msgs s)) s
          | None => s
          end in
        (s1, mapM shape_wallet_message
               (filter (fun m => mine m
                                 && match last_message_id with
                                    | Some last => last <? WalletMessage.id m
                                    | None => true
                                    end)
                       (wallet_msgs s1)))
    end.

Definition _to_usable_info (app_info : option dict) : option dict :=
  match app_info with
  | Some d =>
      if truthy_dict app_info && dict_has "user-agent" d then
        let ua := dict_get_json "user-agent" d in
        Some [("platform", agent_platform ua); ("browser", agent_browser ua);
              ("language", agent_language ua); ("version", agent_version ua)]
      else None
  | None => None
  end.

(** The pairing record an unexpired code leads to:
    [LinkedTokens.query.filter_by(code = code).filter(code_expires > utcnow()).first()] *)
Definition unexpired_by_code (code : string) (now : time) (s : db)
  : option LinkedTokens.t :=
  find (active_code code now) (tokens s).

(** The record of [link_wallet] after its seven assignments. *)
Definition linked_record (now : time) (wallet_token : string)
    (current_rpc current_accounts : json) (unlinked : LinkedTokens.t)
  : LinkedTokens.t :=
  LinkedTokens.set_pending_call None
    (LinkedTokens.set_linked_at (Some now)
       (LinkedTokens.set_current_accounts current_accounts
          (LinkedTokens.set_current_rpc current_rpc
             (LinkedTokens.set_linked true
                (LinkedTokens.set_code None
                   (LinkedTokens.set_wallet_token (Some wallet_token) unlinked)))))).

(** The loop of [link_wallet] over the sessions of the record. *)
Definition fan_out (unlinked : LinkedTokens.t) (l : list LinkedSession.t) (s : db) : db :=
  fold_left (fun acc linked_session => send_init_messages linked_session unlinked acc) l s.

Definition link_wallet (now : time) (wallet_token code : string)
    (current_rpc current_accounts : json) (s : db)
  : db * result (option string * bool * option dict * option dict * string * Z) :=
  match unexpired_by_code code now s with
  | None => (s, Ok (Some EmptyString, false, None, None, EmptyString, 0))
  | Some unlinked =>
      let last_pending_call := LinkedTokens.pending_call unlinked in
      let last_user_agent := _to_usable_info (LinkedTokens.app_info unlinked) in
      let unlinked :=
        linked_record now wallet_token current_rpc current_accounts unlinked in
      let s1 := update_token unlinked s in
      let s2 :=
        if negb (LinkedTokens.id unlinked =? 0)
        then fan_out unlinked (sessions_of (LinkedTokens.id unlinked) s1) s1
        else s1 in
      (s2, Ok (LinkedTokens.current_return_url unlinked, true, last_pending_call,
               last_user_agent,
               _hash_id (LinkedTokens.id unlinked) (LinkedTokens.client_token unlinked),
               to_js_timestamp now))
  end.

Definition call_wallet (client_token session_token : option string)
    (accounts call_id call : json) (return_url : option string) (s : db)
  : db * result bool :=
  if negb (truthy_str client_token) then (s, Ok false)
  else
    match linked_by_client (str_or_empty client_token) s with
    | None => (s, Ok false)
    | Some linked_obj =>
        let session_obj :=
          match session_token with
          | Some st => session_of st (LinkedTokens.id linked_obj) s
          | None => None
          end in
        match _get_meta (LinkedTokens.current_rpc linked_obj) call with
        | Raise e => (s, Raise e)
        | Ok meta =>
            match session_obj with
            | None => (s, Raise AttributeError)
            | Some session_obj =>
                let call_data :=
                  [("call_id", call_id); ("call", call); ("meta", JDict meta);
                   ("session_token", JStr (LinkedSession.session_token session_obj))] in
                let call_data :=
                  if truthy_str return_url
                  then dict_set "return_url" (json_of_str return_url) call_data
                  else call_data in
                let s1 :=
                  insert_wallet_msg (LinkedTokens.wallet_token linked_obj) accounts
                    CALL (JDict call_data) s in
                (s1,
                 account <- index accounts 0 ;;
                 eth_address <- toChecksumAddress account ;;
                 let endpoint :=
                   notification_endpoint eth_address (LinkedTokens.wallet_token linked_obj) in
                 _ <- (if dict_has "info" meta
                       then send_single_notification endpoint INFO_TRANSACTION_PENDING
                              (dict_get_json "info" meta)
                       else send_single_notification endpoint TRANSACTION_PENDING (JDict [])) ;;
                 Ok true)
            end
        end
    end.

Definition wallet_called (wallet_token : string) (call_id : json)
    (session_token : string) (result_ : json) (s : db) : db * result bool :=
  match session_by_token session_token s with
  | None => (s, Raise (Exception_ "Session does not exist"))
  | Some session_obj =>
      match token_by_id (LinkedSession.linked_id session_obj) s with
      | None => (s, Raise (Exception_ "Session not linked"))
      | Some linked_obj =>
          if negb (opt_str_eqb (LinkedTokens.wallet_token linked_obj) wallet_token)
          then (s, Raise (Exception_ "Wallet linked to a different session"))
          else
            let response_data := [("call_id", call_id); ("result", result_)] in
            (insert_message (LinkedSession.id session_obj) CALL_RESPONSE
               (JDict response_data) s, Ok true)
      end
  end.

Definition unlink (client_token : string) (s : db) : db * result bool :=
  match token_by_client client_token s with
  | None => (s, Ok true)
  | Some unlinked =>
      if negb (LinkedTokens.linked unlinked) then (s, Ok true)
      else (update_token (LinkedTokens.set_linked false unlinked) s, Ok true)
  end.

(** The loop of [unlink_wallet] stops at the first record of the wallet that
    is linked and whose hashed id is [link_id]. *)
Definition unlink_wallet (wallet_token link_id : string) (s : db) : db * result bool :=
  match find (fun linked =>
                LinkedTokens.linked linked
                && (_hash_id (LinkedTokens.id linked) (LinkedTokens.client_token linked)
                    =? link_id)%string)
             (filter (fun r => opt_str_eqb (LinkedTokens.wallet_token r) wallet_token)
                     (tokens s)) with
  | Some linked =>
      (update_token
         (LinkedTokens.set_wallet_token (Some EmptyString)
            (LinkedTokens.set_linked false linked)) s, Ok true)
  | None => (s, Ok false)
  end.

(** What [link_info] returns: the pair [("", None)], or the four values of
    a pairing request that can still be completed. *)
Inductive link_preview : Type :=
| no_preview
| preview (return_url : option string) (app_info : option dict)
    (link_id : string) (expires : Z).

(** [to_js_timestamp] is applied to the expiry of the record; the query
    selects records that have one, and on [None] the model raises. *)
Definition link_info (code : string) (now : time) (s : db) : result link_preview :=
  match unexpired_by_code code now s with
  | None => Ok no_preview
  | Some unlinked =>
      if LinkedTokens.linked unlinked then Ok no_preview
      else
        match LinkedTokens.code_expires unlinked with
        | Some expires =>
            Ok (preview (LinkedTokens.current_return_url unlinked)
                  (_to_usable_info (LinkedTokens.app_info unlinked))
                  (_hash_id (LinkedTokens.id unlinked)
                     (LinkedTokens.client_token unlinked))
                  (to_js_timestamp expires))
        | None => Raise TypeError
        end
  end.

(** [_link_dict]; [to_js_timestamp] is applied to [link.linked_at], and on
    [None] the model raises. *)
Definition _link_dict (link : LinkedTokens.t) : result dict :=
  match LinkedTokens.linked_at link with
  | Some linked_at =>
      Ok [("linked", JBool (LinkedTokens.linked link));
          ("app_info",
           match _to_usable_info (LinkedTokens.app_info link) with
           | Some d => JDict d
           | None => JNull
           end);
          ("link_id",
           JStr (_hash_id (LinkedTokens.id link) (LinkedTokens.client_token link)));
          ("linked_at", JNum (to_js_timestamp linked_at))]
  | None => Raise TypeError
  end.

(** The records [get_links] renders:
    [LinkedTokens.query.filter_by(wallet_token = wallet_token, linked = True)],
    filtered again by [if l.linked]. *)
Definition links_of (wallet_token : string) (s : db) : list LinkedTokens.t :=
  filter LinkedTokens.linked
    (filter (fun l => opt_str_eqb (LinkedTokens.wallet_token l) wallet_token
                      && LinkedTokens.linked l)
            (tokens s)).

Definition get_links (wallet_token : string) (s : db) : result (list dict) :=
  mapM _link_dict (links_of wallet_token s).

(** ** Runs of the service *)

(** One request to the service, with what it reads from the uuid and random
    generators. *)
Inductive request : Type :=
| GenerateCode (uuid_client uuid_session : string) (rnd : nat -> nat -> nat)
    (client_token session_token return_url : option string)
    (pending_call : option dict) (user_agent : option string) (force_relink : bool)
| LinkMessages (uuid : string) (client_token session_token : option string)
    (last_message_id : option Z)
| WalletMessages (wallet_token : string) (accounts : json) (last_message_id : option Z)
| LinkWallet (wallet_token code : string) (current_rpc current_accounts : json)
| CallWallet (client_token session_token : option string)
    (accounts call_id call : json) (return_url : option string)
| WalletCalled (wallet_token : string) (call_id : json) (session_token : string)
    (result_ : json)
| Unlink (client_token : string)
| UnlinkWallet (wallet_token link_id : string).

(** The database after a request served at time [now]. *)
Definition serve (now : time) (req : request) (s : db) : db :=
  match req with
  | GenerateCode uc us rnd ct st url pc ua fr =>
      fst (generate_code now uc us rnd ct st url pc ua fr s)
  | LinkMessages u ct st last => fst (link_messages u ct st last s)
  | WalletMessages wt acc last => fst (wallet_messages wt acc last s)
  | LinkWallet wt code rpc acc => fst (link_wallet now wt code rpc acc s)
  | CallWallet ct st acc cid call url => fst (call_wallet ct st acc cid call url s)
  | WalletCalled wt cid st res => fst (wallet_called wt cid st res s)
  | Unlink ct => fst (unlink ct s)
  | UnlinkWallet wt lid => fst (unlink_wallet wt lid s)
  end.

(** [reachable now s]: the database [s] is what a sequence of requests,
    served one after the other from the empty database at non-decreasing
    times, has committed by time [now]. *)
Inductive reachable : time -> db -> Prop :=
| reachable_empty : forall now, reachable now empty_db
| reachable_serve : forall t now req s,
    reachable t s -> t <= now -> reachable now (serve now req s).

(** ** Invariants of the committed database *)

(** The row invariant of a pairing record. *)
Definition token_ok (r : LinkedTokens.t) : Prop :=
  (LinkedTokens.code r <> None -> LinkedTokens.linked r = false)
  /\ (LinkedTokens.linked r = true ->
      LinkedTokens.wallet_token r <> None /\ LinkedTokens.code r = None)
  /\ (LinkedTokens.linked r = true -> LinkedTokens.pending_call r = None).

(** What a client message carries: network and account state, or the
    [{call_id, result}] of a delivered result. *)
Definition message_ok (m : LinkedMessage.t) : Prop :=
  LinkedMessage.type m = NETWORK \/ LinkedMessage.type m = ACCOUNTS
  \/ (LinkedMessage.type m = CALL_RESPONSE
      /\ exists call_id result_,
           LinkedMessage.data m = JDict [("call_id", call_id); ("result", result_)]).

(** The ids of a table: ascending in table order, positive and below the
    next value of the sequence. *)
Definition ids_ok (ids : list Z) (next : Z) : Prop :=
  StronglySorted Z.lt ids /\ Forall (fun i => 0 < i < next) ids.

Record wf (s : db) : Prop := mkwf {
  wf_tokens : ids_ok (map LinkedTokens.id (tokens s)) (next_token_id s);
  wf_sessions : ids_ok (map LinkedSession.id (sessions s)) (next_session_id s);
  wf_messages : ids_ok (map LinkedMessage.id (messages s)) (next_message_id s);
  wf_message_data : Forall message_ok (messages s);
  wf_next : 0 < next_token_id s /\ 0 < next_session_id s /\ 0 < next_message_id s
}.

(** No two pairing records hold the same code unexpired at time [now]. *)
Definition codes_distinct (now : time) (s : db) : Prop :=
  forall r1 r2 c,
    In r1 (tokens s) -> In r2 (tokens s) ->
    active_code c now r1 = true -> active_code c now r2 = true ->
    LinkedTokens.id r1 = LinkedTokens.id r2.

Definition invariant (now : time) (s : db) : Prop :=
  wf s /\ Forall token_ok (tokens s) /\ codes_distinct now s.

(** How one write of a request changes the code of a record: it keeps the
    code and its expiry, clears the code, or issues a code that is not
    active anywhere at that time. *)
Definition code_step (now : time) (s : db) (r r' : LinkedTokens.t) : Prop :=
  (LinkedTokens.code r' = LinkedTokens.code r
   /\ LinkedTokens.code_expires r' = LinkedTokens.code_expires r)
  \/ LinkedTokens.code r' = None
  \/ (exists c, LinkedTokens.code r' = Some c /\ count_active c now s = 0%nat).

(** The writes the service commits. *)
Inductive write (now : time) : db -> db -> Prop :=
| write_update : forall r r' s,
    In r (tokens s) -> LinkedTokens.id r' = LinkedTokens.id r ->
    token_ok r' -> code_step now s r r' ->
    write now s (update_token r' s)
| write_insert_token : forall r' s,
    LinkedTokens.id r' = next_token_id s -> token_ok r' ->
    (LinkedTokens.code r' = None
     \/ exists c, LinkedTokens.code r' = Some c /\ count_active c now s = 0%nat) ->
    write now s (insert_token r' s)
| write_insert_session : forall tok lid s,
    write now s (insert_session tok lid s)
| write_insert_message : forall sid ty d s,
    message_ok (LinkedMessage.mk (next_message_id s) sid ty d) ->
    write now s (insert_message sid ty d s)
| write_delete_messages : forall f s,
    write now s (with_messages (filter f (messages s)) s)
| write_insert_wallet_msg : forall wt acc ty d s,
    write now s (insert_wallet_msg wt acc ty d s)
| write_delete_wallet_msgs : forall f s,
    write now s (with_wallet_msgs (filter f (wallet_msgs s)) s).

(** A request commits a sequence of writes. *)
Inductive writes (now : time) : db -> db -> Prop :=
| writes_nil : forall s, writes now s s
| writes_cons : forall s1 s2 s3,
    write now s1 s2 -> writes now s2 s3 -> writes now s1 s3.

(** ** Notions the properties are stated with *)

(** A string over the alphabet of letters and digits. *)
Definition alphanumeric (c : string) : Prop :=
  Forall (fun ch => In ch (list_ascii_of_string ascii_letters_digits))
         (list_ascii_of_string c).

(** The code drawn at attempt [i]. *)
Definition candidate (rnd : nat -> nat -> nat) (i : nat) : string :=
  choices ascii_letters_digits 9 (rnd i).

(** No pairing record holds [c] as an unexpired code at [now]. *)
Definition unused (c : string) (now : time) (s : db) : Prop :=
  forall r e, In r (tokens s) -> LinkedTokens.code r = Some c ->
              LinkedTokens.code_expires r = Some e -> e <= now.

(** The rows [link_wallet] adds for the sessions [l], from message id [n]
    on: a NETWORK and an ACCOUNTS row per session. *)
Fixpoint init_rows (n : Z) (r : LinkedTokens.t) (l : list LinkedSession.t)
  : list LinkedMessage.t :=
  match l with
  | [] => []
  | x :: l' =>
      LinkedMessage.mk n (LinkedSession.id x) NETWORK (LinkedTokens.current_rpc r)
      :: LinkedMessage.mk (n + 1) (LinkedSession.id x) ACCOUNTS
           (LinkedTokens.current_accounts r)
      :: init_rows (n + 2) r l'
  end.

(** The flat shape of a polled client message, per kind. *)
Inductive reshaped : LinkedMessage.t -> json -> Prop :=
| reshaped_network : forall i sid d,
    reshaped (LinkedMessage.mk i sid NETWORK d)
      (JDict [("type", JStr "NETWORK"); ("id", JNum i); ("network_rpc", d)])
| reshaped_accounts : forall i sid d,
    reshaped (LinkedMessage.mk i sid ACCOUNTS d)
      (JDict [("type", JStr "ACCOUNTS"); ("id", JNum i); ("accounts", d)])
| reshaped_result : forall i sid ty d res cid,
    ty <> NETWORK -> ty <> ACCOUNTS ->
    dict_get "result" d = Some res -> dict_get "call_id" d = Some cid ->
    reshaped (LinkedMessage.mk i sid ty (JDict d))
      (JDict [("type", JStr (MessageTypes_name ty)); ("id", JNum i);
              ("result", res); ("call_id", cid)]).

(** Every character, and every string of at most [n] characters. *)
Definition all_ascii : list ascii := map ascii_of_nat (seq 0 256).

Fixpoint strings_upto (n : nat) : list string :=
  match n with
  | O => [EmptyString]
  | S n' =>
      EmptyString :: flat_map (fun x => map (fun ch => String ch x) all_ascii) (strings_upto n')
  end.

(** The secret made of [n] letters a. *)
Fixpoint letters (n : nat) : string :=
  match n with
  | O => EmptyString
  | S n' => String "a" (letters n')
  end.

(** What the service keeps true of a pairing record beyond [token_ok]: a
    linked record has its linking time, a code has an expiry, the app info
    is the user agent, and a pending call carries its session token and its
    metadata. *)
Definition record_ok (r : LinkedTokens.t) : Prop :=
  (LinkedTokens.linked r = true -> LinkedTokens.linked_at r <> None)
  /\ (LinkedTokens.code r <> None -> LinkedTokens.code_expires r <> None)
  /\ (LinkedTokens.app_info r = None
      \/ exists ua, LinkedTokens.app_info r = Some [("user-agent", JStr ua)])
  /\ (forall pc, LinkedTokens.pending_call r = Some pc ->
        (exists st, dict_get "session_token" pc = Some (JStr st))
        /\ exists meta, dict_get "meta" pc = Some (JDict meta)).

(** The payload of a queued call. *)
Definition call_data_ok (d : dict) : Prop :=
  exists call_id call meta st,
    dict_get "call_id" d = Some call_id /\ dict_get "call" d = Some call
    /\ dict_get "meta" d = Some (JDict meta)
    /\ dict_get "session_token" d = Some (JStr st).

Definition wallet_message_ok (m : WalletMessage.t) : Prop :=
  WalletMessage.type m = CALL
  /\ (exists wt, WalletMessage.wallet_token m = Some wt)
  /\ exists d, WalletMessage.data m = JDict d /\ call_data_ok d.

(** The references between the tables, and the rows of the wallet mailbox. *)
Record sound (s : db) : Prop := mksound {
  sound_records : Forall record_ok (tokens s);
  sound_sessions :
    Forall (fun x => In (LinkedSession.linked_id x) (map LinkedTokens.id (tokens s)))
           (sessions s);
  sound_messages :
    Forall (fun m => In (LinkedMessage.session_id m) (map LinkedSession.id (sessions s)))
           (messages s);
  sound_wallet_ids :
    ids_ok (map WalletMessage.id (wallet_msgs s)) (next_wallet_msg_id s)
    /\ 0 < next_wallet_msg_id s;
  sound_wallet_msgs : Forall wallet_message_ok (wallet_msgs s)
}.

(** The writes of the service, with what each one writes. *)
Inductive effect : db -> db -> Prop :=
| effect_update : forall r r' s,
    In r (tokens s) -> LinkedTokens.id r' = LinkedTokens.id r ->
    (record_ok r -> record_ok r') ->
    effect s (update_token r' s)
| effect_insert_token : forall r' s,
    LinkedTokens.id r' = next_token_id s -> record_ok r' ->
    effect s (insert_token r' s)
| effect_insert_session : forall tok r s,
    In r (tokens s) -> effect s (insert_session tok (LinkedTokens.id r) s)
| effect_insert_message : forall x ty d s,
    In x (sessions s) -> effect s (insert_message (LinkedSession.id x) ty d s)
| effect_delete_messages : forall f s,
    effect s (with_messages (filter f (messages s)) s)
| effect_insert_wallet_msg : forall r wt acc d s,
    In r (tokens s) -> LinkedTokens.wallet_token r = Some wt -> call_data_ok d ->
    effect s (insert_wallet_msg (LinkedTokens.wallet_token r) acc CALL (JDict d) s)
| effect_delete_wallet_msgs : forall f s,
    effect s (with_wallet_msgs (filter f (wallet_msgs s)) s).

Inductive effects : db -> db -> Prop :=
| effects_nil : forall s, effects s s
| effects_cons : forall s1 s2 s3, effect s1 s2 -> effects s2 s3 -> effects s1 s3.

(** The record [generate_code] writes when it issues the code [c]: lines 55
    to 59 applied to the record [r]. *)
Definition issued_record (now : time) (url ua : option string) (c : string)
    (r : LinkedTokens.t) : LinkedTokens.t :=
  LinkedTokens.set_current_return_url url
    (LinkedTokens.set_code_expires
       (Some (now + timedelta_minutes CODE_EXPIRATION_TIME_MINUTES))
       (LinkedTokens.set_code (Some c)
          (if truthy_str ua
           then LinkedTokens.set_app_info
                  (Some [("user-agent", JStr (str_or_empty ua))]) r
           else r))).

(** The record of a new client: [LinkedTokens(client_token = .., linked = False)]. *)
Definition new_record (i : Z) (client_token : string) : LinkedTokens.t :=
  LinkedTokens.mk i client_token None None false None JNull JNull None None None None.

(** The pending call [generate_code] stores: the call it was given, with
    the session token and the metadata added. *)
Definition stored_call (pc : dict) (session_token : string) (meta : dict) : dict :=
  dict_set "meta" (JDict meta) (dict_set "session_token" (JStr session_token) pc).

(** The flat shape of a polled wallet message, key by key: the kind, the
    id, the call, its metadata, its id and its session token as queued, and
    the return url when the queued one is not empty. *)
Definition wallet_reshaped (m : WalletMessage.t) (j : json) : Prop :=
  exists d out,
    WalletMessage.data m = JDict d /\ j = JDict out
    /\ dict_get "type" out = Some (JStr "CALL")
    /\ dict_get "id" out = Some (JNum (WalletMessage.id m))
    /\ dict_get "call" out = dict_get "call" d
    /\ dict_get "meta" out = dict_get "meta" d
    /\ dict_get "call_id" out = dict_get "call_id" d
    /\ dict_get "session_token" out = dict_get "session_token" d
    /\ dict_get "return_url" out
       = (if truthy (dict_get_json "return_url" d)
          then dict_get "return_url" d else None).

(** The wallet messages a poll with wallet token [wt] and first account [a]
    is about. *)
Definition addressed_to (wt : string) (a : json) (m : WalletMessage.t) : Prop :=
  WalletMessage.wallet_token m = Some wt
  /\ contains (WalletMessage.current_accounts m) a = true.

(** ** Lists of rows *)

Lemma sorted_snoc (l : list Z) (n : Z) :
  StronglySorted Z.lt l -> Forall (fun i => i < n) l ->
  StronglySorted Z.lt (l ++ [n]).
Proof.
  induction l as [|a l IH]; simpl; intros Hs Hb.
  - constructor; constructor.
  - inversion Hs; subst. inversion Hb; subst.
    constructor; [now apply IH|].
    apply Forall_app; split; [assumption|]. constructor; [assumption|constructor].
Qed.

Lemma ids_ok_snoc (l : list Z) (n : Z) :
  0 < n -> ids_ok l n -> ids_ok (l ++ [n]) (n + 1).
Proof.
  intros Hn [Hs Hb]. split.
  - apply sorted_snoc; [assumption|].
    eapply Forall_impl; [|exact Hb]. simpl; intros; lia.
  - apply Forall_app; split.
    + eapply Forall_impl; [|exact Hb]. simpl; intros; lia.
    + constructor; [lia|constructor].
Qed.

Lemma ids_ok_filter {A} (g : A -> Z) (f : A -> bool) (l : list A) (n : Z) :
  ids_ok (map g l) n -> ids_ok (map g (filter f l)) n.
Proof.
  intros [Hs Hb]. split.
  - clear Hb. induction l as [|a l IH]; simpl in *; [constructor|].
    inversion Hs; subst. destruct (f a); simpl; [|now apply IH].
    constructor; [now apply IH|].
    rewrite Forall_forall in *. intros x Hx. apply H2.
    rewrite in_map_iff in *. destruct Hx as (y & <- & Hy).
    exists y. split; [reflexivity|]. now apply filter_In in Hy.
  - rewrite Forall_forall in *. intros x Hx. apply Hb.
    rewrite in_map_iff in *. destruct Hx as (y & <- & Hy).
    exists y. split; [reflexivity|]. now apply filter_In in Hy.
Qed.

Lemma sorted_NoDup (l : list Z) : StronglySorted Z.lt l -> NoDup l.
Proof.
  induction 1 as [|a l Hs IH Ha]; constructor; [|assumption].
  intros Hin. rewrite Forall_forall in Ha. specialize (Ha _ Hin). lia.
Qed.

Lemma map_id_update (r : LinkedTokens.t) (l : list LinkedTokens.t) :
  map LinkedTokens.id
    (map (fun x => if LinkedTokens.id x =? LinkedTokens.id r then r else x) l)
  = map LinkedTokens.id l.
Proof.
  induction l as [|a l IH]; simpl; [reflexivity|]. rewrite IH. f_equal.
  destruct (Z.eqb_spec (LinkedTokens.id a) (LinkedTokens.id r)); congruence.
Qed.

Lemma in_update (r x : LinkedTokens.t) (l : list LinkedTokens.t) :
  In x (map (fun y => if LinkedTokens.id y =? LinkedTokens.id r then r else y) l) ->
  (x = r /\ exists y, In y l /\ LinkedTokens.id y = LinkedTokens.id r)
  \/ (In x l /\ LinkedTokens.id x <> LinkedTokens.id r).
Proof.
  rewrite in_map_iff. intros (y & Hy & Hin).
  destruct (Z.eqb_spec (LinkedTokens.id y) (LinkedTokens.id r)); subst.
  - left. split; [reflexivity|]. now exists y.
  - now right.
Qed.

Lemma same_id_same_row {A} (g : A -> Z) (l : list A) (x y : A) :
  NoDup (map g l) -> In x l -> In y l -> g x = g y -> x = y.
Proof.
  induction l as [|a l IH]; simpl; [easy|].
  intros Hnd Hx Hy Hg. inversion Hnd as [|? ? Hna Hnd']; subst.
  destruct Hx as [->|Hx], Hy as [->|Hy]; try reflexivity.
  - exfalso. apply Hna. rewrite Hg. now apply in_map.
  - exfalso. apply Hna. rewrite <- Hg. now apply in_map.
  - now apply IH.
Qed.

(** ** The writes keep the invariant *)

Lemma count_active_zero (c : string) (now : time) (s : db) (r : LinkedTokens.t) :
  count_active c now s = 0%nat -> In r (tokens s) -> active_code c now r = false.
Proof.
  unfold count_active. intros Hc Hin.
  destruct (active_code c now r) eqn:Ha; [|reflexivity].
  apply length_zero_iff_nil in Hc.
  assert (Hf : In r (filter (active_code c now) (tokens s)))
    by (apply filter_In; now split).
  rewrite Hc in Hf. destruct Hf.
Qed.

Lemma active_code_inv (c : string) (now : time) (r : LinkedTokens.t) :
  active_code c now r = true ->
  LinkedTokens.code r = Some c
  /\ exists e, LinkedTokens.code_expires r = Some e /\ now < e.
Proof.
  unfold active_code, opt_str_eqb, expires_after. intros H.
  apply andb_prop in H. destruct H as [Hc He].
  destruct (LinkedTokens.code r) as [c'|]; [|discriminate].
  apply String.eqb_eq in Hc. subst c'. split; [reflexivity|].
  destruct (LinkedTokens.code_expires r) as [e|]; [|discriminate].
  exists e. split; [reflexivity|]. now apply Z.ltb_lt.
Qed.

Lemma active_code_intro (c : string) (now e : time) (r : LinkedTokens.t) :
  LinkedTokens.code r = Some c -> LinkedTokens.code_expires r = Some e ->
  now < e -> active_code c now r = true.
Proof.
  unfold active_code, opt_str_eqb, expires_after. intros -> -> H.
  rewrite String.eqb_refl. simpl. now apply Z.ltb_lt.
Qed.

Lemma active_code_earlier (c : string) (t now : time) (r : LinkedTokens.t) :
  t <= now -> active_code c now r = true -> active_code c t r = true.
Proof.
  intros Hle H. apply active_code_inv in H. destruct H as (Hc & e & He & Hlt).
  eapply active_code_intro; eauto. lia.
Qed.

Lemma invariant_later (t now : time) (s : db) :
  t <= now -> invariant t s -> invariant now s.
Proof.
  intros Hle (Hwf & Hok & Hcd). split; [assumption|split; [assumption|]].
  intros r1 r2 c H1 H2 A1 A2.
  apply (Hcd r1 r2 c); eauto using active_code_earlier.
Qed.

Lemma invariant_empty (now : time) : invariant now empty_db.
Proof.
  split; [|split; [constructor|intros r1 r2 c []]].
  constructor; simpl; repeat split; try constructor; lia.
Qed.

Lemma write_wf (now : time) (s s' : db) : write now s s' -> wf s -> wf s'.
Proof.
  intros Hw [Ht Hs Hm Hd Hn]. destruct Hn as (Hn1 & Hn2 & Hn3).
  destruct Hw; constructor; simpl; try assumption; try (repeat split; lia).
  - now rewrite map_id_update.
  - rewrite map_app. simpl. rewrite H. now apply ids_ok_snoc.
  - rewrite map_app. simpl. now apply ids_ok_snoc.
  - rewrite map_app. simpl. now apply ids_ok_snoc.
  - apply Forall_app. split; [assumption|]. constructor; [assumption|constructor].
  - now apply ids_ok_filter.
  - rewrite Forall_forall in *. intros x Hx. apply Hd. now apply filter_In in Hx.
Qed.

Lemma write_tokens_ok (now : time) (s s' : db) :
  write now s s' -> Forall token_ok (tokens s) -> Forall token_ok (tokens s').
Proof.
  intros Hw Hok. destruct Hw; simpl; try assumption.
  - rewrite Forall_forall in *. intros x Hx. apply in_update in Hx.
    destruct Hx as [[-> _]|[Hx _]]; [assumption|now apply Hok].
  - apply Forall_app. split; [assumption|]. constructor; [assumption|constructor].
Qed.

Lemma write_codes_distinct (now : time) (s s' : db) :
  write now s s' -> codes_distinct now s -> codes_distinct now s'.
Proof.
  intros Hw Hcd. destruct Hw; simpl; try assumption.
  - (* UPDATE of a pairing record *)
    assert (Hnew : forall x c, In x (tokens s) ->
               LinkedTokens.id x <> LinkedTokens.id r' ->
               active_code c now r' = true -> active_code c now x = true -> False).
    { intros x c Hx Hne A1 A2.
      destruct H2 as [[Hc He]|[Hc|(c' & Hc & Hz)]].
      - apply Hne. rewrite H0. apply (Hcd x r c); try assumption.
        unfold active_code in *. now rewrite <- Hc, <- He.
      - apply active_code_inv in A1. destruct A1 as [A1 _]. congruence.
      - apply active_code_inv in A1. destruct A1 as [A1 _].
        assert (c' = c) by congruence. subst c'.
        rewrite (count_active_zero _ _ _ _ Hz Hx) in A2. discriminate. }
    intros r1 r2 c I1 I2 A1 A2. simpl in I1, I2.
    apply in_update in I1. apply in_update in I2.
    destruct I1 as [[-> _]|[I1 N1]], I2 as [[-> _]|[I2 N2]].
    + reflexivity.
    + exfalso. eapply Hnew; eauto.
    + exfalso. eapply Hnew; eauto.
    + eapply Hcd; eauto.
  - (* INSERT of a pairing record *)
    assert (Hnew : forall x c, In x (tokens s) ->
               active_code c now r' = true -> active_code c now x = true -> False).
    { intros x c Hx A1 A2. apply active_code_inv in A1. destruct A1 as [A1 _].
      destruct H1 as [Hc|(c' & Hc & Hz)]; [congruence|].
      assert (c' = c) by congruence. subst c'.
      rewrite (count_active_zero _ _ _ _ Hz Hx) in A2. discriminate. }
    intros r1 r2 c I1 I2 A1 A2. simpl in I1, I2.
    apply in_app_or in I1. apply in_app_or in I2. simpl in I1, I2.
    destruct I1 as [I1|[<-|[]]], I2 as [I2|[<-|[]]].
    + eapply Hcd; eauto.
    + exfalso. eapply Hnew; eauto.
    + exfalso. eapply Hnew; eauto.
    + reflexivity.
Qed.

Lemma write_invariant (now : time) (s s' : db) :
  write now s s' -> invariant now s -> invariant now s'.
Proof.
  intros Hw (Hwf & Hok & Hcd). split; [|split].
  - eapply write_wf; eassumption.
  - eapply write_tokens_ok; eassumption.
  - eapply write_codes_distinct; eassumption.
Qed.

Lemma writes_invariant (now : time) (s s' : db) :
  writes now s s' -> invariant now s -> invariant now s'.
Proof.
  induction 1; eauto using write_invariant.
Qed.

Lemma writes_one (now : time) (s s' : db) : write now s s' -> writes now s s'.
Proof. intros H. eapply writes_cons; [exact H|constructor]. Qed.

Lemma writes_app (now : time) (s1 s2 s3 : db) :
  writes now s1 s2 -> writes now s2 s3 -> writes now s1 s3.
Proof. induction 1; eauto using writes_cons. Qed.

(** ** Every request commits writes *)

Lemma _generate_code_from_unused (n i : nat) (rnd : nat -> nat -> nat)
    (now : time) (s : db) (c : string) :
  _generate_code_from n i rnd now s = Ok c -> count_active c now s = 0%nat.
Proof.
  revert i. induction n as [|n IH]; simpl; intros i H; [discriminate|].
  destruct (Nat.eqb_spec (count_active (choices ascii_letters_digits 9 (rnd i)) now s) 0).
  - now inversion H; subst.
  - now apply IH in H.
Qed.

Lemma send_init_messages_writes (now : time) (x : LinkedSession.t)
    (r : LinkedTokens.t) (s : db) :
  writes now s (send_init_messages x r s).
Proof.
  unfold send_init_messages.
  eapply writes_cons; [|apply writes_one]; constructor; unfold message_ok; simpl; auto.
Qed.

Lemma generate_init_session_writes (now : time) (uuid : string)
    (r : LinkedTokens.t) (s : db) :
  writes now s (fst (generate_init_session uuid r s)).
Proof.
  unfold generate_init_session. simpl.
  eapply writes_cons; [apply write_insert_session|].
  destruct (LinkedTokens.linked r);
    [apply send_init_messages_writes|apply writes_nil].
Qed.

Lemma fan_out_writes (now : time) (r : LinkedTokens.t)
    (l : list LinkedSession.t) (s : db) :
  writes now s (fan_out r l s).
Proof.
  revert s. induction l as [|x l IH]; intros s; simpl; [apply writes_nil|].
  eapply writes_app; [apply send_init_messages_writes|apply IH].
Qed.

Lemma get_linked_messages_writes (now : time) (x : LinkedSession.t)
    (last : option Z) (purge : bool) (s : db) :
  writes now s (fst (get_linked_messages x last purge s)).
Proof.
  unfold get_linked_messages. simpl.
  destruct last as [c|]; [|apply writes_nil].
  destruct purge; [|apply writes_nil].
  apply writes_one. apply write_delete_messages.
Qed.

Lemma in_update_self (r r' : LinkedTokens.t) (s : db) :
  In r (tokens s) -> LinkedTokens.id r' = LinkedTokens.id r ->
  In r' (tokens (update_token r' s)).
Proof.
  intros Hin Hid. simpl. apply in_map_iff. exists r. split; [|assumption].
  rewrite Hid, Z.eqb_refl. reflexivity.
Qed.

Ltac token_facts :=
  unfold token_ok, code_step in *; simpl in *;
  repeat match goal with
         | H : _ /\ _ |- _ => destruct H
         end.

Lemma generate_code_writes (now : time) (uc us : string) (rnd : nat -> nat -> nat)
    (ct st url : option string) (pc : option dict) (ua : option string)
    (fr : bool) (s : db) :
  Forall token_ok (tokens s) ->
  writes now s (fst (generate_code now uc us rnd ct st url pc ua fr s)).
Proof.
  intros Hok. unfold generate_code.
  set (fresh := negb (truthy_str ct)).
  set (ctok := if fresh then uc else str_or_empty ct).
  set (new := LinkedTokens.mk (next_token_id s) ctok None None false None
                JNull JNull None None None None).
  assert (Hfound :
    forall r0, (if fresh then Some new else token_by_client ctok s) = Some r0 ->
      token_ok r0
      /\ (if fresh then r0 = new else In r0 (tokens s))).
  { intros r0 H. destruct fresh.
    - inversion H; subst. split; [|reflexivity].
      unfold token_ok, new; simpl. repeat split; congruence.
    - apply find_some in H. destruct H as [H _]. split; [|assumption].
      rewrite Forall_forall in Hok. now apply Hok. }
  destruct (if fresh then Some new else token_by_client ctok s) as [r0|];
    [|apply writes_nil].
  destruct (Hfound r0 eq_refl) as [Hr0 Hin]. clear Hfound.
  set (r1 := if fr then LinkedTokens.set_wallet_token None
                          (LinkedTokens.set_linked false r0) else r0).
  assert (Hr1 : token_ok r1 /\ LinkedTokens.id r1 = LinkedTokens.id r0
                /\ LinkedTokens.code r1 = LinkedTokens.code r0
                /\ LinkedTokens.code_expires r1 = LinkedTokens.code_expires r0).
  { unfold r1. destruct fr; [|auto]. token_facts. repeat split; congruence. }
  destruct Hr1 as (Hr1 & Hid1 & Hc1 & He1).
  match goal with
  | |- context [match ?iss with Ok _ => _ | Raise _ => _ end] =>
      assert (Hiss : forall r2, iss = Ok r2 ->
                token_ok r2 /\ LinkedTokens.id r2 = LinkedTokens.id r0
                /\ LinkedTokens.linked r2 = LinkedTokens.linked r1
                /\ ((LinkedTokens.code r2 = LinkedTokens.code r0
                     /\ LinkedTokens.code_expires r2 = LinkedTokens.code_expires r0)
                    \/ exists c, LinkedTokens.code r2 = Some c
                                 /\ count_active c now s = 0%nat));
      [|destruct iss as [r2|e]; [|apply writes_nil]]
  end.
  { intros r2. destruct (LinkedTokens.linked r1) eqn:Hl1; simpl.
    - intros H; inversion H; subst. auto 6.
    - destruct (_generate_code rnd now s) as [c|e] eqn:Hg; simpl;
        [|destruct (truthy_str ua); discriminate].
      apply _generate_code_from_unused in Hg.
      intros H. assert (Hl2 : LinkedTokens.linked r2 = false
                              /\ LinkedTokens.id r2 = LinkedTokens.id r1
                              /\ LinkedTokens.code r2 = Some c)
        by (destruct (truthy_str ua); inversion H; subst; simpl; auto).
      destruct Hl2 as (Hl2 & Hid2 & Hc2).
      repeat split; try congruence.
      + right. exists c. split; [assumption|assumption]. }
  destruct (Hiss r2 eq_refl) as (Hr2 & Hid2 & Hl2 & Hcode). clear Hiss.
  set (s1 := if fresh then insert_token r2 s else update_token r2 s).
  assert (Hw1 : write now s s1).
  { unfold s1. destruct fresh.
    - subst r0. apply write_insert_token; [now rewrite Hid2|assumption|].
      destruct Hcode as [[Hc _]|Hc]; [left; rewrite Hc; reflexivity|now right].
    - eapply write_update; eauto. unfold code_step.
      destruct Hcode as [Hc|Hc]; [now left|now right; right]. }
  assert (Hin1 : In r2 (tokens s1)).
  { unfold s1. destruct fresh.
    - simpl. apply in_or_app. right. now left.
    - eapply in_update_self; eauto. }
  eapply writes_cons; [exact Hw1|].
  match goal with
  | |- context [let '(_, _) := ?e in _] =>
      assert (Hw2 : writes now s1 (fst e) /\ tokens (fst e) = tokens s1);
      [|destruct e as [s2 stok]; simpl in Hw2]
  end.
  { destruct (truthy_str st && _); simpl; [split; [apply writes_nil|reflexivity]|].
    split; [apply generate_init_session_writes|].
    unfold generate_init_session, send_init_messages; simpl.
    destruct (LinkedTokens.linked r2); reflexivity. }
  destruct Hw2 as [Hw2 Ht2].
  eapply writes_app; [exact Hw2|].
  destruct (truthy_dict pc && negb (LinkedTokens.linked r2)) eqn:Hp;
    [|apply writes_nil].
  destruct (_get_meta JNull _) as [meta|e]; simpl; [|apply writes_nil].
  apply andb_prop in Hp. destruct Hp as [_ Hp]. apply negb_true_iff in Hp.
  rewrite <- Ht2 in Hin1.
  apply writes_one. eapply write_update; [exact Hin1|reflexivity| |left; split; reflexivity].
  token_facts. repeat split; congruence.
Qed.

Lemma link_messages_writes (now : time) (uuid : string)
    (ct st : option string) (last : option Z) (s : db) :
  writes now s (fst (link_messages uuid ct st last s)).
Proof.
  unfold link_messages.
  destruct (negb (truthy_str ct)); [apply writes_nil|].
  destruct (token_by_client (str_or_empty ct) s) as [r|]; [|apply writes_nil].
  destruct (negb (LinkedTokens.linked r)); [apply writes_nil|].
  assert (Hpoll : forall (tok : string) x s0 s1, writes now s0 s1 ->
            writes now s0
              (fst (let '(s', r0) := get_linked_messages x last true s1 in
                    (s', msgs <- r0 ;; Ok (ct, Some tok, msgs, true))))).
  { intros tok x s0 s1 H. eapply writes_app; [exact H|].
    pose proof (get_linked_messages_writes now x last true s1) as Hg.
    destruct (get_linked_messages x last true s1). exact Hg. }
  destruct (negb (truthy_str st)).
  - pose proof (generate_init_session_writes now uuid r s) as Hg.
    destruct (generate_init_session uuid r s) as [s1 tok]. simpl in Hg.
    destruct (session_of tok (LinkedTokens.id r) s1); [now apply Hpoll|exact Hg].
  - destruct (session_of (str_or_empty st) (LinkedTokens.id r) s);
      [apply Hpoll; apply writes_nil|].
    pose proof (generate_init_session_writes now uuid r s) as Hg.
    destruct (generate_init_session uuid r s) as [s2 tok]. simpl in Hg.
    destruct (session_of tok (LinkedTokens.id r) s2); [now apply Hpoll|exact Hg].
Qed.

Lemma wallet_messages_writes (now : time) (wt : string) (acc : json)
    (last : option Z) (s : db) :
  writes now s (fst (wallet_messages wt acc last s)).
Proof.
  unfold wallet_messages.
  destruct (wt =? EmptyString)%string; [apply writes_nil|].
  destruct (index acc 0); [|apply writes_nil]. simpl.
  destruct last; [|apply writes_nil].
  apply writes_one. apply write_delete_wallet_msgs.
Qed.

Lemma link_wallet_writes (now : time) (wt code : string) (rpc acc : json) (s : db) :
  writes now s (fst (link_wallet now wt code rpc acc s)).
Proof.
  unfold link_wallet, unexpired_by_code.
  destruct (find (active_code code now) (tokens s)) as [r|] eqn:Hf;
    [|apply writes_nil].
  apply find_some in Hf. destruct Hf as [Hin _]. simpl.
  eapply writes_cons with (s2 := update_token (linked_record now wt rpc acc r) s).
  - eapply write_update with (r := r); [exact Hin|reflexivity| |right; left; reflexivity].
    unfold token_ok; simpl. repeat split; congruence.
  - destruct (negb (LinkedTokens.id r =? 0)); [apply fan_out_writes|apply writes_nil].
Qed.

Lemma call_wallet_writes (now : time) (ct st : option string)
    (acc cid call : json) (url : option string) (s : db) :
  writes now s (fst (call_wallet ct st acc cid call url s)).
Proof.
  unfold call_wallet.
  destruct (negb (truthy_str ct)); [apply writes_nil|].
  destruct (linked_by_client _ s) as [r|]; [|apply writes_nil].
  destruct (_get_meta (LinkedTokens.current_rpc r) call); [|apply writes_nil].
  destruct (match st with Some _ => _ | None => _ end); [|apply writes_nil].
  apply writes_one. apply write_insert_wallet_msg.
Qed.

Lemma wallet_called_writes (now : time) (wt : string) (cid : json)
    (st : string) (res : json) (s : db) :
  writes now s (fst (wallet_called wt cid st res s)).
Proof.
  unfold wallet_called.
  destruct (session_by_token st s) as [x|]; [|apply writes_nil].
  destruct (token_by_id (LinkedSession.linked_id x) s) as [r|]; [|apply writes_nil].
  destruct (negb (opt_str_eqb (LinkedTokens.wallet_token r) wt)); [apply writes_nil|].
  apply writes_one. apply write_insert_message.
  right; right. simpl. split; [reflexivity|]. now exists cid, res.
Qed.

Lemma unlink_writes (now : time) (ct : string) (s : db) :
  writes now s (fst (unlink ct s)).
Proof.
  unfold unlink, token_by_client.
  destruct (find _ (tokens s)) as [r|] eqn:Hf; [|apply writes_nil].
  apply find_some in Hf. destruct Hf as [Hin _].
  destruct (negb (LinkedTokens.linked r)) eqn:Hl; [apply writes_nil|].
  apply writes_one. apply negb_false_iff in Hl.
  eapply write_update with (r := r);
    [exact Hin|reflexivity| |left; split; reflexivity].
  unfold token_ok; simpl. repeat split; congruence.
Qed.

Lemma unlink_wallet_writes (now : time) (wt lid : string) (s : db) :
  writes now s (fst (unlink_wallet wt lid s)).
Proof.
  unfold unlink_wallet.
  destruct (find _ (filter _ (tokens s))) as [r|] eqn:Hf; [|apply writes_nil].
  apply find_some in Hf. destruct Hf as [Hin _]. apply filter_In in Hin.
  destruct Hin as [Hin _].
  apply writes_one.
  eapply write_update with (r := r);
    [exact Hin|reflexivity| |left; split; reflexivity].
  unfold token_ok; simpl. repeat split; congruence.
Qed.

Lemma serve_writes (now : time) (req : request) (s : db) :
  Forall token_ok (tokens s) -> writes now s (serve now req s).
Proof.
  intros Hok. destruct req; simpl.
  - now apply generate_code_writes.
  - apply link_messages_writes.
  - apply wallet_messages_writes.
  - apply link_wallet_writes.
  - apply call_wallet_writes.
  - apply wallet_called_writes.
  - apply unlink_writes.
  - apply unlink_wallet_writes.
Qed.

Lemma reachable_invariant (now : time) (s : db) :
  reachable now s -> invariant now s.
Proof.
  induction 1 as [now|t now req s Hr IH Hle].
  - apply invariant_empty.
  - apply (invariant_later t now) in IH; [|assumption].
    eapply writes_invariant; [|exact IH].
    apply serve_writes. apply IH.
Qed.

(** ** The pairing state machine *)

(** C7: in every state reachable by the requests of the service, a pairing
    record with a code is not linked, a linked record has a wallet token and
    no code, and a linked record has no pending call. *)
Theorem pairing_record_invariant (now : time) (s : db) (r : LinkedTokens.t) :
  reachable now s -> In r (tokens s) ->
  (LinkedTokens.code r <> None -> LinkedTokens.linked r = false)
  /\ (LinkedTokens.linked r = true ->
      LinkedTokens.wallet_token r <> None /\ LinkedTokens.code r = None)
  /\ (LinkedTokens.linked r = true -> LinkedTokens.pending_call r = None).
Proof.
  intros Hr Hin. apply reachable_invariant in Hr.
  destruct Hr as (_ & Hok & _). rewrite Forall_forall in Hok.
  exact (Hok r Hin).
Qed.

(** ** Code issuance *)

Lemma length_string_of_list_ascii (l : list ascii) :
  String.length (string_of_list_ascii l) = List.length l.
Proof. induction l; simpl; congruence. Qed.

Lemma length_list_ascii_of_string (x : string) :
  List.length (list_ascii_of_string x) = String.length x.
Proof. induction x; simpl; congruence. Qed.

Lemma choices_spec (population : string) (k : nat) (rnd : nat -> nat) :
  String.length population <> 0%nat ->
  String.length (choices population k rnd) = k
  /\ Forall (fun ch => In ch (list_ascii_of_string population))
            (list_ascii_of_string (choices population k rnd)).
Proof.
  intros Hne. unfold choices. split.
  - now rewrite length_string_of_list_ascii, length_map, length_seq.
  - rewrite list_ascii_of_string_of_list_ascii. apply Forall_forall.
    intros ch Hch. apply in_map_iff in Hch. destruct Hch as (j & <- & _).
    apply nth_In. rewrite length_list_ascii_of_string.
    now apply Nat.mod_upper_bound.
Qed.

Lemma candidate_spec (rnd : nat -> nat -> nat) (i : nat) :
  String.length (candidate rnd i) = 9%nat /\ alphanumeric (candidate rnd i).
Proof. apply choices_spec. discriminate. Qed.

Lemma count_active_unused (c : string) (now : time) (s : db) :
  count_active c now s = 0%nat <-> unused c now s.
Proof.
  split.
  - intros Hz r e Hin Hc He. destruct (Z.le_gt_cases e now) as [|Hlt]; [assumption|].
    pose proof (count_active_zero c now s r Hz Hin) as Hf.
    rewrite (active_code_intro c now e r Hc He Hlt) in Hf. discriminate.
  - intros Hu. unfold count_active.
    destruct (filter (active_code c now) (tokens s)) as [|r l] eqn:Hf; [reflexivity|].
    assert (Hin : In r (filter (active_code c now) (tokens s)))
      by (rewrite Hf; now left).
    apply filter_In in Hin. destruct Hin as [Hin Ha].
    apply active_code_inv in Ha. destruct Ha as (Hc & e & He & Hlt).
    specialize (Hu r e Hin Hc He). lia.
Qed.

Lemma _generate_code_from_spec (n i : nat) (rnd : nat -> nat -> nat)
    (now : time) (s : db) :
  match _generate_code_from n i rnd now s with
  | Ok c =>
      exists k, (i <= k < i + n)%nat /\ c = candidate rnd k
                /\ unused c now s
                /\ forall j, (i <= j < k)%nat -> ~ unused (candidate rnd j) now s
  | Raise e =>
      e = Exception_ "We hit max retries without finding a none repreated code!"
      /\ forall j, (i <= j < i + n)%nat -> ~ unused (candidate rnd j) now s
  end.
Proof.
  revert i. induction n as [|n IH]; intros i; simpl.
  - split; [reflexivity|]. intros j Hj. lia.
  - fold (candidate rnd i).
    destruct (Nat.eqb_spec (count_active (candidate rnd i) now s) 0) as [Hz|Hnz].
    + exists i. split; [lia|]. split; [reflexivity|].
      split; [now apply count_active_unused|]. intros j Hj. lia.
    + specialize (IH (S i)).
      assert (Hi : ~ unused (candidate rnd i) now s)
        by (intros Hu; now apply count_active_unused in Hu).
      destruct (_generate_code_from n (S i) rnd now s) as [c|e].
      * destruct IH as (k & Hk & Hc & Hu & Hprev).
        exists k. split; [lia|]. split; [assumption|]. split; [assumption|].
        intros j Hj. destruct (Nat.eq_dec j i) as [->|]; [assumption|].
        apply Hprev. lia.
      * destruct IH as [He Hall]. split; [assumption|].
        intros j Hj. destruct (Nat.eq_dec j i) as [->|]; [assumption|].
        apply Hall. lia.
Qed.

(** What [generate_code] leaves when it reports the client as not linked:
    a record of the returned client token holding the returned code, which
    expires [CODE_EXPIRATION_TIME_MINUTES] after [now]. *)
Lemma generate_code_issues (now : time) (uc us : string) (rnd : nat -> nat -> nat)
    (ct st url : option string) (pc : option dict) (ua : option string)
    (fr : bool) (s s' : db) (ctok stok : string) (code : option string) :
  generate_code now uc us rnd ct st url pc ua fr s
  = (s', Ok (ctok, stok, code, false)) ->
  exists c r,
    code = Some c /\ In r (tokens s') /\ LinkedTokens.client_token r = ctok
    /\ LinkedTokens.code r = Some c
    /\ LinkedTokens.code_expires r = Some (now + 60 * 60 * 1000000).
Proof.
  unfold generate_code.
  set (fresh := negb (truthy_str ct)).
  set (ctok0 := if fresh then uc else str_or_empty ct).
  set (new := LinkedTokens.mk (next_token_id s) ctok0 None None false None
                JNull JNull None None None None).
  assert (Hfound :
    forall r0, (if fresh then Some new else token_by_client ctok0 s) = Some r0 ->
      LinkedTokens.client_token r0 = ctok0
      /\ (if fresh then r0 = new else In r0 (tokens s))).
  { intros r0 H. destruct fresh.
    - inversion H; subst. split; reflexivity.
    - apply find_some in H. destruct H as [H H']. split; [|assumption].
      now apply String.eqb_eq in H'. }
  destruct (if fresh then Some new else token_by_client ctok0 s) as [r0|];
    [|discriminate].
  destruct (Hfound r0 eq_refl) as [Hct Hin]. clear Hfound.
  set (r1 := if fr then LinkedTokens.set_wallet_token None
                          (LinkedTokens.set_linked false r0) else r0).
  assert (Hr1 : LinkedTokens.id r1 = LinkedTokens.id r0
                /\ LinkedTokens.client_token r1 = ctok0)
    by (unfold r1; destruct fr; simpl; auto).
  destruct Hr1 as [Hid1 Hct1].
  match goal with
  | |- context [match ?iss with Ok _ => _ | Raise _ => _ end] =>
      assert (Hiss : forall r2, iss = Ok r2 ->
                LinkedTokens.id r2 = LinkedTokens.id r0
                /\ LinkedTokens.client_token r2 = ctok0
                /\ (LinkedTokens.linked r2 = false ->
                    exists c, LinkedTokens.code r2 = Some c
                              /\ LinkedTokens.code_expires r2
                                 = Some (now + 60 * 60 * 1000000)));
      [|destruct iss as [r2|e]; [|discriminate]]
  end.
  { intros r2. destruct (LinkedTokens.linked r1) eqn:Hl1; simpl.
    - intros H; inversion H; subst. repeat split; try assumption. congruence.
    - destruct (_generate_code rnd now s) as [c|e]; simpl;
        [|destruct (truthy_str ua); discriminate].
      intros H. inversion H; subst; clear H.
      destruct (truthy_str ua); simpl; repeat split; try assumption;
        intros _; exists c; split; reflexivity. }
  destruct (Hiss r2 eq_refl) as (Hid2 & Hct2 & Hcode). clear Hiss.
  set (s1 := if fresh then insert_token r2 s else update_token r2 s).
  assert (Hin1 : In r2 (tokens s1)).
  { unfold s1. destruct fresh.
    - simpl. apply in_or_app. right. now left.
    - eapply in_update_self; eauto. }
  match goal with
  | |- context [let '(_, _) := ?e in _] =>
      assert (Ht2 : tokens (fst e) = tokens s1);
      [|destruct e as [s2 stok0]; simpl in Ht2]
  end.
  { destruct (truthy_str st && _); simpl; [reflexivity|].
    unfold generate_init_session, send_init_messages; simpl.
    destruct (LinkedTokens.linked r2); reflexivity. }
  destruct (LinkedTokens.linked r2) eqn:Hl2.
  - rewrite andb_false_r. simpl. intros H; inversion H.
  - destruct (Hcode eq_refl) as (c & Hc & He).
    rewrite andb_true_r. simpl. rewrite <- Ht2 in Hin1.
    destruct (truthy_dict pc).
    + destruct (_get_meta JNull _) as [meta|e]; [|discriminate].
      simpl. rewrite Hl2. simpl. intros H; inversion H; subst; clear H.
      eexists c, _. split; [exact Hc|]. split.
      * eapply in_update_self; [exact Hin1|reflexivity].
      * simpl. auto.
    + intros H; inversion H; subst; clear H.
      exists c, r2. auto.
Qed.

(** C8: [_generate_code] returns a 9-character alphanumeric string that no
    record holds as an unexpired code, the first such among its draws, or
    raises after ten draws that all collided; in a reachable database no two
    records hold the same unexpired code; and a code handed out by
    [generate_code] expires 60 minutes after the call. *)
Theorem code_issuance :
  (forall rnd now s,
     match _generate_code rnd now s with
     | Ok c =>
         String.length c = 9%nat /\ alphanumeric c /\ unused c now s
         /\ exists k, (k < 10)%nat /\ c = candidate rnd k
                      /\ forall j, (j < k)%nat -> ~ unused (candidate rnd j) now s
     | Raise e =>
         e = Exception_ "We hit max retries without finding a none repreated code!"
         /\ forall j, (j < 10)%nat -> ~ unused (candidate rnd j) now s
     end)
  /\ (forall t now s r1 r2 c e1 e2,
        reachable t s -> t <= now ->
        In r1 (tokens s) -> In r2 (tokens s) ->
        LinkedTokens.code r1 = Some c -> LinkedTokens.code_expires r1 = Some e1 ->
        LinkedTokens.code r2 = Some c -> LinkedTokens.code_expires r2 = Some e2 ->
        now < e1 -> now < e2 -> r1 = r2)
  /\ (forall now uc us rnd ct st url pc ua fr s s' ctok stok code,
        generate_code now uc us rnd ct st url pc ua fr s
        = (s', Ok (ctok, stok, code, false)) ->
        CODE_EXPIRATION_TIME_MINUTES = 60
        /\ exists c r,
             code = Some c /\ In r (tokens s')
             /\ LinkedTokens.client_token r = ctok
             /\ LinkedTokens.code r = Some c
             /\ LinkedTokens.code_expires r = Some (now + 60 * 60 * 1000000)).
Proof.
  split; [|split].
  - intros rnd now s. unfold _generate_code.
    pose proof (_generate_code_from_spec 10 0 rnd now s) as H.
    destruct (_generate_code_from 10 0 rnd now s) as [c|e].
    + destruct H as (k & Hk & -> & Hu & Hprev).
      destruct (candidate_spec rnd k) as [Hl Ha].
      repeat split; try assumption.
      exists k. repeat split; [lia|]. intros j Hj. apply Hprev. lia.
    + destruct H as [He Hall]. split; [assumption|].
      intros j Hj. apply Hall. lia.
  - intros t now s r1 r2 c e1 e2 Hr Hle H1 H2 C1 E1 C2 E2 L1 L2.
    apply reachable_invariant in Hr. apply (invariant_later t now) in Hr; [|assumption].
    destruct Hr as (Hwf & _ & Hcd).
    apply (same_id_same_row LinkedTokens.id (tokens s)); try assumption.
    + apply sorted_NoDup. apply (wf_tokens s Hwf).
    + apply (Hcd r1 r2 c); try assumption; eapply active_code_intro; eauto.
  - intros. split; [reflexivity|]. eapply generate_code_issues; eauto.
Qed.

(** ** Linking *)

Lemma fan_out_spec (r : LinkedTokens.t) (l : list LinkedSession.t) (s : db) :
  fan_out r l s
  = mkdb (tokens s) (sessions s)
         (messages s ++ init_rows (next_message_id s) r l) (wallet_msgs s)
         (next_token_id s) (next_session_id s)
         (next_message_id s + 2 * Z.of_nat (List.length l)) (next_wallet_msg_id s).
Proof.
  revert s. induction l as [|x l IH]; intros s.
  - simpl. rewrite app_nil_r, Z.add_0_r. now destruct s.
  - cbn [fan_out fold_left]. fold (fan_out r l (send_init_messages x r s)).
    rewrite IH. unfold send_init_messages, insert_message. cbn -[Z.mul Z.of_nat].
    rewrite <- !app_assoc. cbn [app].
    replace (next_message_id s + 1 + 1) with (next_message_id s + 2) by lia.
    f_equal. rewrite Nat2Z.inj_succ. lia.
Qed.

Lemma init_rows_kinds (n : Z) (r : LinkedTokens.t) (l : list LinkedSession.t) :
  Forall (fun m =>
            n <= LinkedMessage.id m
            /\ ((LinkedMessage.type m = NETWORK
                 /\ LinkedMessage.data m = LinkedTokens.current_rpc r)
                \/ (LinkedMessage.type m = ACCOUNTS
                    /\ LinkedMessage.data m = LinkedTokens.current_accounts r)))
         (init_rows n r l).
Proof.
  revert n. induction l as [|x l IH]; intros n; simpl; [constructor|].
  constructor; [simpl; split; [lia|auto]|].
  constructor; [simpl; split; [lia|auto]|].
  eapply Forall_impl; [|apply IH]. simpl. intros m [Hm Hk]. split; [lia|assumption].
Qed.

Lemma owned_by_mk (x : LinkedSession.t) (n sid : Z) (ty : MessageTypes) (d : json) :
  owned_by x (LinkedMessage.mk n sid ty d) = (sid =? LinkedSession.id x).
Proof. reflexivity. Qed.

Lemma init_rows_other (n : Z) (r : LinkedTokens.t) (l : list LinkedSession.t)
    (x : LinkedSession.t) :
  ~ In (LinkedSession.id x) (map LinkedSession.id l) ->
  filter (owned_by x) (init_rows n r l) = [].
Proof.
  revert n. induction l as [|y l IH]; intros n Hn; simpl; [reflexivity|].
  simpl in Hn. rewrite !owned_by_mk.
  destruct (Z.eqb_spec (LinkedSession.id y) (LinkedSession.id x)) as [E|_];
    [exfalso; apply Hn; now left|].
  apply IH. intros Hin. apply Hn. now right.
Qed.

Lemma init_rows_session (n : Z) (r : LinkedTokens.t) (l : list LinkedSession.t)
    (x : LinkedSession.t) :
  NoDup (map LinkedSession.id l) -> In x l ->
  exists k, n <= k
    /\ filter (owned_by x) (init_rows n r l)
       = [LinkedMessage.mk k (LinkedSession.id x) NETWORK (LinkedTokens.current_rpc r);
          LinkedMessage.mk (k + 1) (LinkedSession.id x) ACCOUNTS
            (LinkedTokens.current_accounts r)].
Proof.
  revert n. induction l as [|y l IH]; intros n Hnd Hin; [destruct Hin|].
  simpl in Hnd. inversion Hnd as [|? ? Hny Hnd']; subst.
  simpl. rewrite !owned_by_mk.
  destruct Hin as [->|Hin].
  - rewrite Z.eqb_refl. exists n. split; [lia|].
    now rewrite (init_rows_other (n + 2) r l x Hny).
  - destruct (Z.eqb_spec (LinkedSession.id y) (LinkedSession.id x)) as [E|_].
    + exfalso. apply Hny. rewrite E. now apply in_map.
    + destruct (IH (n + 2) Hnd' Hin) as (k & Hk & Hf). exists k. split; [lia|assumption].
Qed.

Lemma find_update (r r' : LinkedTokens.t) (l : list LinkedTokens.t) :
  In r l -> LinkedTokens.id r' = LinkedTokens.id r ->
  find (fun x => LinkedTokens.id x =? LinkedTokens.id r)
       (map (fun x => if LinkedTokens.id x =? LinkedTokens.id r' then r' else x) l)
  = Some r'.
Proof.
  intros Hin Hid. rewrite Hid. induction l as [|a l IH]; [destruct Hin|].
  simpl. destruct (Z.eqb_spec (LinkedTokens.id a) (LinkedTokens.id r)) as [E|N].
  - now rewrite Hid, Z.eqb_refl.
  - rewrite (proj2 (Z.eqb_neq _ _) N). apply IH.
    destruct Hin as [->|Hin]; [congruence|assumption].
Qed.

Lemma link_wallet_state (now : time) (wt code : string) (rpc acc : json)
    (s : db) (r : LinkedTokens.t) :
  unexpired_by_code code now s = Some r -> LinkedTokens.id r <> 0 ->
  fst (link_wallet now wt code rpc acc s)
  = fan_out (linked_record now wt rpc acc r) (sessions_of (LinkedTokens.id r) s)
      (update_token (linked_record now wt rpc acc r) s).
Proof.
  intros Hf Hid. unfold link_wallet. rewrite Hf. simpl.
  rewrite (proj2 (Z.eqb_neq _ _) Hid). reflexivity.
Qed.

(** C1: when the code leads to a record, [link_wallet] succeeds, returns the
    pending call the record held, and leaves the record linked to the
    caller's wallet token, with no code and no pending call, the reported
    rpc and accounts and the linking time; the wallet mailbox is as before
    and the client mailbox only gains NETWORK and ACCOUNTS rows. *)
Theorem link_wallet_links (now : time) (wt code : string) (rpc acc : json)
    (s : db) (r : LinkedTokens.t) :
  unexpired_by_code code now s = Some r ->
  exists s' r' new,
    link_wallet now wt code rpc acc s
    = (s', Ok (LinkedTokens.current_return_url r, true, LinkedTokens.pending_call r,
               _to_usable_info (LinkedTokens.app_info r),
               _hash_id (LinkedTokens.id r) (LinkedTokens.client_token r),
               to_js_timestamp now))
    /\ token_by_id (LinkedTokens.id r) s' = Some r'
    /\ LinkedTokens.code r' = None
    /\ LinkedTokens.linked r' = true
    /\ LinkedTokens.wallet_token r' = Some wt
    /\ LinkedTokens.current_rpc r' = rpc
    /\ LinkedTokens.current_accounts r' = acc
    /\ LinkedTokens.linked_at r' = Some now
    /\ LinkedTokens.pending_call r' = None
    /\ LinkedTokens.client_token r' = LinkedTokens.client_token r
    /\ wallet_msgs s' = wallet_msgs s
    /\ messages s' = messages s ++ new
    /\ Forall (fun m => (LinkedMessage.type m = NETWORK /\ LinkedMessage.data m = rpc)
                        \/ (LinkedMessage.type m = ACCOUNTS /\ LinkedMessage.data m = acc))
              new.
Proof.
  intros Hf. pose proof Hf as Hin. apply find_some in Hin. destruct Hin as [Hin _].
  set (r' := linked_record now wt rpc acc r).
  assert (Hfind : forall l,
            token_by_id (LinkedTokens.id r)
              (fan_out r' l (update_token r' s)) = Some r').
  { intros l. rewrite fan_out_spec. unfold token_by_id. simpl.
    apply (find_update r r'); [assumption|reflexivity]. }
  unfold link_wallet. rewrite Hf. fold r'. cbn [LinkedTokens.current_return_url
    LinkedTokens.id LinkedTokens.client_token r' linked_record
    LinkedTokens.set_pending_call LinkedTokens.set_linked_at
    LinkedTokens.set_current_accounts LinkedTokens.set_current_rpc
    LinkedTokens.set_linked LinkedTokens.set_code LinkedTokens.set_wallet_token].
  fold (linked_record now wt rpc acc r). fold r'.
  destruct (negb (LinkedTokens.id r =? 0)).
  - exists (fan_out r' (sessions_of (LinkedTokens.id r) (update_token r' s))
              (update_token r' s)), r',
           (init_rows (next_message_id s) r'
              (sessions_of (LinkedTokens.id r) (update_token r' s))).
    split; [reflexivity|]. split; [apply Hfind|].
    rewrite fan_out_spec. simpl. repeat split.
    eapply Forall_impl; [|apply init_rows_kinds]. simpl. intros m [_ H]. exact H.
  - exists (update_token r' s), r', []. split; [reflexivity|].
    split; [apply (Hfind [])|]. simpl. rewrite app_nil_r. repeat split. constructor.
Qed.

(** C2: a code that leads to no record with an unexpired expiry makes
    [link_wallet] return its failure tuple, without raising, and leaves the
    database as it was. *)
Theorem link_wallet_unknown_code (now : time) (wt code : string)
    (rpc acc : json) (s : db) :
  (forall r, In r (tokens s) -> LinkedTokens.code r = Some code ->
             forall e, LinkedTokens.code_expires r = Some e -> e <= now) ->
  link_wallet now wt code rpc acc s = (s, Ok (Some EmptyString, false, None, None, EmptyString, 0)).
Proof.
  intros Hnone. unfold link_wallet, unexpired_by_code.
  destruct (find (active_code code now) (tokens s)) as [r|] eqn:Hf; [|reflexivity].
  apply find_some in Hf. destruct Hf as [Hin Ha].
  apply active_code_inv in Ha. destruct Ha as (Hc & e & He & Hlt).
  specialize (Hnone r Hin Hc e He). lia.
Qed.

Lemma NoDup_map_filter {A} (g : A -> Z) (f : A -> bool) (l : list A) :
  NoDup (map g l) -> NoDup (map g (filter f l)).
Proof.
  induction l as [|a l IH]; simpl; intros Hnd; [constructor|].
  inversion Hnd as [|? ? Hna Hnd']; subst.
  destruct (f a); simpl; [|now apply IH].
  constructor; [|now apply IH].
  intros Hin. apply Hna. apply in_map_iff in Hin. destruct Hin as (y & Hy & Hin).
  apply in_map_iff. exists y. split; [assumption|]. now apply filter_In in Hin.
Qed.

(** C3: a successful [link_wallet] appends, for each session bound to the
    record, one NETWORK row with the new rpc and one ACCOUNTS row with the
    new accounts, and no row for a session bound to another record; the
    appended rows are new rows (their ids are fresh), so linking again
    after a new code fans out again. *)
Theorem link_wallet_fan_out (t now : time) (wt code : string) (rpc acc : json)
    (s : db) (r : LinkedTokens.t) :
  reachable t s ->
  unexpired_by_code code now s = Some r ->
  exists new,
    messages (fst (link_wallet now wt code rpc acc s)) = messages s ++ new
    /\ sessions (fst (link_wallet now wt code rpc acc s)) = sessions s
    /\ (forall x, In x (sessions s) ->
          LinkedSession.linked_id x = LinkedTokens.id r ->
          exists k, next_message_id s <= k
            /\ filter (owned_by x) new
               = [LinkedMessage.mk k (LinkedSession.id x) NETWORK rpc;
                  LinkedMessage.mk (k + 1) (LinkedSession.id x) ACCOUNTS acc])
    /\ (forall x, In x (sessions s) ->
          LinkedSession.linked_id x <> LinkedTokens.id r ->
          filter (owned_by x) new = [])
    /\ (forall m, In m new -> ~ In m (messages s)).
Proof.
  intros Hr Hf. apply reachable_invariant in Hr. destruct Hr as (Hwf & _ & _).
  pose proof Hf as Hin. apply find_some in Hin. destruct Hin as [Hin _].
  assert (Hid : LinkedTokens.id r <> 0).
  { destruct (wf_tokens s Hwf) as [_ Hb]. rewrite Forall_forall in Hb.
    specialize (Hb _ (in_map LinkedTokens.id _ _ Hin)). lia. }
  assert (Hnd : NoDup (map LinkedSession.id (sessions s)))
    by (apply sorted_NoDup; apply (wf_sessions s Hwf)).
  rewrite (link_wallet_state now wt code rpc acc s r Hf Hid), fan_out_spec.
  set (r' := linked_record now wt rpc acc r).
  set (l := sessions_of (LinkedTokens.id r) (update_token r' s)).
  exists (init_rows (next_message_id s) r' l). simpl.
  split; [reflexivity|]. split; [reflexivity|].
  assert (Hl : forall x, In x l <->
                 In x (sessions s) /\ LinkedSession.linked_id x = LinkedTokens.id r).
  { intros x. unfold l, sessions_of. simpl. rewrite filter_In, Z.eqb_eq. tauto. }
  split; [|split].
  - intros x Hx Hb.
    apply (init_rows_session (next_message_id s) r' l x).
    + unfold l, sessions_of. simpl. now apply NoDup_map_filter.
    + apply Hl. now split.
  - intros x Hx Hb. apply init_rows_other. intros Hi.
    apply in_map_iff in Hi. destruct Hi as (y & Hy & Hyl).
    apply Hl in Hyl. destruct Hyl as [Hys Hyb].
    apply Hb. rewrite <- Hyb. f_equal. symmetry.
    now apply (same_id_same_row LinkedSession.id (sessions s)).
  - intros m Hm Hold.
    pose proof (init_rows_kinds (next_message_id s) r' l) as Hk.
    rewrite Forall_forall in Hk. destruct (Hk m Hm) as [Hge _].
    destruct (wf_messages s Hwf) as [_ Hb]. rewrite Forall_forall in Hb.
    specialize (Hb _ (in_map LinkedMessage.id _ _ Hold)). lia.
Qed.

(** ** The client mailbox *)

Lemma shape_linked_message_ok (m : LinkedMessage.t) :
  message_ok m -> exists j, shape_linked_message m = Ok j /\ reshaped m j.
Proof.
  destruct m as [i sid ty d]. unfold message_ok, shape_linked_message. simpl.
  intros [->|[->|[-> (cid & res & ->)]]].
  - eexists. split; [reflexivity|constructor].
  - eexists. split; [reflexivity|constructor].
  - eexists. split; [reflexivity|]. now constructor.
Qed.

Lemma mapM_shape_ok (l : list LinkedMessage.t) :
  Forall message_ok l ->
  exists out, mapM shape_linked_message l = Ok out /\ Forall2 reshaped l out.
Proof.
  induction 1 as [|m l Hm Hl (out & Ho & Hf)]; simpl.
  - exists []. split; [reflexivity|constructor].
  - destruct (shape_linked_message_ok m Hm) as (j & Hj & Hr).
    exists (j :: out). rewrite Hj, Ho. simpl. split; [reflexivity|now constructor].
Qed.

(** C4: a poll of a session with cursor [c] and purge deletes exactly the
    session's rows with id at most [c] and returns, re-shaped and in
    ascending id order, exactly the session's remaining rows with a larger
    id; rows of other sessions stay. *)
Theorem get_linked_messages_purge (t : time) (s : db) (x : LinkedSession.t) (c : Z) :
  reachable t s ->
  exists s' rows out,
    get_linked_messages x (Some c) true s = (s', Ok out)
    /\ tokens s' = tokens s /\ sessions s' = sessions s
    /\ wallet_msgs s' = wallet_msgs s
    /\ (forall m, In m (messages s') <->
                  In m (messages s)
                  /\ ~ (LinkedMessage.session_id m = LinkedSession.id x
                        /\ LinkedMessage.id m <= c))
    /\ filter (fun m => negb (owned_by x m)) (messages s')
       = filter (fun m => negb (owned_by x m)) (messages s)
    /\ (forall m, In m rows <->
                  In m (messages s')
                  /\ LinkedMessage.session_id m = LinkedSession.id x
                  /\ c < LinkedMessage.id m)
    /\ StronglySorted Z.lt (map LinkedMessage.id rows)
    /\ Forall2 reshaped rows out.
Proof.
  intros Hr. apply reachable_invariant in Hr. destruct Hr as (Hwf & _ & _).
  unfold get_linked_messages.
  set (kept := filter (fun m => negb (purged x c m)) (messages s)).
  set (rows := filter (selected x (Some c)) (messages (with_messages kept s))).
  assert (Hkept : forall m, In m kept <->
            In m (messages s)
            /\ ~ (LinkedMessage.session_id m = LinkedSession.id x
                  /\ LinkedMessage.id m <= c)).
  { intros m. unfold kept, purged, owned_by.
    rewrite filter_In, negb_true_iff, andb_false_iff, Z.eqb_neq, Z.leb_gt.
    split; intros [Hin H]; (split; [assumption|]); [lia|].
    destruct (Z.eq_dec (LinkedMessage.session_id m) (LinkedSession.id x));
      [right|now left].
    destruct (Z_le_gt_dec (LinkedMessage.id m) c); [exfalso; auto|lia]. }
  assert (Hok : Forall message_ok rows).
  { pose proof (wf_message_data s Hwf) as Hd. rewrite Forall_forall in *.
    intros m Hm. apply Hd. unfold rows in Hm. simpl in Hm.
    apply filter_In in Hm. destruct Hm as [Hm _]. now apply Hkept in Hm. }
  destruct (mapM_shape_ok rows Hok) as (out & Hout & Hre).
  exists (with_messages kept s), rows, out.
  fold rows. rewrite Hout. split; [reflexivity|].
  split; [reflexivity|]. split; [reflexivity|]. split; [reflexivity|].
  split; [exact Hkept|]. split; [|split; [|split; [|exact Hre]]].
  - simpl. unfold kept. clear. induction (messages s) as [|a l IH]; [reflexivity|].
    simpl. unfold purged at 1.
    destruct (owned_by x a) eqn:Ho; simpl.
    + destruct (LinkedMessage.id a <=? c); simpl; [assumption|].
      rewrite Ho. simpl. assumption.
    + rewrite Ho. simpl. now f_equal.
  - intros m. unfold rows, selected, owned_by. simpl.
    rewrite filter_In, andb_true_iff, Z.eqb_eq, Z.ltb_lt. tauto.
  - unfold rows. simpl.
    destruct (ids_ok_filter LinkedMessage.id (selected x (Some c)) kept
                (next_message_id s)) as [Hs _]; [|exact Hs].
    apply ids_ok_filter. apply (wf_messages s Hwf).
Qed.

Lemma find_update_first (P : LinkedTokens.t -> bool) (r r' : LinkedTokens.t)
    (l : list LinkedTokens.t) :
  find P l = Some r -> LinkedTokens.id r' = LinkedTokens.id r -> P r' = true ->
  find P (map (fun x => if LinkedTokens.id x =? LinkedTokens.id r' then r' else x) l)
  = Some r'.
Proof.
  intros Hf Hid Hp. induction l as [|a l IH]; [discriminate|].
  simpl in *. destruct (Z.eqb_spec (LinkedTokens.id a) (LinkedTokens.id r')) as [E|N].
  - now rewrite Hp.
  - destruct (P a) eqn:Ha; [|now apply IH].
    inversion Hf; subst. congruence.
Qed.

Lemma token_by_client_update (ct : string) (s : db) (r r' : LinkedTokens.t) :
  token_by_client ct s = Some r -> LinkedTokens.id r' = LinkedTokens.id r ->
  LinkedTokens.client_token r' = LinkedTokens.client_token r ->
  token_by_client ct (update_token r' s) = Some r'.
Proof.
  intros Hf Hid Hct. unfold token_by_client in *.
  apply (find_update_first _ r r' (tokens s) Hf Hid).
  apply find_some in Hf. destruct Hf as [_ Hf]. now rewrite Hct.
Qed.

(** ** The call round trip *)

(** The guards of [wallet_called]: it raises, and leaves the database as it
    was, when the session token resolves to no session, when the session's
    pairing record does not exist, or when the wallet token of the record is
    not the caller's; otherwise it appends one CALL_RESPONSE row with
    [{call_id, result}] for the session and returns true.  The [linked]
    flag of the record is not read. *)
Lemma wallet_called_guards (wt : string) (cid : json) (st : string)
    (res : json) (s : db) :
  ((session_by_token st s = None
    \/ (exists x, session_by_token st s = Some x
                  /\ token_by_id (LinkedSession.linked_id x) s = None)
    \/ (exists x r, session_by_token st s = Some x
                    /\ token_by_id (LinkedSession.linked_id x) s = Some r
                    /\ LinkedTokens.wallet_token r <> Some wt)) ->
   raises (snd (wallet_called wt cid st res s))
   /\ fst (wallet_called wt cid st res s) = s)
  /\ (forall x r,
        session_by_token st s = Some x ->
        token_by_id (LinkedSession.linked_id x) s = Some r ->
        LinkedTokens.wallet_token r = Some wt ->
        exists s',
          wallet_called wt cid st res s = (s', Ok true)
          /\ messages s'
             = messages s
               ++ [LinkedMessage.mk (next_message_id s) (LinkedSession.id x)
                     CALL_RESPONSE (JDict [("call_id", cid); ("result", res)])]
          /\ tokens s' = tokens s /\ sessions s' = sessions s
          /\ wallet_msgs s' = wallet_msgs s).
Proof.
  unfold wallet_called, raises. split.
  - intros [H|[(x & H & H')|(x & r & H & H' & Hw)]]; rewrite H.
    + split; [eexists|]; reflexivity.
    + rewrite H'. split; [eexists|]; reflexivity.
    + rewrite H'.
      assert (Hne : opt_str_eqb (LinkedTokens.wallet_token r) wt = false).
      { unfold opt_str_eqb. destruct (LinkedTokens.wallet_token r) as [w|];
          [|reflexivity].
        apply String.eqb_neq. congruence. }
      rewrite Hne. simpl. split; [eexists|]; reflexivity.
  - intros x r H H' Hw. rewrite H, H', Hw. simpl. rewrite String.eqb_refl. simpl.
    eexists. split; [reflexivity|]. simpl. repeat split.
Qed.

(** C5, where the code departs from it: the second guard of [wallet_called]
    (its message is "Session not linked") tests that the record of the
    session exists, not that it is linked.  After [unlink] of a linked
    client the record is not linked and keeps its wallet token;
    [link_messages], which does test the flag, then answers that the client
    is not linked, and still [wallet_called] from that wallet for a session
    of the record does not raise: it enqueues the CALL_RESPONSE and returns
    true. *)
Theorem wallet_called_ignores_unlink (ct wt st u : string) (cid res : json)
    (last : option Z) (s : db) (r : LinkedTokens.t) (x : LinkedSession.t) :
  ct <> EmptyString ->
  token_by_client ct s = Some r -> LinkedTokens.linked r = true ->
  LinkedTokens.wallet_token r = Some wt ->
  session_by_token st s = Some x ->
  LinkedSession.linked_id x = LinkedTokens.id r ->
  exists s' r',
    unlink ct s = (s', Ok true)
    /\ session_by_token st s' = Some x
    /\ token_by_id (LinkedSession.linked_id x) s' = Some r'
    /\ LinkedTokens.linked r' = false
    /\ LinkedTokens.wallet_token r' = Some wt
    /\ link_messages u (Some ct) (Some st) last s'
       = (s', Ok (Some ct, Some st, [], false))
    /\ ~ raises (snd (wallet_called wt cid st res s'))
    /\ wallet_called wt cid st res s'
       = (insert_message (LinkedSession.id x) CALL_RESPONSE
            (JDict [("call_id", cid); ("result", res)]) s', Ok true)
    /\ messages (fst (wallet_called wt cid st res s'))
       = messages s
         ++ [LinkedMessage.mk (next_message_id s) (LinkedSession.id x)
               CALL_RESPONSE (JDict [("call_id", cid); ("result", res)])].
Proof.
  intros Hne Hc Hl Hw Hx Hid.
  set (r' := LinkedTokens.set_linked false r).
  assert (Hin : In r (tokens s)) by (apply find_some in Hc; apply Hc).
  assert (Hu : unlink ct s = (update_token r' s, Ok true)).
  { unfold unlink. rewrite Hc, Hl. reflexivity. }
  assert (Hx' : session_by_token st (update_token r' s) = Some x) by exact Hx.
  assert (Hr' : token_by_id (LinkedSession.linked_id x) (update_token r' s) = Some r').
  { rewrite Hid. unfold token_by_id, update_token. simpl.
    apply (find_update r r' (tokens s) Hin eq_refl). }
  assert (Hc' : token_by_client ct (update_token r' s) = Some r')
    by (apply (token_by_client_update ct s r r' Hc); reflexivity).
  assert (Hcall : wallet_called wt cid st res (update_token r' s)
                  = (insert_message (LinkedSession.id x) CALL_RESPONSE
                       (JDict [("call_id", cid); ("result", res)])
                       (update_token r' s), Ok true)).
  { unfold wallet_called. rewrite Hx', Hr'. unfold r' at 1. simpl.
    rewrite Hw. simpl. rewrite String.eqb_refl. reflexivity. }
  exists (update_token r' s), r'.
  split; [exact Hu|]. split; [exact Hx'|]. split; [exact Hr'|].
  split; [reflexivity|]. split; [exact Hw|]. split.
  - unfold link_messages.
    assert (Ht : truthy_str (Some ct) = true).
    { destruct ct; [now elim Hne|reflexivity]. }
    rewrite Ht. simpl negb. cbv iota. simpl str_or_empty. rewrite Hc'.
    reflexivity.
  - rewrite Hcall. split; [|split; reflexivity].
    intros [e He]. discriminate He.
Qed.

(** C6, at an unknown, non-empty client token: [generate_code] raises (the
    [None] it looked up has no attribute [linked]) and commits nothing, while
    [link_messages], [call_wallet] and [unlink] return their empty results. *)
Theorem unknown_client_token (now : time) (uc us : string) (rnd : nat -> nat -> nat)
    (ct : string) (st url : option string) (pc : option dict)
    (ua : option string) (fr : bool) (u : string) (last : option Z)
    (acc cid call : json) (s : db) :
  ct <> EmptyString -> token_by_client ct s = None ->
  generate_code now uc us rnd (Some ct) st url pc ua fr s = (s, Raise AttributeError)
  /\ link_messages u (Some ct) st last s = (s, Ok (Some EmptyString, None, [], false))
  /\ call_wallet (Some ct) st acc cid call url s = (s, Ok false)
  /\ unlink ct s = (s, Ok true).
Proof.
  intros Hne Hnone.
  assert (Ht : truthy_str (Some ct) = true)
    by (simpl; apply negb_true_iff; now apply String.eqb_neq).
  unfold generate_code, link_messages, call_wallet, unlink.
  rewrite Ht. simpl. rewrite Hnone. repeat split.
  assert (Hl : linked_by_client ct s = None).
  { destruct (linked_by_client ct s) as [r|] eqn:Hf; [|reflexivity].
    apply find_some in Hf. destruct Hf as [Hin Hb]. apply andb_prop in Hb.
    unfold token_by_client in Hnone.
    now rewrite (find_none _ _ Hnone r Hin) in Hb. }
  now rewrite Hl.
Qed.

(** C10: for a linked client, a session token that resolves to no session
    of its record makes [call_wallet] raise instead of returning false, with
    nothing enqueued; once the metadata is extracted, the exception is the
    dereference of the missing session. *)
Theorem call_wallet_unknown_session (ct : string) (st : option string)
    (acc cid call : json) (url : option string) (s : db) (r : LinkedTokens.t) :
  ct <> EmptyString -> linked_by_client ct s = Some r ->
  (forall tok, st = Some tok -> session_of tok (LinkedTokens.id r) s = None) ->
  raises (snd (call_wallet (Some ct) st acc cid call url s))
  /\ fst (call_wallet (Some ct) st acc cid call url s) = s
  /\ (forall meta, _get_meta (LinkedTokens.current_rpc r) call = Ok meta ->
        call_wallet (Some ct) st acc cid call url s = (s, Raise AttributeError)).
Proof.
  intros Hne Hl Hs.
  assert (Ht : truthy_str (Some ct) = true)
    by (simpl; apply negb_true_iff; now apply String.eqb_neq).
  assert (Hso : match st with
                | Some tok => session_of tok (LinkedTokens.id r) s
                | None => None
                end = None)
    by (destruct st as [tok|]; [now apply Hs|reflexivity]).
  unfold call_wallet, raises. rewrite Ht. simpl. rewrite Hl, Hso.
  destruct (_get_meta (LinkedTokens.current_rpc r) call) as [meta|e]; simpl.
  - split; [now eexists|]. split; [reflexivity|]. reflexivity.
  - split; [now eexists|]. split; [reflexivity|]. intros meta H. discriminate.
Qed.

(** ** The link identity hash *)

Lemma length_substring_0 (n : nat) (x : string) :
  String.length (substring 0 n x) = Nat.min n (String.length x).
Proof.
  revert x. induction n as [|n IH]; intros x; destruct x as [|ch x]; simpl;
    try reflexivity.
  now rewrite IH.
Qed.

Lemma in_all_ascii (ch : ascii) : In ch all_ascii.
Proof.
  unfold all_ascii. apply in_map_iff. exists (nat_of_ascii ch).
  split; [apply ascii_nat_embedding|].
  apply in_seq. split; [apply Nat.le_0_l|exact (nat_ascii_bounded ch)].
Qed.

Lemma in_strings_upto (n : nat) (x : string) :
  (String.length x <= n)%nat -> In x (strings_upto n).
Proof.
  revert x. induction n as [|n IH]; intros x Hl; destruct x as [|ch x];
    cbn [strings_upto]; try (now left); try (simpl in Hl; lia).
  right. apply in_flat_map. exists x. split.
  - apply IH. simpl in Hl. lia.
  - apply in_map_iff. exists ch. split; [reflexivity|apply in_all_ascii].
Qed.

(** A function from the naturals into a finite list of values takes some
    value twice. *)
Lemma no_injection_into_list {B} (f : nat -> B) (l : list B) :
  (forall n, In (f n) l) -> ~ (forall n m, n <> m -> f n <> f m).
Proof.
  intros Hin Hinj.
  assert (Hnd : forall k, NoDup (map f (seq 0 k))).
  { intros k. induction k as [|k IH]; [constructor|].
    rewrite seq_S, map_app. simpl. apply NoDup_app.
    - assumption.
    - constructor; [intros []|constructor].
    - intros y Hy [<-|[]]. apply in_map_iff in Hy.
      destruct Hy as (j & Hj & Hjk). apply in_seq in Hjk.
      apply (Hinj j k); [lia|assumption]. }
  assert (Hincl : incl (map f (seq 0 (S (List.length l)))) l).
  { intros y Hy. apply in_map_iff in Hy. destruct Hy as (j & <- & _). apply Hin. }
  pose proof (NoDup_incl_length (Hnd (S (List.length l))) Hincl) as Hlen.
  rewrite length_map, length_seq in Hlen. lia.
Qed.

Lemma length_letters (n : nat) : String.length (letters n) = n.
Proof. induction n; simpl; congruence. Qed.

(** The outputs of [_hash_id] are strings of at most 16 characters, so for
    every id two secrets share an output. *)
Lemma _hash_id_not_injective (exposed_id : Z) :
  ~ (forall a b, a <> b -> _hash_id exposed_id a <> _hash_id exposed_id b).
Proof.
  intros Hinj.
  apply (no_injection_into_list
           (fun n => _hash_id exposed_id (letters n)) (strings_upto 16)).
  - intros n. apply in_strings_upto. unfold _hash_id.
    rewrite length_substring_0. apply Nat.le_min_l.
  - intros n m Hnm. apply Hinj. intros E. apply Hnm.
    rewrite <- (length_letters n), <- (length_letters m). now rewrite E.
Qed.

(** ** Further properties of the service *)

Lemma mapM_Ok {A B} (f : A -> result B) (l : list A) (out : list B) :
  mapM f l = Ok out -> Forall2 (fun a b => f a = Ok b) l out.
Proof.
  revert out. induction l as [|a l IH]; simpl; intros out H.
  - inversion H. constructor.
  - destruct (f a) as [b|e] eqn:Ha; simpl in H; [|discriminate].
    destruct (mapM f l) as [bs|e]; simpl in H; [|discriminate].
    inversion H; subst. constructor; [assumption|now apply IH].
Qed.

Lemma unexpired_by_code_inv (code : string) (now : time) (s : db) (r : LinkedTokens.t) :
  unexpired_by_code code now s = Some r ->
  In r (tokens s) /\ LinkedTokens.code r = Some code
  /\ exists e, LinkedTokens.code_expires r = Some e /\ now < e.
Proof.
  intros H. apply find_some in H. destruct H as [Hin Ha].
  apply active_code_inv in Ha. destruct Ha as [Hc He]. auto.
Qed.

(** X1: in a reachable database [link_info] does not raise; it returns the
    empty pair exactly when no record holds the code unexpired, and
    otherwise shows the return url, the app info and the link id that
    [link_wallet] with that code returns, with an expiry after [now]. *)
Theorem link_info_previews (t now : time) (code : string) (s : db) :
  reachable t s ->
  (link_info code now s = Ok no_preview <-> unexpired_by_code code now s = None)
  /\ (forall r, unexpired_by_code code now s = Some r ->
        exists e,
          LinkedTokens.code_expires r = Some e /\ now < e
          /\ link_info code now s
             = Ok (preview (LinkedTokens.current_return_url r)
                     (_to_usable_info (LinkedTokens.app_info r))
                     (_hash_id (LinkedTokens.id r) (LinkedTokens.client_token r))
                     (to_js_timestamp e))
          /\ forall wt rpc acc,
               snd (link_wallet now wt code rpc acc s)
               = Ok (LinkedTokens.current_return_url r, true,
                     LinkedTokens.pending_call r,
                     _to_usable_info (LinkedTokens.app_info r),
                     _hash_id (LinkedTokens.id r) (LinkedTokens.client_token r),
                     to_js_timestamp now)).
Proof.
  intros Hr. apply reachable_invariant in Hr. destruct Hr as (_ & Hok & _).
  assert (Hsome : forall r, unexpired_by_code code now s = Some r ->
            exists e, LinkedTokens.code_expires r = Some e /\ now < e
              /\ link_info code now s
                 = Ok (preview (LinkedTokens.current_return_url r)
                         (_to_usable_info (LinkedTokens.app_info r))
                         (_hash_id (LinkedTokens.id r) (LinkedTokens.client_token r))
                         (to_js_timestamp e))).
  { intros r Hf. destruct (unexpired_by_code_inv code now s r Hf)
      as (Hin & Hc & e & He & Hlt).
    rewrite Forall_forall in Hok. destruct (Hok r Hin) as (Hunl & _).
    exists e. split; [assumption|]. split; [assumption|].
    unfold link_info. rewrite Hf, Hunl, He; [reflexivity|congruence]. }
  split.
  - split.
    + intros H. destruct (unexpired_by_code code now s) as [r|] eqn:Hf; [|reflexivity].
      destruct (Hsome r eq_refl) as (e & _ & _ & Hl). congruence.
    + intros H. unfold link_info. now rewrite H.
  - intros r Hf. destruct (Hsome r Hf) as (e & He & Hlt & Hl).
    exists e. repeat (split; [assumption|]).
    intros wt rpc acc. unfold link_wallet. rewrite Hf. reflexivity.
Qed.

(** X2: a code is used up by the link: right after a successful
    [link_wallet] in a reachable database, the same code, at that time or
    later, links nothing and previews nothing. *)
Theorem code_single_use (t now now' : time) (wt wt' code : string)
    (rpc acc rpc' acc' : json) (s : db) (r : LinkedTokens.t) :
  reachable t s -> t <= now -> now <= now' ->
  unexpired_by_code code now s = Some r ->
  unexpired_by_code code now' (fst (link_wallet now wt code rpc acc s)) = None
  /\ link_wallet now' wt' code rpc' acc' (fst (link_wallet now wt code rpc acc s))
     = (fst (link_wallet now wt code rpc acc s),
        Ok (Some EmptyString, false, None, None, EmptyString, 0))
  /\ link_info code now' (fst (link_wallet now wt code rpc acc s)) = Ok no_preview.
Proof.
  intros Hr Hle Hle' Hf.
  apply reachable_invariant in Hr. apply (invariant_later t now) in Hr; [|assumption].
  destruct Hr as (_ & _ & Hcd).
  destruct (unexpired_by_code_inv code now s r Hf) as (Hin & _).
  pose proof Hf as Ha. apply find_some in Ha. destruct Ha as [_ Ha].
  set (s' := fst (link_wallet now wt code rpc acc s)).
  assert (Hnone : unexpired_by_code code now' s' = None).
  { unfold unexpired_by_code.
    destruct (find (active_code code now') (tokens s')) as [r'|] eqn:Hf'; [|reflexivity].
    exfalso. apply find_some in Hf'. destruct Hf' as [Hin' Ha'].
    assert (Ht : tokens s'
                 = tokens (update_token (linked_record now wt rpc acc r) s)).
    { unfold s', link_wallet. rewrite Hf. simpl.
      destruct (negb (LinkedTokens.id r =? 0)); [|reflexivity].
      now rewrite fan_out_spec. }
    rewrite Ht in Hin'.
    apply (in_update (linked_record now wt rpc acc r)) in Hin'.
    destruct Hin' as [[-> _]|[Hold Hne]].
    - apply active_code_inv in Ha'. destruct Ha' as [Hc _]. discriminate Hc.
    - apply Hne. simpl. apply (Hcd r' r code); try assumption.
      now apply (active_code_earlier code now now'). }
  split; [exact Hnone|]. split.
  - unfold link_wallet. now rewrite Hnone.
  - unfold link_info. now rewrite Hnone.
Qed.

Lemma Forall2_map_In {A B} (R : A -> B -> Prop) (f : A -> B) (l : list A) :
  (forall a, In a l -> R a (f a)) -> Forall2 R l (map f l).
Proof.
  induction l as [|a l IH]; simpl; intros H; constructor.
  - apply H. now left.
  - apply IH. intros b Hb. apply H. now right.
Qed.

(** An UPDATE by primary key changes the one row with that key. *)
Lemma update_token_rows (s : db) (r r' : LinkedTokens.t) :
  wf s -> In r (tokens s) -> LinkedTokens.id r' = LinkedTokens.id r ->
  Forall2 (fun a a' => (a = r /\ a' = r') \/ (a <> r /\ a' = a))
          (tokens s) (tokens (update_token r' s)).
Proof.
  intros Hwf Hin Hid. simpl. apply Forall2_map_In. intros a Ha.
  destruct (Z.eqb_spec (LinkedTokens.id a) (LinkedTokens.id r')) as [E|N].
  - left. split; [|reflexivity].
    apply (same_id_same_row LinkedTokens.id (tokens s)); try assumption; [|congruence].
    apply sorted_NoDup. apply (wf_tokens s Hwf).
  - right. split; [|reflexivity]. intros ->. congruence.
Qed.

(** X3: [unlink] always returns true and only clears the [linked] flag of
    the client's record: a second [unlink] changes nothing, and sessions,
    both mailboxes and every other field of every record stay. *)
Theorem unlink_idempotent (t : time) (ct : string) (s : db) :
  reachable t s ->
  snd (unlink ct s) = Ok true
  /\ unlink ct (fst (unlink ct s)) = (fst (unlink ct s), Ok true)
  /\ sessions (fst (unlink ct s)) = sessions s
  /\ messages (fst (unlink ct s)) = messages s
  /\ wallet_msgs (fst (unlink ct s)) = wallet_msgs s
  /\ Forall2 (fun r r' => r' = r \/ r' = LinkedTokens.set_linked false r)
             (tokens s) (tokens (fst (unlink ct s))).
Proof.
  intros Hr. apply reachable_invariant in Hr. destruct Hr as (Hwf & _ & _).
  assert (Hsame : forall l : list LinkedTokens.t,
            Forall2 (fun r r' => r' = r \/ r' = LinkedTokens.set_linked false r) l l).
  { induction l; constructor; auto. }
  destruct (token_by_client ct s) as [r|] eqn:Hf.
  - destruct (LinkedTokens.linked r) eqn:Hl.
    + assert (Hu : unlink ct s
                   = (update_token (LinkedTokens.set_linked false r) s, Ok true))
        by (unfold unlink; now rewrite Hf, Hl).
      rewrite Hu. cbn [fst snd].
      split; [reflexivity|]. split; [|repeat split].
      * unfold unlink.
        rewrite (token_by_client_update ct s r (LinkedTokens.set_linked false r) Hf
                   eq_refl eq_refl).
        reflexivity.
      * apply find_some in Hf. destruct Hf as [Hin _].
        eapply Forall2_impl;
          [|apply (update_token_rows s r (LinkedTokens.set_linked false r) Hwf Hin
                     eq_refl)].
        intros a a' [[-> ->]|[_ ->]]; auto.
    + assert (Hu : unlink ct s = (s, Ok true))
        by (unfold unlink; now rewrite Hf, Hl).
      rewrite Hu. cbn [fst snd]. rewrite Hu. repeat split. apply Hsame.
  - assert (Hu : unlink ct s = (s, Ok true)) by (unfold unlink; now rewrite Hf).
    rewrite Hu. cbn [fst snd]. rewrite Hu. repeat split. apply Hsame.
Qed.

Lemma _link_dict_link_id (r : LinkedTokens.t) (d : dict) :
  _link_dict r = Ok d ->
  dict_get "link_id" d
  = Some (JStr (_hash_id (LinkedTokens.id r) (LinkedTokens.client_token r))).
Proof.
  unfold _link_dict. destruct (LinkedTokens.linked_at r); [|discriminate].
  intros H. inversion H. reflexivity.
Qed.

Lemma in_links_of (wt : string) (s : db) (r : LinkedTokens.t) :
  In r (links_of wt s) <->
  In r (tokens s) /\ LinkedTokens.wallet_token r = Some wt
  /\ LinkedTokens.linked r = true.
Proof.
  unfold links_of. rewrite !filter_In, andb_true_iff. unfold opt_str_eqb.
  destruct (LinkedTokens.wallet_token r) as [w|].
  - rewrite String.eqb_eq. split.
    + intros [[Hin [-> Hl]] _]. auto.
    + intros (Hin & Hw & Hl). inversion Hw. auto.
  - split; [intros [[_ [H _]] _]; discriminate|intros (_ & H & _); discriminate].
Qed.

(** The record [unlink_wallet] picks. *)
Lemma unlink_wallet_pick (wt lid : string) (s : db) :
  match find (fun linked =>
                LinkedTokens.linked linked
                && (_hash_id (LinkedTokens.id linked) (LinkedTokens.client_token linked)
                    =? lid)%string)
             (filter (fun r => opt_str_eqb (LinkedTokens.wallet_token r) wt) (tokens s))
  with
  | Some r =>
      In r (links_of wt s)
      /\ _hash_id (LinkedTokens.id r) (LinkedTokens.client_token r) = lid
  | None =>
      forall r, In r (links_of wt s) ->
                _hash_id (LinkedTokens.id r) (LinkedTokens.client_token r) <> lid
  end.
Proof.
  destruct (find _ _) as [r|] eqn:Hf.
  - apply find_some in Hf. destruct Hf as [Hin Hp].
    apply filter_In in Hin. destruct Hin as [Hin Hw].
    apply andb_prop in Hp. destruct Hp as [Hl Hh]. apply String.eqb_eq in Hh.
    split; [|assumption]. apply in_links_of. split; [assumption|].
    split; [|assumption]. unfold opt_str_eqb in Hw.
    destruct (LinkedTokens.wallet_token r); [|discriminate].
    apply String.eqb_eq in Hw. now subst.
  - intros r Hin Hh. apply in_links_of in Hin. destruct Hin as (Hin & Hw & Hl).
    assert (Hin' : In r (filter (fun r => opt_str_eqb (LinkedTokens.wallet_token r) wt)
                           (tokens s))).
    { apply filter_In. split; [assumption|]. rewrite Hw. simpl. apply String.eqb_refl. }
    pose proof (find_none _ _ Hf r Hin') as Hn. simpl in Hn.
    rewrite Hl, Hh, String.eqb_refl in Hn. discriminate.
Qed.

Lemma Forall2_in_l {A B} (R : A -> B -> Prop) (l : list A) (l' : list B) :
  Forall2 R l l' -> forall a, In a l -> exists b, In b l' /\ R a b.
Proof.
  induction 1 as [|x y l l' Hxy _ IH]; intros a Ha; [destruct Ha|].
  destruct Ha as [<-|Ha].
  - exists y. split; [now left|assumption].
  - destruct (IH a Ha) as (b & Hb & Hab). exists b. split; [now right|assumption].
Qed.

Lemma Forall2_in_r {A B} (R : A -> B -> Prop) (l : list A) (l' : list B) :
  Forall2 R l l' -> forall b, In b l' -> exists a, In a l /\ R a b.
Proof.
  induction 1 as [|x y l l' Hxy _ IH]; intros b Hb; [destruct Hb|].
  destruct Hb as [<-|Hb].
  - exists x. split; [now left|assumption].
  - destruct (IH b Hb) as (a & Ha & Hab). exists a. split; [now right|assumption].
Qed.

(** X4: [unlink_wallet] returns true exactly when the link id is one of
    those [get_links] lists for the wallet; otherwise it returns false and
    changes nothing. *)
Theorem unlink_wallet_listed (wt lid : string) (s : db) (links : list dict) :
  get_links wt s = Ok links ->
  (snd (unlink_wallet wt lid s) = Ok true <->
   exists d, In d links /\ dict_get "link_id" d = Some (JStr lid))
  /\ (~ (exists d, In d links /\ dict_get "link_id" d = Some (JStr lid)) ->
      unlink_wallet wt lid s = (s, Ok false)).
Proof.
  intros Hg. apply mapM_Ok in Hg.
  assert (Hrows : forall r, In r (links_of wt s) ->
            exists d, In d links /\ _link_dict r = Ok d)
    by (intros r; apply (Forall2_in_l _ _ _ Hg)).
  assert (Hlinks : forall d, In d links ->
            exists r, In r (links_of wt s) /\ _link_dict r = Ok d)
    by (intros d; apply (Forall2_in_r _ _ _ Hg)).
  pose proof (unlink_wallet_pick wt lid s) as Hp. unfold unlink_wallet.
  destruct (find _ _) as [r|].
  - destruct Hp as [Hin Hh]. destruct (Hrows r Hin) as (d & Hd & Hrd).
    assert (Hex : exists d, In d links /\ dict_get "link_id" d = Some (JStr lid)).
    { exists d. split; [assumption|]. rewrite (_link_dict_link_id r d Hrd). now rewrite Hh. }
    split; [split; [intros _; exact Hex|reflexivity]|]. intros Hn. now destruct Hn.
  - split; [split; [discriminate|]|reflexivity].
    intros (d & Hd & Hl). destruct (Hlinks d Hd) as (r & Hin & Hrd).
    rewrite (_link_dict_link_id r d Hrd) in Hl. inversion Hl.
    now destruct (Hp r Hin).
Qed.

(** X5: a successful [unlink_wallet] unlinks one record of the wallet whose
    hashed id is the link id and sets its wallet token to the empty string;
    sessions and mailboxes stay, and results the wallet then delivers to a
    session of that record are refused. *)
Theorem unlink_wallet_revokes (wt lid : string) (s s' : db) :
  unlink_wallet wt lid s = (s', Ok true) ->
  exists r,
    In r (tokens s) /\ LinkedTokens.wallet_token r = Some wt
    /\ LinkedTokens.linked r = true
    /\ _hash_id (LinkedTokens.id r) (LinkedTokens.client_token r) = lid
    /\ token_by_id (LinkedTokens.id r) s'
       = Some (LinkedTokens.set_wallet_token (Some EmptyString)
                 (LinkedTokens.set_linked false r))
    /\ sessions s' = sessions s /\ messages s' = messages s
    /\ wallet_msgs s' = wallet_msgs s
    /\ (wt <> EmptyString ->
        forall cid st res x,
          session_by_token st s' = Some x ->
          LinkedSession.linked_id x = LinkedTokens.id r ->
          wallet_called wt cid st res s'
          = (s', Raise (Exception_ "Wallet linked to a different session"))).
Proof.
  pose proof (unlink_wallet_pick wt lid s) as Hp. unfold unlink_wallet.
  destruct (find _ _) as [r|]; [|discriminate].
  destruct Hp as [Hin Hh]. apply in_links_of in Hin. destruct Hin as (Hin & Hw & Hl).
  intros H. inversion H; subst s'; clear H.
  set (r' := LinkedTokens.set_wallet_token (Some EmptyString)
               (LinkedTokens.set_linked false r)).
  assert (Hfind : token_by_id (LinkedTokens.id r) (update_token r' s) = Some r')
    by (apply (find_update r r'); [assumption|reflexivity]).
  exists r. repeat (split; [assumption || reflexivity|]).
  intros Hne cid st res x Hx Hlid. unfold wallet_called.
  rewrite Hx, Hlid, Hfind. simpl.
  destruct wt; [congruence|reflexivity].
Qed.

(** ** The references between the tables *)

Lemma effect_sound (s s' : db) : effect s s' -> sound s -> sound s'.
Proof.
  intros He [Hr Hs Hm [Hw Hn] Hd].
  destruct He; constructor; simpl; try assumption; try (split; assumption).
  - rewrite Forall_forall in *. intros x Hx.
    apply (in_update r') in Hx. destruct Hx as [[-> _]|[Hx _]]; auto.
  - now rewrite map_id_update.
  - apply Forall_app. split; [assumption|]. constructor; [assumption|constructor].
  - rewrite map_app. eapply Forall_impl; [|exact Hs].
    simpl. intros x Hx. apply in_or_app. now left.
  - apply Forall_app. split; [assumption|].
    constructor; [|constructor]. simpl. now apply in_map.
  - rewrite map_app. eapply Forall_impl; [|exact Hm].
    simpl. intros m Hx. apply in_or_app. now left.
  - apply Forall_app. split; [assumption|].
    constructor; [|constructor]. simpl. now apply in_map.
  - rewrite Forall_forall in *. intros m Hx. apply Hm. now apply filter_In in Hx.
  - split; [|lia]. rewrite map_app. simpl. now apply ids_ok_snoc.
  - apply Forall_app. split; [assumption|]. constructor; [|constructor].
    unfold wallet_message_ok. simpl. split; [reflexivity|].
    split; [now exists wt|]. now exists d.
  - split; [|assumption]. now apply ids_ok_filter.
  - rewrite Forall_forall in *. intros m Hx. apply Hd. now apply filter_In in Hx.
Qed.

Lemma effects_sound (s s' : db) : effects s s' -> sound s -> sound s'.
Proof. induction 1; eauto using effect_sound. Qed.

Lemma effects_one (s s' : db) : effect s s' -> effects s s'.
Proof. intros H. eapply effects_cons; [exact H|constructor]. Qed.

Lemma effects_app (s1 s2 s3 : db) : effects s1 s2 -> effects s2 s3 -> effects s1 s3.
Proof. induction 1; eauto using effects_cons. Qed.

Lemma sound_empty : sound empty_db.
Proof.
  constructor; simpl; try constructor; try constructor; try lia; constructor.
Qed.

Lemma dict_get_set_same (k : string) (v : json) (d : dict) :
  dict_get k (dict_set k v d) = Some v.
Proof.
  induction d as [|[k' v'] d IH]; simpl.
  - now rewrite String.eqb_refl.
  - destruct (String.eqb_spec k' k) as [->|N]; simpl.
    + now rewrite String.eqb_refl.
    + now rewrite (proj2 (String.eqb_neq k' k) N).
Qed.

Lemma dict_get_set_other (k k' : string) (v : json) (d : dict) :
  k <> k' -> dict_get k' (dict_set k v d) = dict_get k' d.
Proof.
  intros Hne. induction d as [|[k0 v0] d IH]; simpl.
  - now rewrite (proj2 (String.eqb_neq k k') Hne).
  - destruct (String.eqb_spec k0 k) as [->|N]; simpl.
    + now rewrite (proj2 (String.eqb_neq k k') Hne).
    + now rewrite IH.
Qed.

Lemma send_init_messages_effects (x : LinkedSession.t) (r : LinkedTokens.t) (s : db) :
  In x (sessions s) -> effects s (send_init_messages x r s).
Proof.
  intros Hx. unfold send_init_messages.
  eapply effects_cons;
    [exact (effect_insert_message x NETWORK (LinkedTokens.current_rpc r) s Hx)
    |apply effects_one].
  now apply effect_insert_message.
Qed.

Lemma generate_init_session_effects (uuid : string) (r : LinkedTokens.t) (s : db) :
  In r (tokens s) -> effects s (fst (generate_init_session uuid r s)).
Proof.
  intros Hr. unfold generate_init_session. simpl.
  eapply effects_cons; [exact (effect_insert_session uuid r s Hr)|].
  destruct (LinkedTokens.linked r); [|apply effects_nil].
  apply send_init_messages_effects. simpl. apply in_or_app. right. now left.
Qed.

Lemma generate_init_session_tokens (uuid : string) (r : LinkedTokens.t) (s : db) :
  tokens (fst (generate_init_session uuid r s)) = tokens s.
Proof.
  unfold generate_init_session, send_init_messages. simpl.
  now destruct (LinkedTokens.linked r).
Qed.

Lemma fan_out_effects (r : LinkedTokens.t) (l : list LinkedSession.t) (s : db) :
  (forall x, In x l -> In x (sessions s)) -> effects s (fan_out r l s).
Proof.
  revert s. induction l as [|x l IH]; intros s Hl; simpl; [apply effects_nil|].
  eapply effects_app; [apply send_init_messages_effects; apply Hl; now left|].
  apply IH. intros y Hy. simpl. apply Hl. now right.
Qed.

Lemma get_linked_messages_effects (x : LinkedSession.t) (last : option Z)
    (purge : bool) (s : db) :
  effects s (fst (get_linked_messages x last purge s)).
Proof.
  unfold get_linked_messages. simpl.
  destruct last as [c|]; [|apply effects_nil].
  destruct purge; [|apply effects_nil].
  apply effects_one. apply effect_delete_messages.
Qed.

Lemma generate_code_effects (now : time) (uc us : string) (rnd : nat -> nat -> nat)
    (ct st url : option string) (pc : option dict) (ua : option string)
    (fr : bool) (s : db) :
  effects s (fst (generate_code now uc us rnd ct st url pc ua fr s)).
Proof.
  unfold generate_code.
  set (fresh := negb (truthy_str ct)).
  set (ctok := if fresh then uc else str_or_empty ct).
  set (new := LinkedTokens.mk (next_token_id s) ctok None None false None
                JNull JNull None None None None).
  assert (Hfound :
    forall r0, (if fresh then Some new else token_by_client ctok s) = Some r0 ->
      if fresh then r0 = new else In r0 (tokens s)).
  { intros r0 H. destruct fresh; [now inversion H|].
    apply find_some in H. apply H. }
  destruct (if fresh then Some new else token_by_client ctok s) as [r0|];
    [|apply effects_nil].
  pose proof (Hfound r0 eq_refl) as Hin. clear Hfound.
  set (r1 := if fr then LinkedTokens.set_wallet_token None
                          (LinkedTokens.set_linked false r0) else r0).
  assert (Hr1 : (record_ok r0 -> record_ok r1)
                /\ LinkedTokens.id r1 = LinkedTokens.id r0).
  { unfold r1. destruct fr; [|auto]. split; [|reflexivity].
    unfold record_ok. simpl. intros (_ & H2 & H3 & H4).
    split; [discriminate|]. auto. }
  destruct Hr1 as (Hr1 & Hid1).
  match goal with
  | |- context [match ?iss with Ok _ => _ | Raise _ => _ end] =>
      assert (Hiss : forall r2, iss = Ok r2 ->
                (record_ok r0 -> record_ok r2)
                /\ LinkedTokens.id r2 = LinkedTokens.id r0);
      [|destruct iss as [r2|e]; [|apply effects_nil]]
  end.
  { intros r2. destruct (LinkedTokens.linked r1) eqn:Hl1; simpl.
    - intros H; inversion H; subst. auto.
    - destruct (_generate_code rnd now s) as [c|e]; simpl;
        [|destruct (truthy_str ua); discriminate].
      intros H. split.
      + intros H0. apply Hr1 in H0. revert H0. unfold record_ok.
        intros (_ & _ & H3 & H4).
        destruct (truthy_str ua); inversion H; subst; simpl; rewrite Hl1;
          (split; [discriminate|]); (split; [discriminate|]);
          (split; [|exact H4]); [right; eexists; reflexivity|exact H3].
      + destruct (truthy_str ua); inversion H; subst; simpl; exact Hid1. }
  destruct (Hiss r2 eq_refl) as (Hr2 & Hid2). clear Hiss.
  set (s1 := if fresh then insert_token r2 s else update_token r2 s).
  assert (He1 : effect s s1).
  { unfold s1. destruct fresh.
    - subst r0. apply effect_insert_token; [now rewrite Hid2|].
      apply Hr2. unfold record_ok, new. simpl.
      split; [discriminate|]. split; [congruence|]. split; [now left|discriminate].
    - eapply effect_update; eauto. }
  assert (Hin1 : In r2 (tokens s1)).
  { unfold s1. destruct fresh.
    - simpl. apply in_or_app. right. now left.
    - eapply in_update_self; eauto. }
  eapply effects_cons; [exact He1|].
  match goal with
  | |- context [let '(_, _) := ?e in _] =>
      assert (He2 : effects s1 (fst e) /\ tokens (fst e) = tokens s1);
      [|destruct e as [s2 stok]; simpl in He2]
  end.
  { destruct (truthy_str st && _); simpl; [split; [apply effects_nil|reflexivity]|].
    split; [now apply generate_init_session_effects|].
    apply generate_init_session_tokens. }
  destruct He2 as [He2 Ht2].
  eapply effects_app; [exact He2|].
  destruct (truthy_dict pc && negb (LinkedTokens.linked r2)) eqn:Hp;
    [|apply effects_nil].
  destruct (_get_meta JNull _) as [meta|e]; simpl; [|apply effects_nil].
  rewrite <- Ht2 in Hin1.
  apply effects_one. eapply effect_update; [exact Hin1|reflexivity|].
  unfold record_ok. simpl. intros (H1 & H2 & H3 & _).
  repeat (split; [assumption|]).
  intros pc0 Hpc0. inversion Hpc0; subst pc0; clear Hpc0. split.
  - exists stok. rewrite dict_get_set_other by discriminate.
    apply dict_get_set_same.
  - exists meta. apply dict_get_set_same.
Qed.

Lemma link_messages_effects (uuid : string) (ct st : option string)
    (last : option Z) (s : db) :
  effects s (fst (link_messages uuid ct st last s)).
Proof.
  unfold link_messages.
  destruct (negb (truthy_str ct)); [apply effects_nil|].
  destruct (token_by_client (str_or_empty ct) s) as [r|] eqn:Hf; [|apply effects_nil].
  apply find_some in Hf. destruct Hf as [Hin _].
  destruct (negb (LinkedTokens.linked r)); [apply effects_nil|].
  assert (Hpoll : forall (tok : string) x s0 s1, effects s0 s1 ->
            effects s0
              (fst (let '(s', r0) := get_linked_messages x last true s1 in
                    (s', msgs <- r0 ;; Ok (ct, Some tok, msgs, true))))).
  { intros tok x s0 s1 H. eapply effects_app; [exact H|].
    pose proof (get_linked_messages_effects x last true s1) as Hg.
    destruct (get_linked_messages x last true s1). exact Hg. }
  pose proof (generate_init_session_effects uuid r s Hin) as Hg.
  destruct (negb (truthy_str st)).
  - destruct (generate_init_session uuid r s) as [s1 tok]. simpl in Hg.
    destruct (session_of tok (LinkedTokens.id r) s1); [now apply Hpoll|exact Hg].
  - destruct (session_of (str_or_empty st) (LinkedTokens.id r) s);
      [apply Hpoll; apply effects_nil|].
    destruct (generate_init_session uuid r s) as [s2 tok]. simpl in Hg.
    destruct (session_of tok (LinkedTokens.id r) s2); [now apply Hpoll|exact Hg].
Qed.

Lemma wallet_messages_effects (wt : string) (acc : json) (last : option Z) (s : db) :
  effects s (fst (wallet_messages wt acc last s)).
Proof.
  unfold wallet_messages.
  destruct (wt =? EmptyString)%string; [apply effects_nil|].
  destruct (index acc 0); [|apply effects_nil]. simpl.
  destruct last; [|apply effects_nil].
  apply effects_one. apply effect_delete_wallet_msgs.
Qed.

Lemma link_wallet_effects (now : time) (wt code : string) (rpc acc : json) (s : db) :
  effects s (fst (link_wallet now wt code rpc acc s)).
Proof.
  unfold link_wallet, unexpired_by_code.
  destruct (find (active_code code now) (tokens s)) as [r|] eqn:Hf;
    [|apply effects_nil].
  apply find_some in Hf. destruct Hf as [Hin _]. simpl.
  eapply effects_cons with (s2 := update_token (linked_record now wt rpc acc r) s).
  - eapply effect_update with (r := r); [exact Hin|reflexivity|].
    unfold record_ok; simpl. intros (_ & _ & H3 & _).
    split; [discriminate|]. split; [congruence|]. split; [exact H3|discriminate].
  - destruct (negb (LinkedTokens.id r =? 0)); [|apply effects_nil].
    apply fan_out_effects. intros x Hx. unfold sessions_of in Hx.
    apply filter_In in Hx. apply Hx.
Qed.

Lemma call_wallet_effects (ct st : option string) (acc cid call : json)
    (url : option string) (s : db) :
  Forall token_ok (tokens s) ->
  effects s (fst (call_wallet ct st acc cid call url s)).
Proof.
  intros Hok. unfold call_wallet.
  destruct (negb (truthy_str ct)); [apply effects_nil|].
  destruct (linked_by_client _ s) as [r|] eqn:Hf; [|apply effects_nil].
  apply find_some in Hf. destruct Hf as [Hin Hl]. apply andb_prop in Hl.
  destruct Hl as [_ Hl].
  destruct (_get_meta (LinkedTokens.current_rpc r) call) as [meta|];
    [|apply effects_nil].
  destruct (match st with Some _ => _ | None => _ end) as [x|]; [|apply effects_nil].
  rewrite Forall_forall in Hok. destruct (Hok r Hin) as (_ & Hw & _).
  destruct (Hw Hl) as [Hw' _].
  destruct (LinkedTokens.wallet_token r) as [w|] eqn:Ew; [|congruence].
  rewrite <- Ew. apply effects_one.
  apply (effect_insert_wallet_msg r w); [assumption|assumption|].
  unfold call_data_ok. exists cid, call, meta, (LinkedSession.session_token x).
  destruct (truthy_str url); [|repeat split].
  rewrite !dict_get_set_other by discriminate. repeat split.
Qed.

Lemma wallet_called_effects (wt : string) (cid : json) (st : string)
    (res : json) (s : db) :
  effects s (fst (wallet_called wt cid st res s)).
Proof.
  unfold wallet_called.
  destruct (session_by_token st s) as [x|] eqn:Hx; [|apply effects_nil].
  apply find_some in Hx. destruct Hx as [Hx _].
  destruct (token_by_id (LinkedSession.linked_id x) s) as [r|]; [|apply effects_nil].
  destruct (negb (opt_str_eqb (LinkedTokens.wallet_token r) wt)); [apply effects_nil|].
  apply effects_one. now apply effect_insert_message.
Qed.

Lemma unlink_effects (ct : string) (s : db) : effects s (fst (unlink ct s)).
Proof.
  unfold unlink, token_by_client.
  destruct (find _ (tokens s)) as [r|] eqn:Hf; [|apply effects_nil].
  apply find_some in Hf. destruct Hf as [Hin _].
  destruct (negb (LinkedTokens.linked r)); [apply effects_nil|].
  apply effects_one. eapply effect_update with (r := r); [exact Hin|reflexivity|].
  unfold record_ok; simpl. intros (_ & H2 & H3 & H4).
  split; [discriminate|]. auto.
Qed.

Lemma unlink_wallet_effects (wt lid : string) (s : db) :
  effects s (fst (unlink_wallet wt lid s)).
Proof.
  unfold unlink_wallet.
  destruct (find _ (filter _ (tokens s))) as [r|] eqn:Hf; [|apply effects_nil].
  apply find_some in Hf. destruct Hf as [Hin _]. apply filter_In in Hin.
  destruct Hin as [Hin _].
  apply effects_one. eapply effect_update with (r := r); [exact Hin|reflexivity|].
  unfold record_ok; simpl. intros (_ & H2 & H3 & H4).
  split; [discriminate|]. auto.
Qed.

Lemma serve_effects (now : time) (req : request) (s : db) :
  Forall token_ok (tokens s) -> effects s (serve now req s).
Proof.
  intros Hok. destruct req; simpl.
  - apply generate_code_effects.
  - apply link_messages_effects.
  - apply wallet_messages_effects.
  - apply link_wallet_effects.
  - now apply call_wallet_effects.
  - apply wallet_called_effects.
  - apply unlink_effects.
  - apply unlink_wallet_effects.
Qed.

Lemma reachable_sound (now : time) (s : db) : reachable now s -> sound s.
Proof.
  induction 1 as [now|t now req s Hr IH Hle].
  - apply sound_empty.
  - eapply effects_sound; [|exact IH].
    apply serve_effects. apply reachable_invariant in Hr. apply Hr.
Qed.

(** Where every linked record has its linking time, [get_links] renders
    each of the records it selects. *)
Lemma get_links_of_sound (wt : string) (s : db) :
  sound s ->
  exists links,
    get_links wt s = Ok links
    /\ Forall2 (fun r d =>
                  exists linked_at,
                    LinkedTokens.linked_at r = Some linked_at
                    /\ d = [("linked", JBool true);
                            ("app_info",
                             match _to_usable_info (LinkedTokens.app_info r) with
                             | Some i => JDict i
                             | None => JNull
                             end);
                            ("link_id",
                             JStr (_hash_id (LinkedTokens.id r)
                                     (LinkedTokens.client_token r)));
                            ("linked_at", JNum (to_js_timestamp linked_at))])
               (links_of wt s) links.
Proof.
  intros [Hrec _ _ _ _].
  assert (Hrows : Forall (fun r => In r (tokens s) /\ LinkedTokens.linked r = true)
                         (links_of wt s)).
  { apply Forall_forall. intros r Hin. apply in_links_of in Hin.
    destruct Hin as (Hin & _ & Hl). now split. }
  unfold get_links.
  induction Hrows as [|r rows [Hin Hl] _ (links & Hg & Hf)].
  - exists []. split; [reflexivity|constructor].
  - rewrite Forall_forall in Hrec. destruct (Hrec r Hin) as (Hat & _).
    destruct (LinkedTokens.linked_at r) as [at_|] eqn:Eat;
      [clear Hat|now destruct (Hat Hl)].
    eexists. simpl. unfold _link_dict at 1. rewrite Eat, Hg, Hl. simpl.
    split; [reflexivity|].
    constructor; [|exact Hf]. exists at_. split; [assumption|reflexivity].
Qed.

(** X6: in a reachable database [get_links] does not raise and renders, in
    table order, exactly the linked records bound to the wallet token, each
    with its hashed id and its linking time. *)
Theorem get_links_lists (t : time) (wt : string) (s : db) :
  reachable t s ->
  exists links,
    get_links wt s = Ok links
    /\ (forall r, In r (links_of wt s) <->
                  In r (tokens s) /\ LinkedTokens.wallet_token r = Some wt
                  /\ LinkedTokens.linked r = true)
    /\ Forall2 (fun r d =>
                  exists linked_at,
                    LinkedTokens.linked_at r = Some linked_at
                    /\ d = [("linked", JBool true);
                            ("app_info",
                             match _to_usable_info (LinkedTokens.app_info r) with
                             | Some i => JDict i
                             | None => JNull
                             end);
                            ("link_id",
                             JStr (_hash_id (LinkedTokens.id r)
                                     (LinkedTokens.client_token r)));
                            ("linked_at", JNum (to_js_timestamp linked_at))])
               (links_of wt s) links.
Proof.
  intros Hr. apply reachable_sound in Hr.
  destruct (get_links_of_sound wt s Hr) as (links & Hg & Hf).
  exists links. split; [exact Hg|]. split; [apply in_links_of|exact Hf].
Qed.

(** X7: the link made by [link_wallet] is listed: in the database it
    leaves, [get_links] for the linking wallet contains an entry with the
    link id [link_wallet] returned and the linking time. *)
Theorem linked_is_listed (t now : time) (wt code : string) (rpc acc : json)
    (s : db) (r : LinkedTokens.t) :
  reachable t s -> t <= now ->
  unexpired_by_code code now s = Some r ->
  exists links d,
    get_links wt (fst (link_wallet now wt code rpc acc s)) = Ok links
    /\ In d links
    /\ dict_get "linked" d = Some (JBool true)
    /\ dict_get "link_id" d
       = Some (JStr (_hash_id (LinkedTokens.id r) (LinkedTokens.client_token r)))
    /\ dict_get "linked_at" d = Some (JNum (to_js_timestamp now)).
Proof.
  intros Hr Hle Hf.
  assert (Hr' : reachable now (fst (link_wallet now wt code rpc acc s)))
    by (apply (reachable_serve t now (LinkWallet wt code rpc acc) s Hr Hle)).
  destruct (get_links_of_sound wt _ (reachable_sound _ _ Hr')) as (links & Hg & Hrows).
  set (r' := linked_record now wt rpc acc r).
  assert (Hin : In r' (links_of wt (fst (link_wallet now wt code rpc acc s)))).
  { apply in_links_of. split; [|split; reflexivity].
    destruct (unexpired_by_code_inv code now s r Hf) as (Hin & _).
    unfold link_wallet. rewrite Hf. simpl. fold r'.
    destruct (negb (LinkedTokens.id r =? 0)).
    - rewrite fan_out_spec. simpl. apply (in_update_self r r' s Hin eq_refl).
    - apply (in_update_self r r' s Hin eq_refl). }
  destruct (Forall2_in_l _ _ _ Hrows r' Hin) as (d & Hd & at_ & Hat & Ed).
  exists links, d. split; [assumption|]. split; [assumption|].
  simpl in Hat. inversion Hat. subst at_ d. repeat split.
Qed.

(** X8: every session of a reachable database is bound to a pairing record
    that exists, so [wallet_called] never raises "Session not linked": an
    unknown session token raises "Session does not exist", a wallet token
    other than the record's raises "Wallet linked to a different session",
    and anything else is delivered. *)
Theorem wallet_called_outcomes (t : time) (wt : string) (cid : json) (st : string)
    (res : json) (s : db) :
  reachable t s ->
  (forall x, In x (sessions s) ->
     exists r, token_by_id (LinkedSession.linked_id x) s = Some r)
  /\ (wallet_called wt cid st res s = (s, Raise (Exception_ "Session does not exist"))
      \/ wallet_called wt cid st res s
         = (s, Raise (Exception_ "Wallet linked to a different session"))
      \/ exists x,
           session_by_token st s = Some x
           /\ wallet_called wt cid st res s
              = (insert_message (LinkedSession.id x) CALL_RESPONSE
                   (JDict [("call_id", cid); ("result", res)]) s, Ok true)).
Proof.
  intros Hr. apply reachable_sound in Hr. destruct Hr as [_ Hs _ _ _].
  assert (Hrec : forall x, In x (sessions s) ->
            exists r, token_by_id (LinkedSession.linked_id x) s = Some r).
  { intros x Hx. rewrite Forall_forall in Hs. specialize (Hs x Hx).
    apply in_map_iff in Hs. destruct Hs as (r & Hid & Hin).
    unfold token_by_id.
    destruct (find _ (tokens s)) as [r0|] eqn:Hf; [now exists r0|].
    pose proof (find_none _ _ Hf r Hin) as Hn. simpl in Hn.
    apply Z.eqb_neq in Hn. congruence. }
  split; [exact Hrec|]. unfold wallet_called.
  destruct (session_by_token st s) as [x|] eqn:Hx; [|now left].
  pose proof Hx as Hin. apply find_some in Hin. destruct Hin as [Hin _].
  destruct (Hrec x Hin) as (r & ->).
  destruct (opt_str_eqb (LinkedTokens.wallet_token r) wt); simpl.
  - right; right. now exists x.
  - right; now left.
Qed.

(** ** Polls *)

Lemma mapM_app {A B} (f : A -> result B) (l1 l2 : list A) :
  mapM f (l1 ++ l2)
  = (a <- mapM f l1 ;; b <- mapM f l2 ;; Ok (a ++ b)).
Proof.
  induction l1 as [|x l1 IH]; simpl.
  - destruct (mapM f l2); reflexivity.
  - destruct (f x); simpl; [|reflexivity]. rewrite IH.
    destruct (mapM f l1); simpl; [|reflexivity].
    destruct (mapM f l2); reflexivity.
Qed.

Lemma token_by_id_in (s : db) (r : LinkedTokens.t) :
  wf s -> In r (tokens s) -> token_by_id (LinkedTokens.id r) s = Some r.
Proof.
  intros Hwf Hin. unfold token_by_id.
  destruct (find _ (tokens s)) as [r0|] eqn:Hf.
  - apply find_some in Hf. destruct Hf as [Hin0 Hid]. apply Z.eqb_eq in Hid.
    f_equal. apply (same_id_same_row LinkedTokens.id (tokens s)); try assumption.
    apply sorted_NoDup. apply (wf_tokens s Hwf).
  - pose proof (find_none _ _ Hf r Hin) as Hn. simpl in Hn.
    now rewrite Z.eqb_refl in Hn.
Qed.

Lemma session_of_by_token (st : string) (s : db) (x : LinkedSession.t) :
  session_by_token st s = Some x ->
  session_of st (LinkedSession.linked_id x) s = Some x.
Proof.
  unfold session_by_token, session_of.
  induction (sessions s) as [|a l IH]; simpl; [discriminate|].
  destruct (LinkedSession.session_token a =? st)%string; simpl.
  - intros H; inversion H; subst. now rewrite Z.eqb_refl.
  - exact IH.
Qed.

(** A poll of the client mailbox of a well-formed database does not raise:
    it returns the re-shaped rows the final query selects. *)
Lemma get_linked_messages_ok (x : LinkedSession.t) (last : option Z)
    (purge : bool) (s : db) :
  Forall message_ok (messages s) ->
  exists out,
    snd (get_linked_messages x last purge s) = Ok out
    /\ Forall2 reshaped
         (filter (selected x last)
                 (messages (fst (get_linked_messages x last purge s)))) out.
Proof.
  intros Hok. unfold get_linked_messages. cbn [fst snd].
  apply mapM_shape_ok. apply Forall_forall. intros m Hm.
  apply filter_In in Hm. destruct Hm as [Hm _].
  rewrite Forall_forall in Hok. apply Hok.
  destruct last as [c|]; [|exact Hm]. destruct purge; [|exact Hm].
  simpl in Hm. apply filter_In in Hm. apply Hm.
Qed.

(** X9: the result a wallet delivers reaches the client: after a successful
    [wallet_called] for a session of a linked client, the client's next
    [link_messages] with that session and a cursor below the new message
    ends with the CALL_RESPONSE carrying that result and call id. *)
Theorem deliver_then_poll (t : time) (wt : string) (cid res : json)
    (u ct st : string) (last : option Z) (s : db)
    (r : LinkedTokens.t) (x : LinkedSession.t) :
  reachable t s ->
  ct <> EmptyString -> st <> EmptyString ->
  token_by_client ct s = Some r -> LinkedTokens.linked r = true ->
  LinkedTokens.wallet_token r = Some wt ->
  session_by_token st s = Some x ->
  LinkedSession.linked_id x = LinkedTokens.id r ->
  (forall c, last = Some c -> c < next_message_id s) ->
  exists s' s'' earlier,
    wallet_called wt cid st res s = (s', Ok true)
    /\ link_messages u (Some ct) (Some st) last s'
       = (s'', Ok (Some ct, Some st,
                   earlier
                   ++ [JDict [("type", JStr "CALL_RESPONSE");
                              ("id", JNum (next_message_id s));
                              ("result", res); ("call_id", cid)]],
                   true)).
Proof.
  intros Hr Hct Hst Hf Hl Hw Hx Hlid Hcur.
  apply reachable_invariant in Hr. destruct Hr as (Hwf & _ & _).
  pose proof Hf as Hin. apply find_some in Hin. destruct Hin as [Hin _].
  set (new := LinkedMessage.mk (next_message_id s) (LinkedSession.id x)
                CALL_RESPONSE (JDict [("call_id", cid); ("result", res)])).
  set (s' := insert_message (LinkedSession.id x) CALL_RESPONSE
               (JDict [("call_id", cid); ("result", res)]) s).
  assert (Hcall : wallet_called wt cid st res s = (s', Ok true)).
  { unfold wallet_called. rewrite Hx, Hlid, (token_by_id_in s r Hwf Hin), Hw.
    simpl. now rewrite String.eqb_refl. }
  assert (Hkept : forall f : LinkedMessage.t -> bool, f new = true ->
            filter f (messages s') = filter f (messages s) ++ [new]).
  { intros f Hnew. simpl. rewrite filter_app. simpl. fold new. now rewrite Hnew. }
  assert (Hpoll : exists earlier s'',
            get_linked_messages x last true s'
            = (s'', Ok (earlier
                        ++ [JDict [("type", JStr "CALL_RESPONSE");
                                   ("id", JNum (next_message_id s));
                                   ("result", res); ("call_id", cid)]]))).
  { unfold get_linked_messages.
    assert (Hsel : selected x last new = true).
    { unfold selected, owned_by. simpl. rewrite Z.eqb_refl. simpl.
      destruct last as [c|]; [|reflexivity]. apply Z.ltb_lt. now apply Hcur. }
    assert (Hrows : exists old,
              Forall message_ok old
              /\ filter (selected x last)
                   (messages
                      match last with
                      | Some c =>
                          with_messages
                            (filter (fun m => negb (purged x c m)) (messages s')) s'
                      | None => s'
                      end)
                 = old ++ [new]).
    { pose proof (wf_message_data s Hwf) as Hd.
      destruct last as [c|].
      - exists (filter (selected x (Some c))
                  (filter (fun m => negb (purged x c m)) (messages s))).
        split.
        + rewrite Forall_forall in *. intros m Hm.
          apply filter_In in Hm. destruct Hm as [Hm _].
          apply filter_In in Hm. now apply Hd.
        + cbn [messages with_messages]. rewrite Hkept.
          * rewrite filter_app. simpl. now rewrite Hsel.
          * unfold purged, owned_by. simpl. rewrite Z.eqb_refl. simpl.
            apply negb_true_iff. apply Z.leb_gt. now apply Hcur.
      - exists (filter (selected x None) (messages s)). split.
        + rewrite Forall_forall in *. intros m Hm.
          apply filter_In in Hm. now apply Hd.
        + now apply Hkept. }
    destruct Hrows as (old & Hold & Hrows).
    destruct (mapM_shape_ok old Hold) as (earlier & He & _).
    exists earlier, (fst (get_linked_messages x last true s')).
    unfold get_linked_messages.
    destruct last as [c|]; cbn [fst snd]; rewrite Hrows, mapM_app, He; reflexivity. }
  destruct Hpoll as (earlier & s'' & Hpoll).
  exists s', s'', earlier. split; [exact Hcall|].
  unfold link_messages.
  assert (Ht : forall z, z <> EmptyString -> truthy_str (Some z) = true)
    by (intros z Hz; simpl; apply negb_true_iff; now apply String.eqb_neq).
  rewrite !Ht by assumption. cbn [negb str_or_empty].
  assert (Hf' : token_by_client ct s' = Some r) by exact Hf.
  rewrite Hf', Hl. cbn [negb].
  assert (Hso : session_of st (LinkedTokens.id r) s' = Some x)
    by (rewrite <- Hlid; now apply session_of_by_token).
  rewrite Hso, Hpoll. reflexivity.
Qed.

Lemma find_app_none {A} (P : A -> bool) (l1 l2 : list A) :
  find P l1 = None -> find P (l1 ++ l2) = find P l2.
Proof.
  induction l1 as [|a l1 IH]; simpl; [reflexivity|].
  destruct (P a); [discriminate|exact IH].
Qed.

Lemma find_app_some {A} (P : A -> bool) (l1 l2 : list A) (a : A) :
  find P l1 = Some a -> find P (l1 ++ l2) = Some a.
Proof.
  induction l1 as [|b l1 IH]; simpl; [discriminate|].
  destruct (P b); [auto|exact IH].
Qed.

(** The session [generate_init_session] creates resolves. *)
Lemma session_of_generated (uuid : string) (r : LinkedTokens.t) (s : db) :
  session_of uuid (LinkedTokens.id r) (fst (generate_init_session uuid r s)) <> None.
Proof.
  unfold session_of. intros Hn.
  assert (Hin : In (LinkedSession.mk (next_session_id s) uuid (LinkedTokens.id r))
                   (sessions (fst (generate_init_session uuid r s)))).
  { unfold generate_init_session, send_init_messages. simpl.
    destruct (LinkedTokens.linked r); simpl; apply in_or_app; right; now left. }
  pose proof (find_none _ _ Hn _ Hin) as Hf. simpl in Hf.
  now rewrite String.eqb_refl, Z.eqb_refl in Hf.
Qed.

(** X10: in a reachable database [link_messages] does not raise, whatever
    the tokens and the cursor: the exception for a session that fails to
    resolve right after its creation cannot occur. *)
Theorem link_messages_total (t : time) (u : string) (ct st : option string)
    (last : option Z) (s : db) :
  reachable t s ->
  exists s' ct' st' msgs linked_,
    link_messages u ct st last s = (s', Ok (ct', st', msgs, linked_)).
Proof.
  intros Hr. apply reachable_invariant in Hr.
  unfold link_messages.
  destruct (negb (truthy_str ct)); [repeat eexists|].
  destruct (token_by_client (str_or_empty ct) s) as [r|]; [|repeat eexists].
  destruct (negb (LinkedTokens.linked r)); [repeat eexists|].
  assert (Hpoll : forall (tok : string) x s1, invariant t s1 ->
            exists s' ct' st' msgs linked_,
              (let '(s', r0) := get_linked_messages x last true s1 in
               (s', msgs <- r0 ;; Ok (ct, Some tok, msgs, true)))
              = (s', Ok (ct', st', msgs, linked_))).
  { intros tok x s1 (Hwf1 & _).
    destruct (get_linked_messages_ok x last true s1 (wf_message_data s1 Hwf1))
      as (out & Ho & _).
    destruct (get_linked_messages x last true s1) as [s' r0]. simpl in Ho. subst r0.
    repeat eexists. }
  pose proof (writes_invariant t s _ (generate_init_session_writes t u r s) Hr) as Hg.
  pose proof (session_of_generated u r s) as Hso.
  destruct (negb (truthy_str st)).
  - destruct (generate_init_session u r s) as [s1 tok] eqn:Eg.
    assert (tok = u) by (unfold generate_init_session in Eg; now inversion Eg).
    subst tok. simpl in Hg, Hso.
    destruct (session_of u (LinkedTokens.id r) s1) as [x|]; [|congruence].
    now apply Hpoll.
  - destruct (session_of (str_or_empty st) (LinkedTokens.id r) s) as [x|];
      [now apply Hpoll|].
    destruct (generate_init_session u r s) as [s1 tok] eqn:Eg.
    assert (tok = u) by (unfold generate_init_session in Eg; now inversion Eg).
    subst tok. simpl in Hg, Hso.
    destruct (session_of u (LinkedTokens.id r) s1) as [x|]; [|congruence].
    now apply Hpoll.
Qed.

(** X11: a linked client that polls without a session token, or with one
    that is not a session of its record, gets a new session (its token is
    the fresh uuid) seeded with the current network and accounts: without a
    cursor the poll returns exactly these two messages. *)
Theorem link_messages_new_session (t : time) (u ct : string) (st : option string)
    (s : db) (r : LinkedTokens.t) :
  reachable t s ->
  ct <> EmptyString -> token_by_client ct s = Some r ->
  LinkedTokens.linked r = true ->
  (truthy_str st = false
   \/ session_of (str_or_empty st) (LinkedTokens.id r) s = None) ->
  session_by_token u s = None ->
  exists s',
    link_messages u (Some ct) st None s
    = (s', Ok (Some ct, Some u,
               [JDict [("type", JStr "NETWORK"); ("id", JNum (next_message_id s));
                       ("network_rpc", LinkedTokens.current_rpc r)];
                JDict [("type", JStr "ACCOUNTS");
                       ("id", JNum (next_message_id s + 1));
                       ("accounts", LinkedTokens.current_accounts r)]],
               true))
    /\ tokens s' = tokens s
    /\ sessions s'
       = sessions s ++ [LinkedSession.mk (next_session_id s) u (LinkedTokens.id r)].
Proof.
  intros Hr Hct Hf Hl Hst Hu.
  pose proof (reachable_sound t s Hr) as [_ _ Hm _ _].
  apply reachable_invariant in Hr. destruct Hr as (Hwf & _ & _).
  set (x := LinkedSession.mk (next_session_id s) u (LinkedTokens.id r)).
  set (s1 := send_init_messages x r (insert_session u (LinkedTokens.id r) s)).
  assert (Hgen : generate_init_session u r s = (s1, u))
    by (unfold generate_init_session; now rewrite Hl).
  assert (Hso : session_of u (LinkedTokens.id r) s1 = Some x).
  { unfold session_of. simpl. rewrite find_app_none.
    - simpl. now rewrite String.eqb_refl, Z.eqb_refl.
    - unfold session_by_token in Hu.
      destruct (find (fun y => (LinkedSession.session_token y =? u)%string
                               && (LinkedSession.linked_id y =? LinkedTokens.id r))
                     (sessions s)) as [y|] eqn:Hy; [|reflexivity].
      apply find_some in Hy. destruct Hy as [Hy Hp]. apply andb_prop in Hp.
      now rewrite (find_none _ _ Hu y Hy) in Hp. }
  assert (Hold : filter (selected x None) (messages s) = []).
  { destruct (filter (selected x None) (messages s)) as [|m l] eqn:E; [reflexivity|].
    assert (Hin : In m (filter (selected x None) (messages s)))
      by (rewrite E; now left).
    apply filter_In in Hin. destruct Hin as [Hin Hsel].
    unfold selected, owned_by in Hsel. rewrite andb_true_r in Hsel.
    apply Z.eqb_eq in Hsel. simpl in Hsel.
    rewrite Forall_forall in Hm. specialize (Hm m Hin). rewrite Hsel in Hm.
    destruct (wf_sessions s Hwf) as [_ Hb]. rewrite Forall_forall in Hb.
    specialize (Hb _ Hm). lia. }
  assert (Hpoll : get_linked_messages x None true s1
                  = (s1, Ok [JDict [("type", JStr "NETWORK");
                                    ("id", JNum (next_message_id s));
                                    ("network_rpc", LinkedTokens.current_rpc r)];
                             JDict [("type", JStr "ACCOUNTS");
                                    ("id", JNum (next_message_id s + 1));
                                    ("accounts", LinkedTokens.current_accounts r)]])).
  { unfold get_linked_messages. cbn [messages s1 send_init_messages insert_message
      insert_session next_message_id].
    rewrite <- app_assoc, filter_app, Hold. simpl.
    unfold selected, owned_by. simpl. rewrite Z.eqb_refl. simpl. reflexivity. }
  exists s1. split; [|split; reflexivity].
  unfold link_messages.
  assert (Ht : truthy_str (Some ct) = true)
    by (simpl; apply negb_true_iff; now apply String.eqb_neq).
  rewrite Ht. cbn [negb str_or_empty]. rewrite Hf, Hl. cbn [negb].
  destruct (truthy_str st) eqn:Est; cbn [negb].
  - destruct Hst as [Hst|Hst]; [discriminate|]. rewrite Hst, Hgen, Hso, Hpoll.
    reflexivity.
  - rewrite Hgen, Hso, Hpoll. reflexivity.
Qed.

(** ** Requests for a code *)

Lemma truthy_str_some (z : string) : z <> EmptyString -> truthy_str (Some z) = true.
Proof. intros Hz. simpl. apply negb_true_iff. now apply String.eqb_neq. Qed.

(** [generate_code] for a client that is (or is forced to be) unlinked, once
    [_generate_code] has drawn [c]. *)
Lemma generate_code_known_issuing (now : time) (uc us : string)
    (rnd : nat -> nat -> nat) (ct : string) (st url : option string)
    (pc : option dict) (ua : option string) (fr : bool) (s : db)
    (r0 : LinkedTokens.t) (c : string) :
  ct <> EmptyString -> token_by_client ct s = Some r0 ->
  fr = true \/ LinkedTokens.linked r0 = false ->
  _generate_code rnd now s = Ok c ->
  let r1 := if fr then LinkedTokens.set_wallet_token None
                         (LinkedTokens.set_linked false r0) else r0 in
  let r2 := issued_record now url ua c r1 in
  let s1 := update_token r2 s in
  let valid := truthy_str st
               && is_some (session_of (str_or_empty st) (LinkedTokens.id r0) s1) in
  let s2 := if valid then s1 else insert_session us (LinkedTokens.id r0) s1 in
  let stok := if valid then str_or_empty st else us in
  generate_code now uc us rnd (Some ct) st url pc ua fr s
  = match pc with
    | Some (kv :: d) =>
        match _get_meta JNull
                (dict_get_json "call" (dict_set "session_token" (JStr stok) (kv :: d)))
        with
        | Ok meta =>
            (update_token
               (LinkedTokens.set_pending_call
                  (Some (stored_call (kv :: d) stok meta)) r2) s2,
             Ok (ct, stok, Some c, false))
        | Raise e => (s2, Raise e)
        end
    | _ => (s2, Ok (ct, stok, Some c, false))
    end.
Proof.
  intros Hct Hf Hunl Hg r1 r2 s1 valid s2 stok.
  assert (Hl1 : LinkedTokens.linked r1 = false)
    by (unfold r1; destruct fr; [reflexivity|now destruct Hunl]).
  assert (Hid : LinkedTokens.id r2 = LinkedTokens.id r0)
    by (unfold r2, issued_record, r1; destruct fr, (truthy_str ua); reflexivity).
  assert (Hl2 : LinkedTokens.linked r2 = false)
    by (unfold r2, issued_record; destruct (truthy_str ua); exact Hl1).
  unfold generate_code. rewrite (truthy_str_some ct Hct). cbn [negb str_or_empty].
  rewrite Hf. fold r1. rewrite Hl1. cbn [negb]. rewrite Hg. cbn [bind].
  assert (Hr2 : LinkedTokens.set_current_return_url url
                  (LinkedTokens.set_code_expires
                     (Some (now + timedelta_minutes CODE_EXPIRATION_TIME_MINUTES))
                     (LinkedTokens.set_code (Some c)
                        (if truthy_str ua
                         then LinkedTokens.set_app_info
                                (Some [("user-agent", JStr (str_or_empty ua))]) r1
                         else r1))) = r2)
    by reflexivity.
  rewrite Hr2. fold s1. rewrite Hid. fold valid.
  assert (Hgen : generate_init_session us r2 s1
                 = (insert_session us (LinkedTokens.id r0) s1, us))
    by (unfold generate_init_session; now rewrite Hl2, Hid).
  rewrite Hgen.
  assert (Hsess : (if valid then (s1, str_or_empty st)
                   else (insert_session us (LinkedTokens.id r0) s1, us))
                  = (s2, stok))
    by (unfold s2, stok; now destruct valid).
  rewrite Hsess. cbn [LinkedTokens.linked LinkedTokens.set_pending_call
                       LinkedTokens.code].
  rewrite Hl2. cbn [negb]. rewrite andb_true_r.
  assert (Hc2 : LinkedTokens.code r2 = Some c)
    by (unfold r2, issued_record; now destruct (truthy_str ua)).
  rewrite Hc2.
  destruct pc as [[|kv d]|]; cbn [truthy_dict]; try reflexivity.
Qed.

(** [generate_code] for a new client, once [_generate_code] has drawn [c]. *)
Lemma generate_code_new_issuing (now : time) (uc us : string)
    (rnd : nat -> nat -> nat) (ct st url : option string)
    (pc : option dict) (ua : option string) (fr : bool) (s : db) (c : string) :
  truthy_str ct = false ->
  _generate_code rnd now s = Ok c ->
  let r2 := issued_record now url ua c (new_record (next_token_id s) uc) in
  let s1 := insert_token r2 s in
  let valid := truthy_str st
               && is_some (session_of (str_or_empty st) (next_token_id s) s1) in
  let s2 := if valid then s1 else insert_session us (next_token_id s) s1 in
  let stok := if valid then str_or_empty st else us in
  generate_code now uc us rnd ct st url pc ua fr s
  = match pc with
    | Some (kv :: d) =>
        match _get_meta JNull
                (dict_get_json "call" (dict_set "session_token" (JStr stok) (kv :: d)))
        with
        | Ok meta =>
            (update_token
               (LinkedTokens.set_pending_call
                  (Some (stored_call (kv :: d) stok meta)) r2) s2,
             Ok (uc, stok, Some c, false))
        | Raise e => (s2, Raise e)
        end
    | _ => (s2, Ok (uc, stok, Some c, false))
    end.
Proof.
  intros Hct Hg r2 s1 valid s2 stok.
  set (r0 := new_record (next_token_id s) uc).
  set (r1 := if fr then LinkedTokens.set_wallet_token None
                          (LinkedTokens.set_linked false r0) else r0).
  assert (E1 : r1 = r0) by (unfold r1; now destruct fr).
  assert (Hid : LinkedTokens.id r2 = next_token_id s)
    by (unfold r2, issued_record; destruct (truthy_str ua); reflexivity).
  assert (Hl2 : LinkedTokens.linked r2 = false)
    by (unfold r2, issued_record; destruct (truthy_str ua); reflexivity).
  unfold generate_code. rewrite Hct. cbn [negb]. fold (new_record (next_token_id s) uc).
  fold r0. fold r1. rewrite E1.
  change (LinkedTokens.linked r0) with false. cbn [negb]. rewrite Hg. cbn [bind].
  assert (Hr2 : LinkedTokens.set_current_return_url url
                  (LinkedTokens.set_code_expires
                     (Some (now + timedelta_minutes CODE_EXPIRATION_TIME_MINUTES))
                     (LinkedTokens.set_code (Some c)
                        (if truthy_str ua
                         then LinkedTokens.set_app_info
                                (Some [("user-agent", JStr (str_or_empty ua))]) r0
                         else r0))) = r2)
    by reflexivity.
  rewrite Hr2. fold s1. rewrite Hid. fold valid.
  assert (Hgen : generate_init_session us r2 s1
                 = (insert_session us (next_token_id s) s1, us))
    by (unfold generate_init_session; now rewrite Hl2, Hid).
  rewrite Hgen.
  assert (Hsess : (if valid then (s1, str_or_empty st)
                   else (insert_session us (next_token_id s) s1, us))
                  = (s2, stok))
    by (unfold s2, stok; now destruct valid).
  rewrite Hsess. cbn [LinkedTokens.linked LinkedTokens.set_pending_call
                       LinkedTokens.code].
  rewrite Hl2. cbn [negb]. rewrite andb_true_r.
  assert (Hc2 : LinkedTokens.code r2 = Some c)
    by (unfold r2, issued_record; now destruct (truthy_str ua)).
  rewrite Hc2.
  destruct pc as [[|kv d]|]; cbn [truthy_dict]; try reflexivity.
Qed.


Lemma issued_record_fields (now : time) (url ua : option string) (c : string)
    (r : LinkedTokens.t) :
  LinkedTokens.id (issued_record now url ua c r) = LinkedTokens.id r
  /\ LinkedTokens.client_token (issued_record now url ua c r)
     = LinkedTokens.client_token r
  /\ LinkedTokens.linked (issued_record now url ua c r) = LinkedTokens.linked r
  /\ LinkedTokens.wallet_token (issued_record now url ua c r)
     = LinkedTokens.wallet_token r
  /\ LinkedTokens.pending_call (issued_record now url ua c r)
     = LinkedTokens.pending_call r
  /\ LinkedTokens.code (issued_record now url ua c r) = Some c
  /\ LinkedTokens.code_expires (issued_record now url ua c r)
     = Some (now + 60 * 60 * 1000000)
  /\ LinkedTokens.current_return_url (issued_record now url ua c r) = url.
Proof. unfold issued_record. destruct (truthy_str ua); repeat split. Qed.

(** X12: [generate_code] for a known client that is unlinked, or with
    [force_relink], once a code is drawn: whether or not attaching the
    pending call then raises, the client's record is left unlinked with the
    new code, an expiry one hour after [now] and the new return url; with
    [force_relink] its wallet token is cleared, so that results a wallet
    delivers to a session of the record are refused. *)
Theorem generate_code_reissues (now : time) (uc us : string)
    (rnd : nat -> nat -> nat) (ct : string) (st url : option string)
    (pc : option dict) (ua : option string) (fr : bool) (s : db)
    (r0 : LinkedTokens.t) (c : string) :
  ct <> EmptyString -> token_by_client ct s = Some r0 ->
  fr = true \/ LinkedTokens.linked r0 = false ->
  _generate_code rnd now s = Ok c ->
  exists r',
    token_by_id (LinkedTokens.id r0)
      (fst (generate_code now uc us rnd (Some ct) st url pc ua fr s)) = Some r'
    /\ LinkedTokens.linked r' = false
    /\ LinkedTokens.code r' = Some c
    /\ LinkedTokens.code_expires r' = Some (now + 60 * 60 * 1000000)
    /\ LinkedTokens.current_return_url r' = url
    /\ LinkedTokens.client_token r' = LinkedTokens.client_token r0
    /\ LinkedTokens.wallet_token r'
       = (if fr then None else LinkedTokens.wallet_token r0)
    /\ (fr = true ->
        forall wt cid stok res x,
          session_by_token stok
            (fst (generate_code now uc us rnd (Some ct) st url pc ua fr s)) = Some x ->
          LinkedSession.linked_id x = LinkedTokens.id r0 ->
          wallet_called wt cid stok res
            (fst (generate_code now uc us rnd (Some ct) st url pc ua fr s))
          = (fst (generate_code now uc us rnd (Some ct) st url pc ua fr s),
             Raise (Exception_ "Wallet linked to a different session"))).
Proof.
  intros Hct Hf Hunl Hg.
  pose proof Hf as Hin. apply find_some in Hin. destruct Hin as [Hin _].
  rewrite (generate_code_known_issuing now uc us rnd ct st url pc ua fr s r0 c
             Hct Hf Hunl Hg).
  set (r1 := if fr then LinkedTokens.set_wallet_token None
                          (LinkedTokens.set_linked false r0) else r0).
  set (r2 := issued_record now url ua c r1).
  set (s1 := update_token r2 s).
  set (valid := truthy_str st && _).
  set (s2 := if valid then s1 else insert_session us (LinkedTokens.id r0) s1).
  set (stok := if valid then str_or_empty st else us).
  destruct (issued_record_fields now url ua c r1)
    as (Hid & Hc & Hl & Hw & _ & Hcode & Hexp & Hurl).
  fold r2 in Hid, Hc, Hl, Hw, Hcode, Hexp, Hurl.
  assert (H1 : LinkedTokens.id r1 = LinkedTokens.id r0
               /\ LinkedTokens.client_token r1 = LinkedTokens.client_token r0
               /\ LinkedTokens.linked r1 = false
               /\ LinkedTokens.wallet_token r1
                  = (if fr then None else LinkedTokens.wallet_token r0)).
  { unfold r1. destruct fr; repeat split. now destruct Hunl. }
  destruct H1 as (Hid1 & Hc1 & Hl1 & Hw1).
  assert (Ht2 : tokens s2 = tokens s1) by (unfold s2; now destruct valid).
  assert (Hin2 : In r2 (tokens s2)).
  { rewrite Ht2. apply (in_update_self r0 r2 s Hin). congruence. }
  assert (Hfinal : forall q : LinkedTokens.t,
            LinkedTokens.id q = LinkedTokens.id r2 ->
            token_by_id (LinkedTokens.id r0) (update_token q s2) = Some q).
  { intros q Hq. replace (LinkedTokens.id r0) with (LinkedTokens.id r2) by congruence.
    apply (find_update r2 q); assumption. }
  assert (Hs2 : token_by_id (LinkedTokens.id r0) s2 = Some r2).
  { unfold token_by_id. rewrite Ht2. apply (find_update r0 r2); [assumption|congruence]. }
  assert (Hrefuse : forall s' r',
            token_by_id (LinkedTokens.id r0) s' = Some r' ->
            LinkedTokens.wallet_token r' = None ->
            forall wt cid stok0 res x,
              session_by_token stok0 s' = Some x ->
              LinkedSession.linked_id x = LinkedTokens.id r0 ->
              wallet_called wt cid stok0 res s'
              = (s', Raise (Exception_ "Wallet linked to a different session"))).
  { intros s' r' Hr' Hw' wt cid stok0 res x Hx Hlid. unfold wallet_called.
    now rewrite Hx, Hlid, Hr', Hw'. }
  assert (Hdone : forall s' r',
            token_by_id (LinkedTokens.id r0) s' = Some r' ->
            LinkedTokens.linked r' = LinkedTokens.linked r2 ->
            LinkedTokens.code r' = LinkedTokens.code r2 ->
            LinkedTokens.code_expires r' = LinkedTokens.code_expires r2 ->
            LinkedTokens.current_return_url r' = LinkedTokens.current_return_url r2 ->
            LinkedTokens.client_token r' = LinkedTokens.client_token r2 ->
            LinkedTokens.wallet_token r' = LinkedTokens.wallet_token r2 ->
            exists r',
              token_by_id (LinkedTokens.id r0) s' = Some r'
              /\ LinkedTokens.linked r' = false
              /\ LinkedTokens.code r' = Some c
              /\ LinkedTokens.code_expires r' = Some (now + 60 * 60 * 1000000)
              /\ LinkedTokens.current_return_url r' = url
              /\ LinkedTokens.client_token r' = LinkedTokens.client_token r0
              /\ LinkedTokens.wallet_token r'
                 = (if fr then None else LinkedTokens.wallet_token r0)
              /\ (fr = true ->
                  forall wt cid stok0 res x,
                    session_by_token stok0 s' = Some x ->
                    LinkedSession.linked_id x = LinkedTokens.id r0 ->
                    wallet_called wt cid stok0 res s'
                    = (s', Raise (Exception_ "Wallet linked to a different session")))).
  { intros s' r' Hr' E1 E2 E3 E4 E5 E6. exists r'.
    split; [assumption|]. split; [congruence|]. split; [congruence|].
    split; [congruence|]. split; [congruence|]. split; [congruence|].
    split; [congruence|]. intros Hfr. apply (Hrefuse s' r' Hr').
    rewrite E6, Hw, Hw1, Hfr. reflexivity. }
  destruct pc as [[|kv d]|]; cbn [fst].
  - apply (Hdone s2 r2 Hs2); reflexivity.
  - destruct (_get_meta JNull _) as [meta|e]; cbn [fst].
    + eapply Hdone; [apply Hfinal; reflexivity|..]; reflexivity.
    + apply (Hdone s2 r2 Hs2); reflexivity.
  - apply (Hdone s2 r2 Hs2); reflexivity.
Qed.

Lemma update_token_same (s : db) (r : LinkedTokens.t) :
  wf s -> In r (tokens s) -> update_token r s = s.
Proof.
  intros Hwf Hin. unfold update_token, with_tokens.
  assert (E : map (fun x => if LinkedTokens.id x =? LinkedTokens.id r then r else x)
                  (tokens s) = tokens s).
  { rewrite <- (map_id (tokens s)) at 2. apply map_ext_in. intros a Ha.
    destruct (Z.eqb_spec (LinkedTokens.id a) (LinkedTokens.id r)) as [E|N];
      [|reflexivity].
    symmetry. apply (same_id_same_row LinkedTokens.id (tokens s)); try assumption.
    apply sorted_NoDup. apply (wf_tokens s Hwf). }
  rewrite E. now destruct s.
Qed.

(** X13: [generate_code] for a client that is linked, without
    [force_relink], issues nothing and does not raise: it returns an empty
    code with linked = true, leaves every pairing record and the wallet
    mailbox as they were (a pending call given with the request is dropped),
    and changes nothing at all when the session token is a session of the
    record; otherwise it adds one session, seeded with the current network
    and accounts. *)
Theorem generate_code_when_linked (t now : time) (uc us : string)
    (rnd : nat -> nat -> nat) (ct : string) (st url : option string)
    (pc : option dict) (ua : option string) (s : db) (r : LinkedTokens.t) :
  reachable t s ->
  ct <> EmptyString -> token_by_client ct s = Some r ->
  LinkedTokens.linked r = true ->
  exists s' stok,
    generate_code now uc us rnd (Some ct) st url pc ua false s
    = (s', Ok (ct, stok, Some EmptyString, true))
    /\ tokens s' = tokens s /\ wallet_msgs s' = wallet_msgs s
    /\ (truthy_str st = true ->
        session_of (str_or_empty st) (LinkedTokens.id r) s <> None ->
        s' = s /\ stok = str_or_empty st)
    /\ (truthy_str st = false
        \/ session_of (str_or_empty st) (LinkedTokens.id r) s = None ->
        stok = us
        /\ sessions s'
           = sessions s ++ [LinkedSession.mk (next_session_id s) us (LinkedTokens.id r)]
        /\ messages s'
           = messages s
             ++ [LinkedMessage.mk (next_message_id s) (next_session_id s) NETWORK
                   (LinkedTokens.current_rpc r);
                 LinkedMessage.mk (next_message_id s + 1) (next_session_id s)
                   ACCOUNTS (LinkedTokens.current_accounts r)]).
Proof.
  intros Hr Hct Hf Hl. apply reachable_invariant in Hr. destruct Hr as (Hwf & _ & _).
  pose proof Hf as Hin. apply find_some in Hin. destruct Hin as [Hin _].
  unfold generate_code. rewrite (truthy_str_some ct Hct). cbn [negb str_or_empty].
  rewrite Hf, Hl. cbn [negb]. rewrite (update_token_same s r Hwf Hin).
  destruct (truthy_str st && is_some (session_of (str_or_empty st) (LinkedTokens.id r) s))
    eqn:Ev.
  - rewrite Hl. cbn [negb]. rewrite andb_false_r.
    exists s, (str_or_empty st). split; [reflexivity|]. split; [reflexivity|].
    split; [reflexivity|]. split; [auto|].
    apply andb_prop in Ev. destruct Ev as [E1 E2].
    intros [H|H]; [congruence|]. rewrite H in E2. discriminate.
  - unfold generate_init_session. rewrite Hl. cbn [negb]. rewrite andb_false_r.
    eexists _, us. split; [reflexivity|]. split; [reflexivity|].
    split; [reflexivity|]. split.
    + intros E1 E2. rewrite E1 in Ev. simpl in Ev.
      destruct (session_of (str_or_empty st) (LinkedTokens.id r) s); [discriminate|].
      now destruct E2.
    + intros _. split; [reflexivity|]. split; [reflexivity|].
      simpl. now rewrite <- app_assoc.
Qed.

Lemma find_only {A} (P : A -> bool) (l : list A) (r : A) :
  In r l -> P r = true -> (forall a, In a l -> a = r \/ P a = false) ->
  find P l = Some r.
Proof.
  induction l as [|a l IH]; intros Hin Hp Hall; [destruct Hin|].
  simpl. destruct (P a) eqn:Ha.
  - destruct (Hall a (or_introl eq_refl)) as [->|E]; [reflexivity|congruence].
  - apply IH; [|assumption|].
    + destruct Hin as [->|Hin]; [congruence|assumption].
    + intros b Hb. apply Hall. now right.
Qed.

Lemma stored_call_keys (pc : dict) (stok : string) (meta : dict) :
  dict_get "session_token" (stored_call pc stok meta) = Some (JStr stok)
  /\ dict_get "meta" (stored_call pc stok meta) = Some (JDict meta)
  /\ forall k, k <> "session_token" -> k <> "meta" ->
               dict_get k (stored_call pc stok meta) = dict_get k pc.
Proof.
  unfold stored_call. split; [|split].
  - rewrite dict_get_set_other by discriminate. apply dict_get_set_same.
  - apply dict_get_set_same.
  - intros k H1 H2. rewrite !dict_get_set_other by congruence. reflexivity.
Qed.

(** [link_wallet] on the database [generate_code] leaves once it has
    attached the pending call. *)
Lemma link_wallet_after_request (now now' e : time) (c wt : string) (rpc acc : json)
    (s s2 : db) (r2 : LinkedTokens.t) (stored : dict) :
  count_active c now s = 0%nat -> now <= now' ->
  In r2 (tokens s2) ->
  (forall a, In a (tokens s2) -> a = r2 \/ In a (tokens s)) ->
  LinkedTokens.code r2 = Some c -> LinkedTokens.code_expires r2 = Some e ->
  now' < e ->
  exists s'' info lid,
    link_wallet now' wt c rpc acc
      (update_token (LinkedTokens.set_pending_call (Some stored) r2) s2)
    = (s'', Ok (LinkedTokens.current_return_url r2, true, Some stored, info, lid,
                to_js_timestamp now')).
Proof.
  intros Hz Hle Hin Hrows Hc He Hlt.
  set (r3 := LinkedTokens.set_pending_call (Some stored) r2).
  assert (Hf : unexpired_by_code c now' (update_token r3 s2) = Some r3).
  { apply find_only.
    - apply (in_update_self r2 r3 s2 Hin eq_refl).
    - apply (active_code_intro c now' e r3); assumption.
    - intros a Ha. apply (in_update r3) in Ha.
      destruct Ha as [[-> _]|[Ha Hne]]; [now left|]. right.
      destruct (Hrows a Ha) as [->|Hold]; [now destruct Hne|].
      destruct (active_code c now' a) eqn:E; [|reflexivity].
      apply (active_code_earlier c now now' a Hle) in E.
      now rewrite (count_active_zero c now s a Hz Hold) in E. }
  unfold link_wallet. rewrite Hf. repeat eexists.
Qed.

(** X14: a call made before linking is replayed at link time: when
    [generate_code] issues a code for a client that is new, unlinked or
    forced to relink, with a non-empty pending call whose metadata can be
    extracted, then [link_wallet] with that code, within the hour, returns
    the call with the session token and the metadata added (every other key
    as given) together with the return url of the request. *)
Theorem pending_call_replayed (now now' : time) (uc us : string)
    (rnd : nat -> nat -> nat) (ct st url : option string) (pc : dict)
    (ua : option string) (fr : bool) (s : db) (c wt : string) (meta : dict)
    (rpc acc : json) :
  truthy_str ct = false
  \/ (truthy_str ct = true
      /\ exists r0, token_by_client (str_or_empty ct) s = Some r0
                    /\ (fr = true \/ LinkedTokens.linked r0 = false)) ->
  _generate_code rnd now s = Ok c ->
  pc <> [] ->
  _get_meta JNull (dict_get_json "call" pc) = Ok meta ->
  now <= now' < now + 60 * 60 * 1000000 ->
  exists s' ctok stok,
    generate_code now uc us rnd ct st url (Some pc) ua fr s
    = (s', Ok (ctok, stok, Some c, false))
    /\ (exists s'' info lid,
          link_wallet now' wt c rpc acc s'
          = (s'', Ok (url, true, Some (stored_call pc stok meta), info, lid,
                      to_js_timestamp now')))
    /\ dict_get "session_token" (stored_call pc stok meta) = Some (JStr stok)
    /\ dict_get "meta" (stored_call pc stok meta) = Some (JDict meta)
    /\ (forall k, k <> "session_token" -> k <> "meta" ->
                  dict_get k (stored_call pc stok meta) = dict_get k pc).
Proof.
  intros Hlookup Hg Hpc Hmeta [Hle Hlt].
  pose proof (_generate_code_from_unused _ _ _ _ _ _ Hg) as Hz.
  assert (Hcall : forall stok,
            _get_meta JNull
              (dict_get_json "call" (dict_set "session_token" (JStr stok) pc))
            = Ok meta).
  { intros stok. unfold dict_get_json in *.
    now rewrite dict_get_set_other by discriminate. }
  destruct pc as [|kv d]; [congruence|].
  destruct Hlookup as [Hnew|(Hknown & r0 & Hf & Hunl)].
  - pose proof (generate_code_new_issuing now uc us rnd ct st url (Some (kv :: d)) ua
                  fr s c Hnew Hg) as E.
    cbv beta iota zeta in E. revert E.
    set (r2 := issued_record now url ua c (new_record (next_token_id s) uc)).
    set (s1 := insert_token r2 s).
    set (valid := truthy_str st && _).
    set (s2 := if valid then s1 else insert_session us (next_token_id s) s1).
    set (stok := if valid then str_or_empty st else us).
    rewrite (Hcall stok). intros E.
    destruct (issued_record_fields now url ua c (new_record (next_token_id s) uc))
      as (_ & _ & _ & _ & _ & Hcode & Hexp & Hurl). fold r2 in Hcode, Hexp, Hurl.
    assert (Ht2 : tokens s2 = tokens s ++ [r2]) by (unfold s2; now destruct valid).
    eexists _, uc, stok. split; [exact E|]. split; [|apply stored_call_keys].
    rewrite <- Hurl.
    apply (link_wallet_after_request now now' (now + 60 * 60 * 1000000) c wt rpc acc
             s s2 r2); try assumption.
    + rewrite Ht2. apply in_or_app. right. now left.
    + intros a Ha. rewrite Ht2 in Ha. apply in_app_or in Ha.
      destruct Ha as [Ha|[<-|[]]]; auto.
  - destruct ct as [ct0|]; [|discriminate]. simpl in Hf.
    assert (Hct : ct0 <> EmptyString).
    { intros ->. discriminate. }
    pose proof Hf as Hin. apply find_some in Hin. destruct Hin as [Hin _].
    pose proof (generate_code_known_issuing now uc us rnd ct0 st url (Some (kv :: d))
                  ua fr s r0 c Hct Hf Hunl Hg) as E.
    cbv beta iota zeta in E. revert E.
    set (r1 := if fr then LinkedTokens.set_wallet_token None
                            (LinkedTokens.set_linked false r0) else r0).
    set (r2 := issued_record now url ua c r1).
    set (s1 := update_token r2 s).
    set (valid := truthy_str st && _).
    set (s2 := if valid then s1 else insert_session us (LinkedTokens.id r0) s1).
    set (stok := if valid then str_or_empty st else us).
    rewrite (Hcall stok). intros E.
    destruct (issued_record_fields now url ua c r1)
      as (Hid & _ & _ & _ & _ & Hcode & Hexp & Hurl).
    fold r2 in Hid, Hcode, Hexp, Hurl.
    assert (Hid1 : LinkedTokens.id r1 = LinkedTokens.id r0)
      by (unfold r1; now destruct fr).
    assert (Ht2 : tokens s2 = tokens s1) by (unfold s2; now destruct valid).
    eexists _, ct0, stok. split; [exact E|]. split; [|apply stored_call_keys].
    rewrite <- Hurl.
    apply (link_wallet_after_request now now' (now + 60 * 60 * 1000000) c wt rpc acc
             s s2 r2); try assumption.
    + rewrite Ht2. apply (in_update_self r0 r2 s Hin). congruence.
    + intros a Ha. rewrite Ht2 in Ha. apply (in_update r2) in Ha.
      destruct Ha as [[-> _]|[Ha _]]; auto.
Qed.

(** ** The wallet mailbox *)

Lemma shape_wallet_message_ok (m : WalletMessage.t) :
  wallet_message_ok m ->
  exists j, shape_wallet_message m = Ok j /\ wallet_reshaped m j.
Proof.
  destruct m as [i wt acc ty data].
  intros (Hty & _ & d & Hd & cid & call & meta & st & Hcid & Hcall & Hmeta & Hst).
  simpl in Hty, Hd. subst ty data.
  unfold shape_wallet_message, wallet_reshaped.
  cbn [WalletMessage.type WalletMessage.data WalletMessage.id subscript bind].
  rewrite Hcall, Hmeta, Hcid. cbn [bind].
  unfold dict_has, dict_get_json. rewrite Hst.
  destruct (dict_get "return_url" d) as [u|] eqn:Hu.
  - destruct (truthy u) eqn:Etu.
    + eexists. split; [reflexivity|]. exists d. eexists.
      split; [reflexivity|]. split; [reflexivity|].
      rewrite Hcall, Hmeta, Hcid, Hst, Hu. cbn. rewrite Etu. repeat split.
    + eexists. split; [reflexivity|]. exists d. eexists.
      split; [reflexivity|]. split; [reflexivity|].
      rewrite Hcall, Hmeta, Hcid, Hst, Hu. cbn. rewrite Etu. repeat split.
  - eexists. split; [reflexivity|]. exists d. eexists.
    split; [reflexivity|]. split; [reflexivity|].
    rewrite Hcall, Hmeta, Hcid, Hst, Hu. cbn. repeat split.
Qed.

Lemma mapM_shape_wallet_ok (l : list WalletMessage.t) :
  Forall wallet_message_ok l ->
  exists out, mapM shape_wallet_message l = Ok out /\ Forall2 wallet_reshaped l out.
Proof.
  induction 1 as [|m l Hm Hl (out & Ho & Hf)]; simpl.
  - exists []. split; [reflexivity|constructor].
  - destruct (shape_wallet_message_ok m Hm) as (j & Hj & Hr).
    exists (j :: out). rewrite Hj, Ho. simpl. split; [reflexivity|now constructor].
Qed.

Lemma addressed_to_spec (wt : string) (a : json) (m : WalletMessage.t) :
  opt_str_eqb (WalletMessage.wallet_token m) wt
  && contains (WalletMessage.current_accounts m) a = true
  <-> addressed_to wt a m.
Proof.
  unfold addressed_to, opt_str_eqb. rewrite andb_true_iff.
  destruct (WalletMessage.wallet_token m) as [w|].
  - rewrite String.eqb_eq. split; intros [H1 H2]; split; congruence.
  - split; intros [H1 H2]; discriminate.
Qed.

(** X15: [wallet_messages] with an empty wallet token returns no message,
    and with no first account it raises; either way it deletes nothing.
    Otherwise, in a reachable database, it does not raise: a cursor deletes
    exactly the messages addressed to the wallet and first account with id
    at most the cursor, and the poll returns, re-shaped and in ascending id
    order, exactly the remaining addressed messages above the cursor;
    pairing records, sessions and the client mailbox stay. *)
Theorem wallet_messages_poll (t : time) (wt : string) (accounts : json)
    (last : option Z) (s : db) :
  reachable t s ->
  (wt = EmptyString -> wallet_messages wt accounts last s = (s, Ok []))
  /\ (wt <> EmptyString -> forall e, index accounts 0 = Raise e ->
        wallet_messages wt accounts last s = (s, Raise e))
  /\ (wt <> EmptyString -> forall a, index accounts 0 = Ok a ->
        exists s' rows out,
          wallet_messages wt accounts last s = (s', Ok out)
          /\ tokens s' = tokens s /\ sessions s' = sessions s
          /\ messages s' = messages s
          /\ (forall m, In m (wallet_msgs s') <->
                        In m (wallet_msgs s)
                        /\ ~ (addressed_to wt a m
                              /\ exists c, last = Some c /\ WalletMessage.id m <= c))
          /\ (forall m, In m rows <->
                        In m (wallet_msgs s') /\ addressed_to wt a m
                        /\ forall c, last = Some c -> c < WalletMessage.id m)
          /\ StronglySorted Z.lt (map WalletMessage.id rows)
          /\ Forall2 wallet_reshaped rows out).
Proof.
  intros Hr. apply reachable_sound in Hr. destruct Hr as [_ _ _ [Hids _] Hd].
  unfold wallet_messages. split; [|split].
  - intros ->. reflexivity.
  - intros Hne e He. rewrite (proj2 (String.eqb_neq _ _) Hne), He. reflexivity.
  - intros Hne a Ha. rewrite (proj2 (String.eqb_neq _ _) Hne), Ha.
    set (mine := fun m => opt_str_eqb (WalletMessage.wallet_token m) wt
                          && contains (WalletMessage.current_accounts m) a).
    set (s1 := match last with
               | Some c =>
                   with_wallet_msgs
                     (filter (fun m => negb (mine m && (WalletMessage.id m <=? c)))
                             (wallet_msgs s)) s
               | None => s
               end).
    set (sel := fun m => mine m && match last with
                                   | Some c => c <? WalletMessage.id m
                                   | None => true
                                   end).
    assert (Hkept : forall m, In m (wallet_msgs s1) <->
              In m (wallet_msgs s)
              /\ ~ (addressed_to wt a m
                    /\ exists c, last = Some c /\ WalletMessage.id m <= c)).
    { intros m. unfold s1. destruct last as [c|].
      - cbn [wallet_msgs with_wallet_msgs].
        rewrite filter_In, negb_true_iff, andb_false_iff, Z.leb_gt.
        rewrite <- (addressed_to_spec wt a m). fold (mine m).
        split; intros [Hin H]; (split; [assumption|]).
        + intros [Hm (c0 & Hc0 & Hle)]. inversion Hc0; subst c0.
          destruct H as [H|H]; [congruence|lia].
        + destruct (mine m); [right|now left].
          destruct (Z_le_gt_dec (WalletMessage.id m) c) as [Hle|Hgt]; [|lia].
          exfalso. apply H. split; [reflexivity|]. now exists c.
      - split; [intros Hin; split; [assumption|]|tauto].
        intros [_ (c & Hc & _)]. discriminate. }
    assert (Hsub : forall m, In m (wallet_msgs s1) -> In m (wallet_msgs s))
      by (intros m Hm; now apply Hkept in Hm).
    assert (Hok : Forall wallet_message_ok (filter sel (wallet_msgs s1))).
    { rewrite Forall_forall in *. intros m Hm. apply Hd. apply Hsub.
      apply filter_In in Hm. apply Hm. }
    destruct (mapM_shape_wallet_ok _ Hok) as (out & Hout & Hre).
    exists s1, (filter sel (wallet_msgs s1)), out.
    split; [transitivity (s1, mapM shape_wallet_message (filter sel (wallet_msgs s1)));
            [reflexivity|now rewrite Hout]|].
    split; [unfold s1; now destruct last|].
    split; [unfold s1; now destruct last|].
    split; [unfold s1; now destruct last|].
    split; [exact Hkept|]. split; [|split; [|exact Hre]].
    + intros m. rewrite filter_In. unfold sel. rewrite andb_true_iff.
      fold (mine m). unfold mine at 1. rewrite (addressed_to_spec wt a m).
      destruct last as [c|].
      * rewrite Z.ltb_lt. split.
        -- intros (Hin & Hm & Hlt). split; [assumption|]. split; [assumption|].
           intros c0 Hc0. injection Hc0 as E. rewrite <- E. exact Hlt.
        -- intros (Hin & Hm & Hlt). split; [assumption|]. split; [assumption|].
           now apply Hlt.
      * split.
        -- intros (Hin & Hm & _). split; [assumption|]. split; [assumption|].
           discriminate.
        -- intros (Hin & Hm & _). split; [assumption|]. split; [assumption|].
           reflexivity.
    + assert (Hs1 : ids_ok (map WalletMessage.id (wallet_msgs s1))
                           (next_wallet_msg_id s)).
      { unfold s1. destruct last as [c|]; [|exact Hids].
        now apply ids_ok_filter. }
      apply (ids_ok_filter WalletMessage.id sel) in Hs1. apply Hs1.
Qed.

Lemma filter_snoc_true {A} (f : A -> bool) (l : list A) (a : A) :
  f a = true -> filter f (l ++ [a]) = filter f l ++ [a].
Proof. intros H. rewrite filter_app. simpl. now rewrite H. Qed.

(** X16: a call submitted by a linked client reaches its wallet: when
    [call_wallet] finds the client's record, its session and the metadata of
    the call, it queues the call before it notifies the wallet, so whether
    or not the notification then raises, the next [wallet_messages] of that
    wallet, for accounts whose first one the queued snapshot contains and a
    cursor below the new message, ends with that call: kind CALL, the call,
    its id and metadata, the session token, and the return url if one was
    given.  Pairing records, sessions and the client mailbox stay. *)
Theorem call_then_poll (t : time) (ct st wt : string) (accounts cid call a : json)
    (url : option string) (last : option Z) (s : db)
    (r : LinkedTokens.t) (x : LinkedSession.t) (meta : dict) :
  reachable t s ->
  ct <> EmptyString -> linked_by_client ct s = Some r ->
  session_of st (LinkedTokens.id r) s = Some x ->
  _get_meta (LinkedTokens.current_rpc r) call = Ok meta ->
  index accounts 0 = Ok a -> contains accounts a = true ->
  LinkedTokens.wallet_token r = Some wt -> wt <> EmptyString ->
  (forall c, last = Some c -> c < next_wallet_msg_id s) ->
  exists s' res,
    call_wallet (Some ct) (Some st) accounts cid call url s = (s', res)
    /\ (res = Ok true \/ raises res)
    /\ tokens s' = tokens s /\ sessions s' = sessions s /\ messages s' = messages s
    /\ exists s'' earlier out,
         wallet_messages wt accounts last s' = (s'', Ok (earlier ++ [JDict out]))
         /\ dict_get "type" out = Some (JStr "CALL")
         /\ dict_get "id" out = Some (JNum (next_wallet_msg_id s))
         /\ dict_get "call_id" out = Some cid
         /\ dict_get "call" out = Some call
         /\ dict_get "meta" out = Some (JDict meta)
         /\ dict_get "session_token" out = Some (JStr st)
         /\ dict_get "return_url" out
            = (if truthy_str url then Some (json_of_str url) else None).
Proof.
  intros Hr Hct Hl Hx Hmeta Ha Hcont Hw Hwt Hcur.
  apply reachable_sound in Hr. destruct Hr as [_ _ _ _ Hd].
  assert (Hst : LinkedSession.session_token x = st).
  { apply find_some in Hx. destruct Hx as [_ Hx]. apply andb_prop in Hx.
    now apply String.eqb_eq. }
  set (base := [("call_id", cid); ("call", call); ("meta", JDict meta);
                ("session_token", JStr st)]).
  set (call_data := if truthy_str url
                    then dict_set "return_url" (json_of_str url) base else base).
  set (new := WalletMessage.mk (next_wallet_msg_id s) (Some wt) accounts CALL
                (JDict call_data)).
  set (s' := insert_wallet_msg (Some wt) accounts CALL (JDict call_data) s).
  assert (Hcall : exists res,
            call_wallet (Some ct) (Some st) accounts cid call url s = (s', res)
            /\ (res = Ok true \/ raises res)).
  { unfold call_wallet. rewrite (truthy_str_some ct Hct). cbn [negb str_or_empty].
    rewrite Hl, Hx, Hmeta, Hst, Hw. fold base. fold call_data. fold s'.
    eexists. split; [reflexivity|]. rewrite Ha. cbn [bind].
    destruct (toChecksumAddress a) as [addr|e]; cbn [bind]; [|right; now eexists].
    destruct (dict_has "info" meta).
    - destruct (send_single_notification _ INFO_TRANSACTION_PENDING _); cbn [bind];
        [now left|right; now eexists].
    - destruct (send_single_notification _ TRANSACTION_PENDING _); cbn [bind];
        [now left|right; now eexists]. }
  destruct Hcall as (res & Hcall & Hres).
  exists s', res. split; [exact Hcall|]. split; [exact Hres|].
  split; [reflexivity|]. split; [reflexivity|]. split; [reflexivity|].
  (* the shape of the new message *)
  assert (Hkeys : dict_get "call_id" call_data = Some cid
                  /\ dict_get "call" call_data = Some call
                  /\ dict_get "meta" call_data = Some (JDict meta)
                  /\ dict_get "session_token" call_data = Some (JStr st)
                  /\ (if truthy (dict_get_json "return_url" call_data)
                      then dict_get "return_url" call_data else None)
                     = (if truthy_str url then Some (json_of_str url) else None)).
  { unfold call_data. destruct (truthy_str url) eqn:Eu; [|repeat split].
    destruct url as [u|]; [|discriminate]. simpl in Eu. cbn. rewrite Eu.
    repeat split. }
  destruct Hkeys as (Kcid & Kcall & Kmeta & Kst & Kurl).
  assert (Hnew_ok : wallet_message_ok new).
  { unfold wallet_message_ok, new. simpl. split; [reflexivity|].
    split; [now exists wt|]. exists call_data. split; [reflexivity|].
    now exists cid, call, meta, st. }
  destruct (shape_wallet_message_ok new Hnew_ok)
    as (j & Hj & d & out & Hdd & -> & Otype & Oid & Ocall & Ometa & Ocid & Ost & Ourl).
  simpl in Hdd. inversion Hdd; subst d; clear Hdd.
  (* the poll *)
  set (mine := fun m => opt_str_eqb (WalletMessage.wallet_token m) wt
                        && contains (WalletMessage.current_accounts m) a).
  assert (Hmine : mine new = true).
  { unfold mine, new. simpl. now rewrite String.eqb_refl, Hcont. }
  set (keep := fun m => negb (mine m && match last with
                                        | Some c => WalletMessage.id m <=? c
                                        | None => false
                                        end)).
  set (sel := fun m => mine m && match last with
                                 | Some c => c <? WalletMessage.id m
                                 | None => true
                                 end).
  assert (Hkeep : keep new = true).
  { unfold keep. rewrite Hmine. destruct last as [c|]; [|reflexivity].
    simpl. apply negb_true_iff. apply Z.leb_gt. now apply Hcur. }
  assert (Hsel : sel new = true).
  { unfold sel. rewrite Hmine. destruct last as [c|]; [|reflexivity].
    simpl. apply Z.ltb_lt. now apply Hcur. }
  set (old := filter sel (filter keep (wallet_msgs s))).
  assert (Hold : Forall wallet_message_ok old).
  { rewrite Forall_forall in *. intros m Hm. apply Hd.
    apply filter_In in Hm. destruct Hm as [Hm _]. apply filter_In in Hm. apply Hm. }
  destruct (mapM_shape_wallet_ok old Hold) as (earlier & He & _).
  exists (fst (wallet_messages wt accounts last s')), earlier, out.
  split; [|rewrite Ocid, Ocall, Ometa, Ost, Ourl; repeat split; assumption].
  assert (Hrows : mapM shape_wallet_message
                    (filter sel (filter keep (wallet_msgs s ++ [new])))
                  = Ok (earlier ++ [JDict out])).
  { rewrite (filter_snoc_true keep _ new Hkeep), (filter_snoc_true sel _ new Hsel).
    fold old. rewrite mapM_app, He. cbn [bind mapM]. rewrite Hj. reflexivity. }
  unfold wallet_messages. rewrite (proj2 (String.eqb_neq _ _) Hwt), Ha.
  fold mine. destruct last as [c|]; cbn [fst].
  - transitivity (with_wallet_msgs (filter keep (wallet_msgs s ++ [new])) s',
                  mapM shape_wallet_message
                    (filter sel (filter keep (wallet_msgs s ++ [new]))));
      [reflexivity|now rewrite Hrows].
  - assert (Hk : filter keep (wallet_msgs s ++ [new]) = wallet_msgs s ++ [new]).
    { clear. unfold keep. induction (wallet_msgs s ++ [new]) as [|m l IH];
        [reflexivity|].
      simpl. rewrite andb_false_r. simpl. now rewrite IH. }
    rewrite Hk in Hrows.
    transitivity (s', mapM shape_wallet_message (filter sel (wallet_msgs s ++ [new])));
      [reflexivity|now rewrite Hrows].
Qed.

(** ** Outcomes *)

(** X17: [call_wallet] returns false only for an empty client token or a
    client token of no linked record, and then changes nothing; for a linked
    client it returns true or raises. *)
Theorem call_wallet_false (ct st : option string) (accounts cid call : json)
    (url : option string) (s : db) :
  (snd (call_wallet ct st accounts cid call url s) = Ok false <->
   truthy_str ct = false \/ linked_by_client (str_or_empty ct) s = None)
  /\ (snd (call_wallet ct st accounts cid call url s) = Ok false ->
      fst (call_wallet ct st accounts cid call url s) = s).
Proof.
  unfold call_wallet. destruct (truthy_str ct) eqn:Et; cbn [negb];
    [|cbn [snd fst]; split; [split; auto|reflexivity]].
  destruct (linked_by_client (str_or_empty ct) s) as [r|] eqn:Hl;
    [|cbn [snd fst]; split; [split; auto|reflexivity]].
  match goal with
  | |- (snd ?e = _ <-> _) /\ _ => assert (Hnot : snd e <> Ok false)
  end.
  { destruct (_get_meta (LinkedTokens.current_rpc r) call) as [meta|e];
      [|discriminate].
    destruct (match st with Some _ => _ | None => _ end) as [x|]; [|discriminate].
    cbn [snd]. destruct (index accounts 0) as [a|e]; cbn [bind]; [|discriminate].
    destruct (toChecksumAddress a) as [addr|e]; cbn [bind]; [|discriminate].
    destruct (dict_has "info" meta);
      destruct (send_single_notification _ _ _); cbn [bind]; discriminate. }
  split; [split|]; intros H; try (now destruct (Hnot H)).
  destruct H as [H|H]; discriminate.
Qed.

(** X18: when [link_messages] answers that the client is not linked, it
    has returned no message and changed nothing: the client token is empty
    or unknown, or its record is not linked. *)
Theorem link_messages_not_linked (u : string) (ct st : option string)
    (last : option Z) (s s' : db) (ct' st' : option string) (msgs : list json) :
  link_messages u ct st last s = (s', Ok (ct', st', msgs, false)) ->
  s' = s /\ msgs = []
  /\ (truthy_str ct = false
      \/ token_by_client (str_or_empty ct) s = None
      \/ exists r, token_by_client (str_or_empty ct) s = Some r
                   /\ LinkedTokens.linked r = false).
Proof.
  unfold link_messages. destruct (truthy_str ct) eqn:Et; cbn [negb].
  - destruct (token_by_client (str_or_empty ct) s) as [r|] eqn:Hf.
    + destruct (LinkedTokens.linked r) eqn:Hl; cbn [negb].
      * assert (Hpoll : forall (tok : string) x s1,
                  (let '(s0, r0) := get_linked_messages x last true s1 in
                   (s0, msgs0 <- r0 ;; Ok (ct, Some tok, msgs0, true)))
                  <> (s', Ok (ct', st', msgs, false))).
        { intros tok x s1. destruct (get_linked_messages x last true s1) as [s0 [o|e]];
            cbn [bind]; intros H; inversion H. }
        intros H. exfalso. revert H.
        destruct (negb (truthy_str st)).
        -- destruct (generate_init_session u r s) as [s1 tok].
           destruct (session_of tok (LinkedTokens.id r) s1); [apply Hpoll|discriminate].
        -- destruct (session_of (str_or_empty st) (LinkedTokens.id r) s);
             [apply Hpoll|].
           destruct (generate_init_session u r s) as [s2 tok].
           destruct (session_of tok (LinkedTokens.id r) s2); [apply Hpoll|discriminate].
      * intros H. inversion H; subst. split; [reflexivity|]. split; [reflexivity|].
        right; right. now exists r.
    + intros H. inversion H; subst. auto.
  - intros H. inversion H; subst. auto.
Qed.

(** X19: in a reachable database a successful [link_wallet] rewrites the
    one pairing record the code leads to and no other. *)
Theorem link_wallet_frame (t now : time) (wt code : string) (rpc acc : json)
    (s : db) (r : LinkedTokens.t) :
  reachable t s ->
  unexpired_by_code code now s = Some r ->
  Forall2 (fun a a' =>
             (a = r /\ a' = linked_record now wt rpc acc r) \/ (a <> r /\ a' = a))
          (tokens s) (tokens (fst (link_wallet now wt code rpc acc s))).
Proof.
  intros Hr Hf. apply reachable_invariant in Hr. destruct Hr as (Hwf & _ & _).
  destruct (unexpired_by_code_inv code now s r Hf) as (Hin & _).
  assert (Ht : tokens (fst (link_wallet now wt code rpc acc s))
               = tokens (update_token (linked_record now wt rpc acc r) s)).
  { unfold link_wallet. rewrite Hf. simpl.
    destruct (negb (LinkedTokens.id r =? 0)); [|reflexivity].
    now rewrite fan_out_spec. }
  rewrite Ht. now apply update_token_rows.
Qed.

(** X20: what the mailboxes of a reachable database hold: every client
    message belongs to a session of the database and is a NETWORK, an
    ACCOUNTS or a CALL_RESPONSE with its [{call_id, result}]; every wallet
    message is a CALL with a wallet token and a payload with call id, call,
    metadata and session token. *)
Theorem mailboxes_well_formed (t : time) (s : db) :
  reachable t s ->
  (forall m, In m (messages s) ->
     message_ok m
     /\ exists x, In x (sessions s) /\ LinkedSession.id x = LinkedMessage.session_id m)
  /\ (forall m, In m (wallet_msgs s) -> wallet_message_ok m).
Proof.
  intros Hr. pose proof (reachable_sound t s Hr) as [_ _ Hm _ Hw].
  apply reachable_invariant in Hr. destruct Hr as (Hwf & _ & _).
  pose proof (wf_message_data s Hwf) as Hd. rewrite Forall_forall in *.
  split; [|exact Hw]. intros m Hin. split; [now apply Hd|].
  specialize (Hm m Hin). apply in_map_iff in Hm. destruct Hm as (x & Hx & Hin').
  now exists x.
Qed.

(** X21: what a pairing record of a reachable database holds beyond the
    linking invariant: a linked record has its linking time, a code has an
    expiry, the app info is absent or the user agent, and a stored pending
    call carries a session token and its metadata. *)
Theorem records_well_formed (t : time) (s : db) (r : LinkedTokens.t) :
  reachable t s -> In r (tokens s) ->
  (LinkedTokens.linked r = true -> LinkedTokens.linked_at r <> None)
  /\ (LinkedTokens.code r <> None -> LinkedTokens.code_expires r <> None)
  /\ (LinkedTokens.app_info r = None
      \/ exists ua, LinkedTokens.app_info r = Some [("user-agent", JStr ua)])
  /\ (forall pc, LinkedTokens.pending_call r = Some pc ->
        (exists st, dict_get "session_token" pc = Some (JStr st))
        /\ exists meta, dict_get "meta" pc = Some (JDict meta)).
Proof.
  intros Hr Hin. apply reachable_sound in Hr. destruct Hr as [Hrec _ _ _ _].
  rewrite Forall_forall in Hrec. exact (Hrec r Hin).
Qed.

End LinkerService.

(** ** A run of the service *)

(** Collaborators for running the service on examples. *)
Definition sample_digest (_ : string) : string :=
  "00000000000000000000000000000000000000000000000000000000".
Definition sample_dissect (_ _ : json) : result dict := Ok [].
Definition sample_agent (_ : json) : json := JNull.
Definition sample_js_timestamp (t : time) : Z := t / 1000.
Definition sample_contains (_ _ : json) : bool := true.
Definition sample_checksum (a : json) : result string :=
  match a with JStr x => Ok x | _ => Raise TypeError end.
Definition sample_endpoint (_ : string) (_ : option string) : json := JNull.
Definition sample_send (_ : json) (_ : Notification) (_ : json) : result unit :=
  Ok tt.

Definition sample_serve : time -> request -> db -> db :=
  serve sample_digest sample_dissect sample_agent sample_agent sample_agent
    sample_agent sample_js_timestamp sample_contains sample_checksum
    sample_endpoint sample_send.

Definition sample_reachable : time -> db -> Prop :=
  reachable sample_digest sample_dissect sample_agent sample_agent sample_agent
    sample_agent sample_js_timestamp sample_contains sample_checksum
    sample_endpoint sample_send.

Definition sample_link_wallet :=
  link_wallet sample_digest sample_agent sample_agent sample_agent sample_agent
    sample_js_timestamp.

Definition sample_call_wallet :=
  call_wallet sample_dissect sample_checksum sample_endpoint sample_send.

Example format_d_examples :
  (format_d 12, format_d 0, format_d (-5)) = ("12", "0", "-5").
Proof. reflexivity. Qed.

(** The two bytes of a single accented letter. *)
Definition e_acute : string := String "195"%char (String "169"%char EmptyString).

Example len_examples :
  (len (JStr e_acute), len (JStr ("a" ++ e_acute ++ "b")),
   index (JStr ("a" ++ e_acute ++ "b")) 1, index (JStr ("a" ++ e_acute ++ "b")) 2)
  = (Ok 1, Ok 3, Ok (JStr e_acute), Ok (JStr "b"))
  /\ _get_meta sample_dissect JNull (JStr e_acute) = Ok [].
Proof. split; reflexivity. Qed.

Example _get_meta_examples :
  _get_meta sample_dissect JNull (JStr "m") = Ok []
  /\ _get_meta sample_dissect JNull (JList [JStr "m"; JStr "x"]) = Raise AttributeError.
Proof. split; reflexivity. Qed.

(** A random source whose draws are all 0: every candidate is "aaaaaaaaa". *)
Definition rnd0 (_ _ : nat) : nat := 0%nat.

Definition sample_call : dict :=
  [("call_id", JStr "c1"); ("call", JList [JStr "signMessage"])].

(** A new client asks for a code with a pending call, ... *)
Definition s1 : db :=
  sample_serve 0
    (GenerateCode "client-1" "session-1" rnd0 None None (Some "https://dapp")
       (Some sample_call) (Some "Mozilla") false)
    empty_db.

(** ... the wallet links with that code ten microseconds later, ... *)
Definition s2 : db :=
  sample_serve 10
    (LinkWallet "wallet-1" "aaaaaaaaa" (JStr "rpc") (JList [JStr "0xabc"])) s1.

(** ... and the client unlinks. *)
Definition s3 : db := sample_serve 20 (Unlink "client-1") s2.

Definition rpc1 : json := JStr "rpc".
Definition acc1 : json := JList [JStr "0xabc"].

(** The session of the run, and its pairing record before the link, after
    it and after the unlink. *)
Definition x1 : LinkedSession.t := LinkedSession.mk 1 "session-1" 1.

Definition r1 : LinkedTokens.t :=
  LinkedTokens.mk 1 "client-1" (Some "aaaaaaaaa") (Some 3600000000) false None
    JNull JNull
    (Some (sample_call ++ [("session_token", JStr "session-1"); ("meta", JDict [])]))
    (Some [("user-agent", JStr "Mozilla")]) None (Some "https://dapp").

Definition r2 : LinkedTokens.t :=
  LinkedTokens.mk 1 "client-1" None (Some 3600000000) true (Some "wallet-1")
    rpc1 acc1 None (Some [("user-agent", JStr "Mozilla")]) (Some 10)
    (Some "https://dapp").

Definition r3 : LinkedTokens.t := LinkedTokens.set_linked false r2.

Definition sample_link_info :=
  link_info sample_digest sample_agent sample_agent sample_agent sample_agent
    sample_js_timestamp.

Definition sample_get_links :=
  get_links sample_digest sample_agent sample_agent sample_agent sample_agent
    sample_js_timestamp.

Definition sample_usable_info :=
  _to_usable_info sample_agent sample_agent sample_agent sample_agent.

(** From the linked state: the client submits a call, ... *)
Definition s4 : db :=
  sample_serve 30
    (CallWallet (Some "client-1") (Some "session-1") (JList [JStr "0xabc"])
       (JStr "c1") (JList [JStr "signMessage"]) None)
    s2.

(** ... or the wallet revokes the link. *)
Definition s5 : db :=
  sample_serve 30 (UnlinkWallet "wallet-1" "0000000000000000") s2.

(** What [get_links] shows of the link of the run. *)
Definition link1 : dict :=
  [("linked", JBool true);
   ("app_info",
    JDict [("platform", JNull); ("browser", JNull); ("language", JNull);
           ("version", JNull)]);
   ("link_id", JStr "0000000000000000");
   ("linked_at", JNum 0)].

(** The first poll of the client after the link: the NETWORK and the
    ACCOUNTS message of its session, in that order. *)
Example poll_after_link :
  link_messages "session-2" (Some "client-1") (Some "session-1") None s2
  = (s2, Ok (Some "client-1", Some "session-1",
             [JDict [("type", JStr "NETWORK"); ("id", JNum 1); ("network_rpc", rpc1)];
              JDict [("type", JStr "ACCOUNTS"); ("id", JNum 2); ("accounts", acc1)]],
             true)).
Proof. vm_compute. reflexivity. Qed.

Lemma s1_reachable : sample_reachable 0 s1.
Proof.
  apply (reachable_serve _ _ _ _ _ _ _ _ _ _ _ 0 0 _ empty_db);
    [apply reachable_empty|lia].
Qed.

Lemma s2_reachable : sample_reachable 10 s2.
Proof.
  apply (reachable_serve _ _ _ _ _ _ _ _ _ _ _ 0 10 _ s1);
    [apply s1_reachable|lia].
Qed.

Lemma s3_reachable : sample_reachable 20 s3.
Proof.
  apply (reachable_serve _ _ _ _ _ _ _ _ _ _ _ 10 20 _ s2);
    [apply s2_reachable|lia].
Qed.

Lemma link_wallet_links_witness :
  unexpired_by_code "aaaaaaaaa" 10 s1 = Some r1
  /\ exists s' r' new,
       sample_link_wallet 10 "wallet-1" "aaaaaaaaa" rpc1 acc1 s1
       = (s', Ok (LinkedTokens.current_return_url r1, true,
                  LinkedTokens.pending_call r1,
                  _to_usable_info sample_agent sample_agent sample_agent
                    sample_agent (LinkedTokens.app_info r1),
                  _hash_id sample_digest (LinkedTokens.id r1)
                    (LinkedTokens.client_token r1),
                  sample_js_timestamp 10))
       /\ token_by_id (LinkedTokens.id r1) s' = Some r'
       /\ LinkedTokens.code r' = None
       /\ LinkedTokens.linked r' = true
       /\ LinkedTokens.wallet_token r' = Some "wallet-1"
       /\ LinkedTokens.current_rpc r' = rpc1
       /\ LinkedTokens.current_accounts r' = acc1
       /\ LinkedTokens.linked_at r' = Some 10
       /\ LinkedTokens.pending_call r' = None
       /\ LinkedTokens.client_token r' = LinkedTokens.client_token r1
       /\ wallet_msgs s' = wallet_msgs s1
       /\ messages s' = messages s1 ++ new
       /\ Forall (fun m =>
                    (LinkedMessage.type m = NETWORK /\ LinkedMessage.data m = rpc1)
                    \/ (LinkedMessage.type m = ACCOUNTS /\ LinkedMessage.data m = acc1))
                 new.
Proof.
  split; [reflexivity|].
  apply (link_wallet_links sample_digest sample_agent sample_agent sample_agent
           sample_agent sample_js_timestamp 10 "wallet-1" "aaaaaaaaa" rpc1 acc1 s1 r1).
  reflexivity.
Defined.

Lemma link_wallet_unknown_code_witness :
  (forall r, In r (tokens s1) -> LinkedTokens.code r = Some "aaaaaaaaa" ->
             forall e, LinkedTokens.code_expires r = Some e -> e <= 3600000000)
  /\ sample_link_wallet 3600000000 "wallet-1" "aaaaaaaaa" rpc1 acc1 s1
     = (s1, Ok (Some EmptyString, false, None, None, EmptyString, 0)).
Proof.
  assert (H : forall r, In r (tokens s1) ->
                LinkedTokens.code r = Some "aaaaaaaaa" ->
                forall e, LinkedTokens.code_expires r = Some e -> e <= 3600000000).
  { intros r Hin _ e He. vm_compute in Hin. destruct Hin as [<-|[]].
    simpl in He. inversion He. lia. }
  split; [exact H|].
  apply (link_wallet_unknown_code sample_digest sample_agent sample_agent
           sample_agent sample_agent sample_js_timestamp 3600000000 "wallet-1"
           "aaaaaaaaa" rpc1 acc1 s1 H).
Defined.

Lemma link_wallet_fan_out_witness :
  sample_reachable 0 s1
  /\ unexpired_by_code "aaaaaaaaa" 10 s1 = Some r1
  /\ exists new,
       messages (fst (sample_link_wallet 10 "wallet-1" "aaaaaaaaa" rpc1 acc1 s1))
       = messages s1 ++ new
       /\ sessions (fst (sample_link_wallet 10 "wallet-1" "aaaaaaaaa" rpc1 acc1 s1))
          = sessions s1
       /\ (forall x, In x (sessions s1) ->
             LinkedSession.linked_id x = LinkedTokens.id r1 ->
             exists k, next_message_id s1 <= k
               /\ filter (owned_by x) new
                  = [LinkedMessage.mk k (LinkedSession.id x) NETWORK rpc1;
                     LinkedMessage.mk (k + 1) (LinkedSession.id x) ACCOUNTS acc1])
       /\ (forall x, In x (sessions s1) ->
             LinkedSession.linked_id x <> LinkedTokens.id r1 ->
             filter (owned_by x) new = [])
       /\ (forall m, In m new -> ~ In m (messages s1)).
Proof.
  split; [apply s1_reachable|]. split; [reflexivity|].
  apply (link_wallet_fan_out sample_digest sample_dissect sample_agent sample_agent
           sample_agent sample_agent sample_js_timestamp sample_contains
           sample_checksum sample_endpoint sample_send 0 10 "wallet-1" "aaaaaaaaa"
           rpc1 acc1 s1 r1 s1_reachable).
  reflexivity.
Defined.

Lemma get_linked_messages_purge_witness :
  sample_reachable 10 s2
  /\ exists s' rows out,
       get_linked_messages x1 (Some 1) true s2 = (s', Ok out)
       /\ tokens s' = tokens s2 /\ sessions s' = sessions s2
       /\ wallet_msgs s' = wallet_msgs s2
       /\ (forall m, In m (messages s') <->
                     In m (messages s2)
                     /\ ~ (LinkedMessage.session_id m = LinkedSession.id x1
                           /\ LinkedMessage.id m <= 1))
       /\ filter (fun m => negb (owned_by x1 m)) (messages s')
          = filter (fun m => negb (owned_by x1 m)) (messages s2)
       /\ (forall m, In m rows <->
                     In m (messages s')
                     /\ LinkedMessage.session_id m = LinkedSession.id x1
                     /\ 1 < LinkedMessage.id m)
       /\ StronglySorted Z.lt (map LinkedMessage.id rows)
       /\ Forall2 reshaped rows out.
Proof.
  split; [apply s2_reachable|].
  apply (get_linked_messages_purge sample_digest sample_dissect sample_agent
           sample_agent sample_agent sample_agent sample_js_timestamp
           sample_contains sample_checksum sample_endpoint sample_send 10 s2 x1 1
           s2_reachable).
Defined.

Lemma wallet_called_ignores_unlink_witness :
  "client-1" <> EmptyString
  /\ token_by_client "client-1" s2 = Some r2 /\ LinkedTokens.linked r2 = true
  /\ LinkedTokens.wallet_token r2 = Some "wallet-1"
  /\ session_by_token "session-1" s2 = Some x1
  /\ LinkedSession.linked_id x1 = LinkedTokens.id r2
  /\ exists s' r',
       unlink "client-1" s2 = (s', Ok true)
       /\ session_by_token "session-1" s' = Some x1
       /\ token_by_id (LinkedSession.linked_id x1) s' = Some r'
       /\ LinkedTokens.linked r' = false
       /\ LinkedTokens.wallet_token r' = Some "wallet-1"
       /\ link_messages "session-2" (Some "client-1") (Some "session-1") None s'
          = (s', Ok (Some "client-1", Some "session-1", [], false))
       /\ ~ raises (snd (wallet_called "wallet-1" (JStr "c2") "session-1"
                           (JStr "0xsig") s'))
       /\ wallet_called "wallet-1" (JStr "c2") "session-1" (JStr "0xsig") s'
          = (insert_message (LinkedSession.id x1) CALL_RESPONSE
               (JDict [("call_id", JStr "c2"); ("result", JStr "0xsig")]) s',
             Ok true)
       /\ messages (fst (wallet_called "wallet-1" (JStr "c2") "session-1"
                           (JStr "0xsig") s'))
          = messages s2
            ++ [LinkedMessage.mk (next_message_id s2) (LinkedSession.id x1)
                  CALL_RESPONSE
                  (JDict [("call_id", JStr "c2"); ("result", JStr "0xsig")])].
Proof.
  assert (Hne : "client-1" <> EmptyString) by discriminate.
  split; [exact Hne|]. split; [vm_compute; reflexivity|].
  split; [reflexivity|]. split; [reflexivity|].
  split; [vm_compute; reflexivity|]. split; [reflexivity|].
  apply (wallet_called_ignores_unlink "client-1" "wallet-1" "session-1"
           "session-2" (JStr "c2") (JStr "0xsig") None s2 r2 x1 Hne);
    [vm_compute; reflexivity|reflexivity|reflexivity|vm_compute; reflexivity
    |reflexivity].
Defined.

Lemma unknown_client_token_witness :
  "ghost" <> EmptyString
  /\ token_by_client "ghost" s1 = None
  /\ generate_code sample_dissect 30 "client-2" "session-2" rnd0 (Some "ghost")
       None None None None false s1
     = (s1, Raise AttributeError)
  /\ link_messages "session-2" (Some "ghost") None None s1
     = (s1, Ok (Some EmptyString, None, [], false))
  /\ sample_call_wallet (Some "ghost") None acc1 (JStr "c2") JNull None s1
     = (s1, Ok false)
  /\ unlink "ghost" s1 = (s1, Ok true).
Proof.
  assert (Hne : "ghost" <> EmptyString) by discriminate.
  split; [exact Hne|]. split; [reflexivity|].
  apply (unknown_client_token sample_dissect sample_checksum sample_endpoint
           sample_send 30 "client-2" "session-2" rnd0 "ghost" None None None None
           false "session-2" None acc1 (JStr "c2") JNull s1 Hne).
  reflexivity.
Defined.

Lemma pairing_record_invariant_witness :
  sample_reachable 10 s2 /\ In r2 (tokens s2)
  /\ (LinkedTokens.code r2 <> None -> LinkedTokens.linked r2 = false)
  /\ (LinkedTokens.linked r2 = true ->
      LinkedTokens.wallet_token r2 <> None /\ LinkedTokens.code r2 = None)
  /\ (LinkedTokens.linked r2 = true -> LinkedTokens.pending_call r2 = None).
Proof.
  assert (Hin : In r2 (tokens s2)) by (vm_compute; left; reflexivity).
  split; [apply s2_reachable|]. split; [exact Hin|].
  apply (pairing_record_invariant sample_digest sample_dissect sample_agent
           sample_agent sample_agent sample_agent sample_js_timestamp
           sample_contains sample_checksum sample_endpoint sample_send 10 s2 r2
           s2_reachable Hin).
Defined.

Lemma code_issuance_witness :
  generate_code sample_dissect 0 "client-1" "session-1" rnd0 None None
    (Some "https://dapp") (Some sample_call) (Some "Mozilla") false empty_db
  = (s1, Ok ("client-1", "session-1", Some "aaaaaaaaa", false))
  /\ exists c r,
       Some "aaaaaaaaa" = Some c /\ In r (tokens s1)
       /\ LinkedTokens.client_token r = "client-1"
       /\ LinkedTokens.code r = Some c
       /\ LinkedTokens.code_expires r = Some (0 + 60 * 60 * 1000000).
Proof.
  assert (H : generate_code sample_dissect 0 "client-1" "session-1" rnd0 None None
                (Some "https://dapp") (Some sample_call) (Some "Mozilla") false
                empty_db
              = (s1, Ok ("client-1", "session-1", Some "aaaaaaaaa", false)))
    by (vm_compute; reflexivity).
  split; [exact H|].
  apply (proj2 (proj2 (proj2 (code_issuance sample_digest sample_dissect
           sample_agent sample_agent sample_agent sample_agent
           sample_js_timestamp sample_contains sample_checksum sample_endpoint
           sample_send)) _ _ _ _ _ _ _ _ _ _ _ _ _ _ _ H)).
Defined.

Lemma call_wallet_unknown_session_witness :
  "client-1" <> EmptyString
  /\ linked_by_client "client-1" s2 = Some r2
  /\ (forall tok, Some "session-9" = Some tok ->
                  session_of tok (LinkedTokens.id r2) s2 = None)
  /\ raises (snd (sample_call_wallet (Some "client-1") (Some "session-9") acc1
                    (JStr "c2") (JList [JStr "signMessage"]) None s2))
  /\ fst (sample_call_wallet (Some "client-1") (Some "session-9") acc1
            (JStr "c2") (JList [JStr "signMessage"]) None s2) = s2
  /\ (forall meta,
        _get_meta sample_dissect (LinkedTokens.current_rpc r2)
          (JList [JStr "signMessage"]) = Ok meta ->
        sample_call_wallet (Some "client-1") (Some "session-9") acc1
          (JStr "c2") (JList [JStr "signMessage"]) None s2
        = (s2, Raise AttributeError)).
Proof.
  assert (Hne : "client-1" <> EmptyString) by discriminate.
  assert (Hl : linked_by_client "client-1" s2 = Some r2) by (vm_compute; reflexivity).
  assert (Hs : forall tok, Some "session-9" = Some tok ->
                           session_of tok (LinkedTokens.id r2) s2 = None)
    by (intros tok E; inversion E; subst; vm_compute; reflexivity).
  split; [exact Hne|]. split; [exact Hl|]. split; [exact Hs|].
  apply (call_wallet_unknown_session sample_dissect sample_checksum
           sample_endpoint sample_send "client-1" (Some "session-9") acc1
           (JStr "c2") (JList [JStr "signMessage"]) None s2 r2 Hne Hl Hs).
Defined.

(** ** The further properties on the run *)

Lemma s4_reachable : sample_reachable 30 s4.
Proof.
  apply (reachable_serve _ _ _ _ _ _ _ _ _ _ _ 10 30 _ s2);
    [apply s2_reachable|lia].
Qed.

Lemma link_info_previews_witness :
  sample_reachable 0 s1
  /\ (sample_link_info "aaaaaaaaa" 10 s1 = Ok no_preview
      <-> unexpired_by_code "aaaaaaaaa" 10 s1 = None)
  /\ (forall r, unexpired_by_code "aaaaaaaaa" 10 s1 = Some r ->
        exists e,
          LinkedTokens.code_expires r = Some e /\ 10 < e
          /\ sample_link_info "aaaaaaaaa" 10 s1
             = Ok (preview (LinkedTokens.current_return_url r)
                     (sample_usable_info (LinkedTokens.app_info r))
                     (_hash_id sample_digest (LinkedTokens.id r)
                        (LinkedTokens.client_token r))
                     (sample_js_timestamp e))
          /\ forall wt rpc acc,
               snd (sample_link_wallet 10 wt "aaaaaaaaa" rpc acc s1)
               = Ok (LinkedTokens.current_return_url r, true,
                     LinkedTokens.pending_call r,
                     sample_usable_info (LinkedTokens.app_info r),
                     _hash_id sample_digest (LinkedTokens.id r)
                       (LinkedTokens.client_token r),
                     sample_js_timestamp 10)).
Proof.
  split; [apply s1_reachable|].
  apply (link_info_previews sample_digest sample_dissect sample_agent sample_agent
           sample_agent sample_agent sample_js_timestamp sample_contains
           sample_checksum sample_endpoint sample_send 0 10 "aaaaaaaaa" s1
           s1_reachable).
Defined.

Lemma code_single_use_witness :
  sample_reachable 0 s1 /\ 0 <= 10 /\ 10 <= 20
  /\ unexpired_by_code "aaaaaaaaa" 10 s1 = Some r1
  /\ unexpired_by_code "aaaaaaaaa" 20
       (fst (sample_link_wallet 10 "wallet-1" "aaaaaaaaa" rpc1 acc1 s1)) = None
  /\ sample_link_wallet 20 "wallet-2" "aaaaaaaaa" rpc1 acc1
       (fst (sample_link_wallet 10 "wallet-1" "aaaaaaaaa" rpc1 acc1 s1))
     = (fst (sample_link_wallet 10 "wallet-1" "aaaaaaaaa" rpc1 acc1 s1),
        Ok (Some EmptyString, false, None, None, EmptyString, 0))
  /\ sample_link_info "aaaaaaaaa" 20
       (fst (sample_link_wallet 10 "wallet-1" "aaaaaaaaa" rpc1 acc1 s1))
     = Ok no_preview.
Proof.
  assert (H1 : 0 <= 10) by lia.
  assert (H2 : 10 <= 20) by lia.
  split; [apply s1_reachable|]. split; [exact H1|]. split; [exact H2|].
  split; [reflexivity|].
  apply (code_single_use sample_digest sample_dissect sample_agent sample_agent
           sample_agent sample_agent sample_js_timestamp sample_contains
           sample_checksum sample_endpoint sample_send 0 10 20 "wallet-1"
           "wallet-2" "aaaaaaaaa" rpc1 acc1 rpc1 acc1 s1 r1 s1_reachable H1 H2).
  reflexivity.
Defined.

Lemma unlink_idempotent_witness :
  sample_reachable 10 s2
  /\ snd (unlink "client-1" s2) = Ok true
  /\ unlink "client-1" (fst (unlink "client-1" s2))
     = (fst (unlink "client-1" s2), Ok true)
  /\ sessions (fst (unlink "client-1" s2)) = sessions s2
  /\ messages (fst (unlink "client-1" s2)) = messages s2
  /\ wallet_msgs (fst (unlink "client-1" s2)) = wallet_msgs s2
  /\ Forall2 (fun r r' => r' = r \/ r' = LinkedTokens.set_linked false r)
             (tokens s2) (tokens (fst (unlink "client-1" s2))).
Proof.
  split; [apply s2_reachable|].
  apply (unlink_idempotent sample_digest sample_dissect sample_agent sample_agent
           sample_agent sample_agent sample_js_timestamp sample_contains
           sample_checksum sample_endpoint sample_send 10 "client-1" s2
           s2_reachable).
Defined.

Lemma unlink_wallet_listed_witness :
  get_links sample_digest sample_agent sample_agent sample_agent sample_agent
    sample_js_timestamp "wallet-1" s2 = Ok [link1]
  /\ (snd (unlink_wallet sample_digest "wallet-1" "0000000000000000" s2) = Ok true
      <-> exists d, In d [link1]
                    /\ dict_get "link_id" d = Some (JStr "0000000000000000"))
  /\ (~ (exists d, In d [link1]
                   /\ dict_get "link_id" d = Some (JStr "0000000000000000")) ->
      unlink_wallet sample_digest "wallet-1" "0000000000000000" s2
      = (s2, Ok false)).
Proof.
  assert (H : get_links sample_digest sample_agent sample_agent sample_agent
                sample_agent sample_js_timestamp "wallet-1" s2 = Ok [link1])
    by (vm_compute; reflexivity).
  split; [exact H|].
  apply (unlink_wallet_listed sample_digest sample_agent sample_agent sample_agent
           sample_agent sample_js_timestamp "wallet-1" "0000000000000000" s2
           [link1] H).
Defined.

Lemma unlink_wallet_revokes_witness :
  unlink_wallet sample_digest "wallet-1" "0000000000000000" s2 = (s5, Ok true)
  /\ exists r,
       In r (tokens s2) /\ LinkedTokens.wallet_token r = Some "wallet-1"
       /\ LinkedTokens.linked r = true
       /\ _hash_id sample_digest (LinkedTokens.id r) (LinkedTokens.client_token r)
          = "0000000000000000"
       /\ token_by_id (LinkedTokens.id r) s5
          = Some (LinkedTokens.set_wallet_token (Some EmptyString)
                    (LinkedTokens.set_linked false r))
       /\ sessions s5 = sessions s2 /\ messages s5 = messages s2
       /\ wallet_msgs s5 = wallet_msgs s2
       /\ ("wallet-1" <> EmptyString ->
           forall cid st res x,
             session_by_token st s5 = Some x ->
             LinkedSession.linked_id x = LinkedTokens.id r ->
             wallet_called "wallet-1" cid st res s5
             = (s5, Raise (Exception_ "Wallet linked to a different session"))).
Proof.
  assert (H : unlink_wallet sample_digest "wallet-1" "0000000000000000" s2
              = (s5, Ok true)) by (vm_compute; reflexivity).
  split; [exact H|].
  apply (unlink_wallet_revokes sample_digest "wallet-1" "0000000000000000" s2 s5 H).
Defined.

Lemma get_links_lists_witness :
  sample_reachable 10 s2
  /\ exists links,
       sample_get_links "wallet-1" s2 = Ok links
       /\ (forall r, In r (links_of "wallet-1" s2) <->
                     In r (tokens s2) /\ LinkedTokens.wallet_token r = Some "wallet-1"
                     /\ LinkedTokens.linked r = true)
       /\ Forall2 (fun r d =>
                     exists linked_at,
                       LinkedTokens.linked_at r = Some linked_at
                       /\ d = [("linked", JBool true);
                               ("app_info",
                                match sample_usable_info (LinkedTokens.app_info r) with
                                | Some i => JDict i
                                | None => JNull
                                end);
                               ("link_id",
                                JStr (_hash_id sample_digest (LinkedTokens.id r)
                                        (LinkedTokens.client_token r)));
                               ("linked_at", JNum (sample_js_timestamp linked_at))])
                  (links_of "wallet-1" s2) links.
Proof.
  split; [apply s2_reachable|].
  apply (get_links_lists sample_digest sample_dissect sample_agent sample_agent
           sample_agent sample_agent sample_js_timestamp sample_contains
           sample_checksum sample_endpoint sample_send 10 "wallet-1" s2
           s2_reachable).
Defined.

Lemma linked_is_listed_witness :
  sample_reachable 0 s1 /\ 0 <= 10
  /\ unexpired_by_code "aaaaaaaaa" 10 s1 = Some r1
  /\ exists links d,
       sample_get_links "wallet-1"
         (fst (sample_link_wallet 10 "wallet-1" "aaaaaaaaa" rpc1 acc1 s1)) = Ok links
       /\ In d links
       /\ dict_get "linked" d = Some (JBool true)
       /\ dict_get "link_id" d
          = Some (JStr (_hash_id sample_digest (LinkedTokens.id r1)
                          (LinkedTokens.client_token r1)))
       /\ dict_get "linked_at" d = Some (JNum (sample_js_timestamp 10)).
Proof.
  assert (H1 : 0 <= 10) by lia.
  split; [apply s1_reachable|]. split; [exact H1|]. split; [reflexivity|].
  apply (linked_is_listed sample_digest sample_dissect sample_agent sample_agent
           sample_agent sample_agent sample_js_timestamp sample_contains
           sample_checksum sample_endpoint sample_send 0 10 "wallet-1" "aaaaaaaaa"
           rpc1 acc1 s1 r1 s1_reachable H1).
  reflexivity.
Defined.

Lemma wallet_called_outcomes_witness :
  sample_reachable 10 s2
  /\ (forall x, In x (sessions s2) ->
        exists r, token_by_id (LinkedSession.linked_id x) s2 = Some r)
  /\ (wallet_called "wallet-9" (JStr "c2") "session-1" (JStr "0xsig") s2
      = (s2, Raise (Exception_ "Session does not exist"))
      \/ wallet_called "wallet-9" (JStr "c2") "session-1" (JStr "0xsig") s2
         = (s2, Raise (Exception_ "Wallet linked to a different session"))
      \/ exists x,
           session_by_token "session-1" s2 = Some x
           /\ wallet_called "wallet-9" (JStr "c2") "session-1" (JStr "0xsig") s2
              = (insert_message (LinkedSession.id x) CALL_RESPONSE
                   (JDict [("call_id", JStr "c2"); ("result", JStr "0xsig")]) s2,
                 Ok true)).
Proof.
  split; [apply s2_reachable|].
  apply (wallet_called_outcomes sample_digest sample_dissect sample_agent
           sample_agent sample_agent sample_agent sample_js_timestamp
           sample_contains sample_checksum sample_endpoint sample_send 10
           "wallet-9" (JStr "c2") "session-1" (JStr "0xsig") s2 s2_reachable).
Defined.

Lemma deliver_then_poll_witness :
  sample_reachable 10 s2
  /\ "client-1" <> EmptyString /\ "session-1" <> EmptyString
  /\ token_by_client "client-1" s2 = Some r2 /\ LinkedTokens.linked r2 = true
  /\ LinkedTokens.wallet_token r2 = Some "wallet-1"
  /\ session_by_token "session-1" s2 = Some x1
  /\ LinkedSession.linked_id x1 = LinkedTokens.id r2
  /\ (forall c, Some 2 = Some c -> c < next_message_id s2)
  /\ exists s' s'' earlier,
       wallet_called "wallet-1" (JStr "c2") "session-1" (JStr "0xsig") s2
       = (s', Ok true)
       /\ link_messages "session-2" (Some "client-1") (Some "session-1") (Some 2) s'
          = (s'', Ok (Some "client-1", Some "session-1",
                      earlier
                      ++ [JDict [("type", JStr "CALL_RESPONSE");
                                 ("id", JNum (next_message_id s2));
                                 ("result", JStr "0xsig");
                                 ("call_id", JStr "c2")]],
                      true)).
Proof.
  assert (Hc : "client-1" <> EmptyString) by discriminate.
  assert (Hs : "session-1" <> EmptyString) by discriminate.
  assert (Hl : forall c, Some 2 = Some c -> c < next_message_id s2)
    by (intros c E; inversion E; subst; vm_compute; reflexivity).
  split; [apply s2_reachable|]. split; [exact Hc|]. split; [exact Hs|].
  split; [vm_compute; reflexivity|]. split; [reflexivity|].
  split; [reflexivity|]. split; [vm_compute; reflexivity|].
  split; [reflexivity|]. split; [exact Hl|].
  apply (deliver_then_poll sample_digest sample_dissect sample_agent sample_agent
           sample_agent sample_agent sample_js_timestamp sample_contains
           sample_checksum sample_endpoint sample_send 10 "wallet-1" (JStr "c2")
           (JStr "0xsig") "session-2" "client-1" "session-1" (Some 2) s2 r2 x1
           s2_reachable Hc Hs);
    [vm_compute; reflexivity|reflexivity|reflexivity|vm_compute; reflexivity
    |reflexivity|exact Hl].
Defined.

Lemma link_messages_total_witness :
  sample_reachable 10 s2
  /\ exists s' ct' st' msgs linked_,
       link_messages "session-2" (Some "client-1") (Some "session-9") None s2
       = (s', Ok (ct', st', msgs, linked_)).
Proof.
  split; [apply s2_reachable|].
  apply (link_messages_total sample_digest sample_dissect sample_agent sample_agent
           sample_agent sample_agent sample_js_timestamp sample_contains
           sample_checksum sample_endpoint sample_send 10 "session-2"
           (Some "client-1") (Some "session-9") None s2 s2_reachable).
Defined.

Lemma link_messages_new_session_witness :
  sample_reachable 10 s2
  /\ "client-1" <> EmptyString /\ token_by_client "client-1" s2 = Some r2
  /\ LinkedTokens.linked r2 = true
  /\ (truthy_str (Some "session-9") = false
      \/ session_of (str_or_empty (Some "session-9")) (LinkedTokens.id r2) s2 = None)
  /\ session_by_token "session-2" s2 = None
  /\ exists s',
       link_messages "session-2" (Some "client-1") (Some "session-9") None s2
       = (s', Ok (Some "client-1", Some "session-2",
                  [JDict [("type", JStr "NETWORK"); ("id", JNum (next_message_id s2));
                          ("network_rpc", LinkedTokens.current_rpc r2)];
                   JDict [("type", JStr "ACCOUNTS");
                          ("id", JNum (next_message_id s2 + 1));
                          ("accounts", LinkedTokens.current_accounts r2)]],
                  true))
       /\ tokens s' = tokens s2
       /\ sessions s'
          = sessions s2
            ++ [LinkedSession.mk (next_session_id s2) "session-2" (LinkedTokens.id r2)].
Proof.
  assert (Hc : "client-1" <> EmptyString) by discriminate.
  assert (Hs : truthy_str (Some "session-9") = false
               \/ session_of (str_or_empty (Some "session-9"))
                    (LinkedTokens.id r2) s2 = None)
    by (right; vm_compute; reflexivity).
  split; [apply s2_reachable|]. split; [exact Hc|].
  split; [vm_compute; reflexivity|]. split; [reflexivity|].
  split; [exact Hs|]. split; [vm_compute; reflexivity|].
  apply (link_messages_new_session sample_digest sample_dissect sample_agent
           sample_agent sample_agent sample_agent sample_js_timestamp
           sample_contains sample_checksum sample_endpoint sample_send 10
           "session-2" "client-1" (Some "session-9") s2 r2 s2_reachable Hc);
    [vm_compute; reflexivity|reflexivity|exact Hs|vm_compute; reflexivity].
Defined.

Lemma generate_code_reissues_witness :
  "client-1" <> EmptyString /\ token_by_client "client-1" s2 = Some r2
  /\ (true = true \/ LinkedTokens.linked r2 = false)
  /\ _generate_code rnd0 30 s2 = Ok "aaaaaaaaa"
  /\ exists r',
       token_by_id (LinkedTokens.id r2)
         (fst (generate_code sample_dissect 30 "client-2" "session-2" rnd0
                 (Some "client-1") (Some "session-1") (Some "https://dapp2") None
                 None true s2)) = Some r'
       /\ LinkedTokens.linked r' = false
       /\ LinkedTokens.code r' = Some "aaaaaaaaa"
       /\ LinkedTokens.code_expires r' = Some (30 + 60 * 60 * 1000000)
       /\ LinkedTokens.current_return_url r' = Some "https://dapp2"
       /\ LinkedTokens.client_token r' = LinkedTokens.client_token r2
       /\ LinkedTokens.wallet_token r'
          = (if true then None else LinkedTokens.wallet_token r2)
       /\ (true = true ->
           forall wt cid stok res x,
             session_by_token stok
               (fst (generate_code sample_dissect 30 "client-2" "session-2" rnd0
                       (Some "client-1") (Some "session-1") (Some "https://dapp2")
                       None None true s2)) = Some x ->
             LinkedSession.linked_id x = LinkedTokens.id r2 ->
             wallet_called wt cid stok res
               (fst (generate_code sample_dissect 30 "client-2" "session-2" rnd0
                       (Some "client-1") (Some "session-1") (Some "https://dapp2")
                       None None true s2))
             = (fst (generate_code sample_dissect 30 "client-2" "session-2" rnd0
                       (Some "client-1") (Some "session-1") (Some "https://dapp2")
                       None None true s2),
                Raise (Exception_ "Wallet linked to a different session"))).
Proof.
  assert (Hc : "client-1" <> EmptyString) by discriminate.
  assert (Hf : true = true \/ LinkedTokens.linked r2 = false)
    by (left; reflexivity).
  split; [exact Hc|]. split; [vm_compute; reflexivity|]. split; [exact Hf|].
  split; [vm_compute; reflexivity|].
  apply (generate_code_reissues sample_dissect 30 "client-2" "session-2" rnd0
           "client-1" (Some "session-1") (Some "https://dapp2") None None true s2
           r2 "aaaaaaaaa" Hc);
    [vm_compute; reflexivity|exact Hf|vm_compute; reflexivity].
Defined.

Lemma generate_code_when_linked_witness :
  sample_reachable 10 s2
  /\ "client-1" <> EmptyString /\ token_by_client "client-1" s2 = Some r2
  /\ LinkedTokens.linked r2 = true
  /\ exists s' stok,
       generate_code sample_dissect 30 "client-2" "session-2" rnd0
         (Some "client-1") (Some "session-1") None (Some sample_call) None false s2
       = (s', Ok ("client-1", stok, Some EmptyString, true))
       /\ tokens s' = tokens s2 /\ wallet_msgs s' = wallet_msgs s2
       /\ (truthy_str (Some "session-1") = true ->
           session_of (str_or_empty (Some "session-1")) (LinkedTokens.id r2) s2
           <> None ->
           s' = s2 /\ stok = str_or_empty (Some "session-1"))
       /\ (truthy_str (Some "session-1") = false
           \/ session_of (str_or_empty (Some "session-1")) (LinkedTokens.id r2) s2
              = None ->
           stok = "session-2"
           /\ sessions s'
              = sessions s2
                ++ [LinkedSession.mk (next_session_id s2) "session-2"
                      (LinkedTokens.id r2)]
           /\ messages s'
              = messages s2
                ++ [LinkedMessage.mk (next_message_id s2) (next_session_id s2)
                      NETWORK (LinkedTokens.current_rpc r2);
                    LinkedMessage.mk (next_message_id s2 + 1) (next_session_id s2)
                      ACCOUNTS (LinkedTokens.current_accounts r2)]).
Proof.
  assert (Hc : "client-1" <> EmptyString) by discriminate.
  split; [apply s2_reachable|]. split; [exact Hc|].
  split; [vm_compute; reflexivity|]. split; [reflexivity|].
  apply (generate_code_when_linked sample_digest sample_dissect sample_agent
           sample_agent sample_agent sample_agent sample_js_timestamp
           sample_contains sample_checksum sample_endpoint sample_send 10 30
           "client-2" "session-2" rnd0 "client-1" (Some "session-1") None
           (Some sample_call) None s2 r2 s2_reachable Hc);
    [vm_compute; reflexivity|reflexivity].
Defined.

Lemma pending_call_replayed_witness :
  (truthy_str None = false
   \/ (truthy_str None = true
       /\ exists r0, token_by_client (str_or_empty None) empty_db = Some r0
                     /\ (false = true \/ LinkedTokens.linked r0 = false)))
  /\ _generate_code rnd0 0 empty_db = Ok "aaaaaaaaa"
  /\ sample_call <> []
  /\ _get_meta sample_dissect JNull (dict_get_json "call" sample_call) = Ok []
  /\ 0 <= 10 < 0 + 60 * 60 * 1000000
  /\ exists s' ctok stok,
       generate_code sample_dissect 0 "client-1" "session-1" rnd0 None None
         (Some "https://dapp") (Some sample_call) (Some "Mozilla") false empty_db
       = (s', Ok (ctok, stok, Some "aaaaaaaaa", false))
       /\ (exists s'' info lid,
             sample_link_wallet 10 "wallet-1" "aaaaaaaaa" rpc1 acc1 s'
             = (s'', Ok (Some "https://dapp", true,
                         Some (stored_call sample_call stok []), info, lid,
                         sample_js_timestamp 10)))
       /\ dict_get "session_token" (stored_call sample_call stok [])
          = Some (JStr stok)
       /\ dict_get "meta" (stored_call sample_call stok []) = Some (JDict [])
       /\ (forall k, k <> "session_token" -> k <> "meta" ->
                     dict_get k (stored_call sample_call stok [])
                     = dict_get k sample_call).
Proof.
  assert (H0 : truthy_str None = false
               \/ (truthy_str None = true
                   /\ exists r0, token_by_client (str_or_empty None) empty_db = Some r0
                                 /\ (false = true \/ LinkedTokens.linked r0 = false)))
    by (left; reflexivity).
  assert (Hp : sample_call <> []) by discriminate.
  assert (Ht : 0 <= 10 < 0 + 60 * 60 * 1000000) by lia.
  split; [exact H0|]. split; [vm_compute; reflexivity|]. split; [exact Hp|].
  split; [reflexivity|]. split; [exact Ht|].
  apply (pending_call_replayed sample_digest sample_dissect sample_agent
           sample_agent sample_agent sample_agent sample_js_timestamp 0 10
           "client-1" "session-1" rnd0 None None (Some "https://dapp") sample_call
           (Some "Mozilla") false empty_db "aaaaaaaaa" "wallet-1" [] rpc1 acc1 H0);
    [vm_compute; reflexivity|exact Hp|reflexivity|exact Ht].
Defined.

Lemma wallet_messages_poll_witness :
  sample_reachable 30 s4
  /\ ("wallet-1" = EmptyString ->
      wallet_messages sample_contains "wallet-1" acc1 (Some 0) s4 = (s4, Ok []))
  /\ ("wallet-1" <> EmptyString -> forall e, index acc1 0 = Raise e ->
        wallet_messages sample_contains "wallet-1" acc1 (Some 0) s4 = (s4, Raise e))
  /\ ("wallet-1" <> EmptyString -> forall a, index acc1 0 = Ok a ->
        exists s' rows out,
          wallet_messages sample_contains "wallet-1" acc1 (Some 0) s4 = (s', Ok out)
          /\ tokens s' = tokens s4 /\ sessions s' = sessions s4
          /\ messages s' = messages s4
          /\ (forall m, In m (wallet_msgs s') <->
                        In m (wallet_msgs s4)
                        /\ ~ (addressed_to sample_contains "wallet-1" a m
                              /\ exists c, Some 0 = Some c /\ WalletMessage.id m <= c))
          /\ (forall m, In m rows <->
                        In m (wallet_msgs s')
                        /\ addressed_to sample_contains "wallet-1" a m
                        /\ forall c, Some 0 = Some c -> c < WalletMessage.id m)
          /\ StronglySorted Z.lt (map WalletMessage.id rows)
          /\ Forall2 wallet_reshaped rows out).
Proof.
  split; [apply s4_reachable|].
  apply (wallet_messages_poll sample_digest sample_dissect sample_agent
           sample_agent sample_agent sample_agent sample_js_timestamp
           sample_contains sample_checksum sample_endpoint sample_send 30
           "wallet-1" acc1 (Some 0) s4 s4_reachable).
Defined.

Lemma call_then_poll_witness :
  sample_reachable 10 s2
  /\ "client-1" <> EmptyString /\ linked_by_client "client-1" s2 = Some r2
  /\ session_of "session-1" (LinkedTokens.id r2) s2 = Some x1
  /\ _get_meta sample_dissect (LinkedTokens.current_rpc r2)
       (JList [JStr "signMessage"]) = Ok []
  /\ index acc1 0 = Ok (JStr "0xabc")
  /\ sample_contains acc1 (JStr "0xabc") = true
  /\ LinkedTokens.wallet_token r2 = Some "wallet-1"
  /\ "wallet-1" <> EmptyString
  /\ (forall c, None = Some c -> c < next_wallet_msg_id s2)
  /\ exists s' res,
       sample_call_wallet (Some "client-1") (Some "session-1") acc1 (JStr "c1")
         (JList [JStr "signMessage"]) (Some "https://dapp/back") s2 = (s', res)
       /\ (res = Ok true \/ raises res)
       /\ tokens s' = tokens s2 /\ sessions s' = sessions s2
       /\ messages s' = messages s2
       /\ exists s'' earlier out,
            wallet_messages sample_contains "wallet-1" acc1 None s'
            = (s'', Ok (earlier ++ [JDict out]))
            /\ dict_get "type" out = Some (JStr "CALL")
            /\ dict_get "id" out = Some (JNum (next_wallet_msg_id s2))
            /\ dict_get "call_id" out = Some (JStr "c1")
            /\ dict_get "call" out = Some (JList [JStr "signMessage"])
            /\ dict_get "meta" out = Some (JDict [])
            /\ dict_get "session_token" out = Some (JStr "session-1")
            /\ dict_get "return_url" out
               = (if truthy_str (Some "https://dapp/back")
                  then Some (json_of_str (Some "https://dapp/back")) else None).
Proof.
  assert (Hc : "client-1" <> EmptyString) by discriminate.
  assert (Hw : "wallet-1" <> EmptyString) by discriminate.
  assert (Hl : forall c, @None Z = Some c -> c < next_wallet_msg_id s2)
    by (intros c E; discriminate E).
  split; [apply s2_reachable|]. split; [exact Hc|].
  split; [vm_compute; reflexivity|]. split; [vm_compute; reflexivity|].
  split; [reflexivity|]. split; [reflexivity|]. split; [reflexivity|].
  split; [reflexivity|]. split; [exact Hw|]. split; [exact Hl|].
  apply (call_then_poll sample_digest sample_dissect sample_agent sample_agent
           sample_agent sample_agent sample_js_timestamp sample_contains
           sample_checksum sample_endpoint sample_send 10 "client-1" "session-1"
           "wallet-1" acc1 (JStr "c1") (JList [JStr "signMessage"]) (JStr "0xabc")
           (Some "https://dapp/back") None s2 r2 x1 [] s2_reachable Hc);
    [vm_compute; reflexivity|vm_compute; reflexivity|reflexivity|reflexivity
    |reflexivity|reflexivity|exact Hw|exact Hl].
Defined.

Lemma link_messages_not_linked_witness :
  link_messages "session-2" (Some "client-1") (Some "session-1") None s1
  = (s1, Ok (Some "client-1", Some "session-1", [], false))
  /\ s1 = s1 /\ @nil json = []
  /\ (truthy_str (Some "client-1") = false
      \/ token_by_client (str_or_empty (Some "client-1")) s1 = None
      \/ exists r, token_by_client (str_or_empty (Some "client-1")) s1 = Some r
                   /\ LinkedTokens.linked r = false).
Proof.
  assert (H : link_messages "session-2" (Some "client-1") (Some "session-1") None s1
              = (s1, Ok (Some "client-1", Some "session-1", [], false)))
    by (vm_compute; reflexivity).
  split; [exact H|].
  apply (link_messages_not_linked "session-2" (Some "client-1") (Some "session-1")
           None s1 s1 (Some "client-1") (Some "session-1") [] H).
Defined.

Lemma link_wallet_frame_witness :
  sample_reachable 0 s1
  /\ unexpired_by_code "aaaaaaaaa" 10 s1 = Some r1
  /\ Forall2 (fun a a' =>
                (a = r1 /\ a' = linked_record 10 "wallet-1" rpc1 acc1 r1)
                \/ (a <> r1 /\ a' = a))
             (tokens s1)
             (tokens (fst (sample_link_wallet 10 "wallet-1" "aaaaaaaaa" rpc1 acc1 s1))).
Proof.
  split; [apply s1_reachable|]. split; [reflexivity|].
  apply (link_wallet_frame sample_digest sample_dissect sample_agent sample_agent
           sample_agent sample_agent sample_js_timestamp sample_contains
           sample_checksum sample_endpoint sample_send 0 10 "wallet-1" "aaaaaaaaa"
           rpc1 acc1 s1 r1 s1_reachable).
  reflexivity.
Defined.

Lemma mailboxes_well_formed_witness :
  sample_reachable 30 s4
  /\ (forall m, In m (messages s4) ->
        message_ok m
        /\ exists x, In x (sessions s4)
                     /\ LinkedSession.id x = LinkedMessage.session_id m)
  /\ (forall m, In m (wallet_msgs s4) -> wallet_message_ok m).
Proof.
  split; [apply s4_reachable|].
  apply (mailboxes_well_formed sample_digest sample_dissect sample_agent
           sample_agent sample_agent sample_agent sample_js_timestamp
           sample_contains sample_checksum sample_endpoint sample_send 30 s4
           s4_reachable).
Defined.

Lemma records_well_formed_witness :
  sample_reachable 0 s1 /\ In r1 (tokens s1)
  /\ (LinkedTokens.linked r1 = true -> LinkedTokens.linked_at r1 <> None)
  /\ (LinkedTokens.code r1 <> None -> LinkedTokens.code_expires r1 <> None)
  /\ (LinkedTokens.app_info r1 = None
      \/ exists ua, LinkedTokens.app_info r1 = Some [("user-agent", JStr ua)])
  /\ (forall pc, LinkedTokens.pending_call r1 = Some pc ->
        (exists st, dict_get "session_token" pc = Some (JStr st))
        /\ exists meta, dict_get "meta" pc = Some (JDict meta)).
Proof.
  assert (Hin : In r1 (tokens s1)) by (vm_compute; left; reflexivity).
  split; [apply s1_reachable|]. split; [exact Hin|].
  apply (records_well_formed sample_digest sample_dissect sample_agent sample_agent
           sample_agent sample_agent sample_js_timestamp sample_contains
           sample_checksum sample_endpoint sample_send 0 s1 r1 s1_reachable Hin).
Defined.

(** ** Where the code departs from the specification *)

(** After the client's [unlink] the record is not linked but keeps its
    wallet token: [wallet_called] from that wallet does not raise and
    enqueues a CALL_RESPONSE row. *)
Lemma wallet_called_after_unlink :
  sample_reachable 20 s3
  /\ session_by_token "session-1" s3 = Some x1
  /\ token_by_id (LinkedSession.linked_id x1) s3 = Some r3
  /\ LinkedTokens.linked r3 = false
  /\ ~ raises (snd (wallet_called "wallet-1" (JStr "c2") "session-1" (JStr "0xsig") s3))
  /\ messages (fst (wallet_called "wallet-1" (JStr "c2") "session-1" (JStr "0xsig") s3))
     = messages s3
       ++ [LinkedMessage.mk 3 1 CALL_RESPONSE
             (JDict [("call_id", JStr "c2"); ("result", JStr "0xsig")])].
Proof.
  split; [apply s3_reachable|].
  split; [vm_compute; reflexivity|]. split; [vm_compute; reflexivity|].
  split; [reflexivity|]. split; [|vm_compute; reflexivity].
  intros [e He]. vm_compute in He. discriminate He.
Qed.

(** [generate_code] with a client token that no record has raises. *)
Lemma generate_code_unknown_client :
  generate_code sample_dissect 0 "client-1" "session-1" rnd0 (Some "ghost")
    None None None None false empty_db
  = (empty_db, Raise AttributeError).
Proof. reflexivity. Qed.
